(** * Beacon delivery accounting of [scratch/vanet-routing-compare.cc]

    A shallow embedding of the WAVE/BSM accounting core of the ns-3 script
    [vanet-routing-compare.cc]: [getDistSq], [ReceiveWavePacket],
    [GenerateWaveTraffic], [CheckThroughput] and the final ratio of
    [VanetRoutingExperiment::Run].

    - C++ [double] is IEEE 754 binary64: Rocq's primitive [float].
    - C++ [int] counters are 32-bit; [c++] is written with its
      two's-complement wrap-around ([wrap_int]).  Signed overflow is
      undefined in C++, so the theorems about increments say in which range
      of the counters they hold.
    - [uint32_t] packet sizes and budgets are in [N]; the only subtraction,
      [pktCount - 1], is made under [pktCount > 0].  Node ids index the node
      container and are in [nat].
    - [NS_ASSERT (p != 0)] on a missing mobility model, and an index past
      the end of a container, abort the run: the handlers return [option].
    - What the handlers do to the simulator and to sockets ([Send], [Close],
      [Simulator::Schedule]) is returned as a list of [Action]s.
    - Console logging ([NS_LOG_UNCOND]) changes no state and is left out.

    Part I embeds the handlers; Part II names what the properties talk
    about; Part III is the event loop that drives the handlers in the
    scenarios; Part IV has the concrete worlds; Part V embeds more of the
    script (the routing sink, the scenario setup, the CSV files, the routing
    setup and the final statistics); Part VI proves the properties of the
    accounting core and Part VII those of the rest. *)

From Stdlib Require Import ZArith NArith List Bool Lia String Floats Uint63.
From Stdlib Require Import Permutation.
Import ListNotations.

Local Open Scope Z_scope.

(** * Part I: the handlers, from the source *)

(** ** Machine integers *)

Definition INT_MAX : Z := 2147483647.
Definition INT_MIN : Z := -2147483648.

(** Two's-complement reduction into the range of a 32-bit [int]. *)
Definition wrap_int (z : Z) : Z := (z + 2 ^ 31) mod 2 ^ 32 - 2 ^ 31.

(** [c++] on an [int]. *)
Definition int_incr (c : Z) : Z := wrap_int (c + 1).

(** [(int) u] for a [uint32_t] value [u]. *)
Definition int_of_uint32 (u : Z) : Z := wrap_int u.

(** [(double) n] for an [int] (or [uint32_t]) value: exact, since every
    32-bit integer is a binary64 number. *)
Definition double_of_int (n : Z) : float :=
  if n <? 0 then PrimFloat.opp (PrimFloat.of_uint63 (Uint63.of_Z (- n)))
  else PrimFloat.of_uint63 (Uint63.of_Z n).

(** ** Failure: the option monad *)

Definition bind {A B : Type} (m : option A) (k : A -> option B) : option B :=
  match m with
  | Some a => k a
  | None => None
  end.

Notation "x <- m ;; k" := (bind m (fun x => k))
  (at level 61, m at next level, right associativity).

(** A [for] loop over a container whose body may abort. *)
Fixpoint forEachM {A S : Type} (body : S -> A -> option S) (l : list A) (s : S)
  : option S :=
  match l with
  | [] => Some s
  | a :: l' => s' <- body s a ;; forEachM body l' s'
  end.

(** [for (int i = lo; ...; i++)] run [n] times from [i]. *)
Fixpoint forIndexM {S : Type} (body : S -> Z -> option S) (n : nat) (i : Z) (s : S)
  : option S :=
  match n with
  | O => Some s
  | S n' => s' <- body s i ;; forIndexM body n' (i + 1) s'
  end.

(** ** The data the handlers read *)

(** [ns3::Vector]. *)
Record Vector : Set := mkVector { x : float; y : float; z : float }.

(** What a [MobilityModel] answers at the current simulated instant. *)
Record MobilityModel : Set := mkMobility {
  GetPosition : Vector;
  GetVelocity : Vector
}.

(** A [Ptr<Node>]: a node is identified by the id the node list gave it. *)
Record Node : Set := mkNode { GetId : nat }.

Definition Ipv4Address := Z.

(** Simulated time, in nanoseconds (the simulator's default resolution). *)
Definition Time := Z.

Record Socket : Set := mkSocket { GetNode : Node }.

(** A received packet: its size and the address carried by its
    [SocketAddressTag], if [PeekPacketTag] finds one. *)
Record Packet : Set := mkPacket {
  GetSize : N;
  PeekPacketTag : option Ipv4Address
}.

(** The four static counters of [VanetRoutingExperiment]. *)
Record WaveCounters : Set := mkCounters {
  wavePktSendCount : Z;
  wavePktReceiveCount : Z;
  wavePktInCoverageReceiveCount : Z;
  wavePktExpectedReceiveCount : Z
}.

(** Everything the handlers only read: the mobility oracle
    ([GetObject<MobilityModel> ()], [None] for a null pointer), the static
    [m_adhocTxNodes] and [m_txSafetyRangeSq], and the members [m_nNodes] and
    [m_adhocTxInterfaces] (address and node of each interface). *)
Record Env : Type := mkEnv {
  GetMobilityModel : Node -> option MobilityModel;
  m_adhocTxNodes : list Node;
  m_txSafetyRangeSq : float;
  m_nNodes : Z;
  m_adhocTxInterfaces : list (Ipv4Address * Node)
}.

(** [NodeContainer::Get (i)]. *)
Definition Get (n : list Node) (i : nat) : option Node := nth_error n i.

(** [Ipv4InterfaceContainer::GetAddress (i)] and [Get (i)]. *)
Definition GetInterface (t : list (Ipv4Address * Node)) (i : Z)
  : option (Ipv4Address * Node) :=
  if i <? 0 then None else nth_error t (Z.to_nat i).

Definition initial_counters : WaveCounters := mkCounters 0 0 0 0.

(** ** Geometry and motion *)

(** C++ [a != b] on doubles. *)
Definition fneq (a b : float) : bool := negb (PrimFloat.eqb a b).

(** [getDistSq (n1, n2)]: the squared distance in the (x, y) plane. *)
Definition getDistSq (env : Env) (n1 n2 : Node) : option float :=
  rxPosition <- GetMobilityModel env n1 ;;
  let rxPos := GetPosition rxPosition in
  let rx_x := x rxPos in
  let rx_y := y rxPos in
  txPosition <- GetMobilityModel env n2 ;;
  let txPos := GetPosition txPosition in
  let tx_x := x txPos in
  let tx_y := y txPos in
  Some ((tx_x - rx_x) * (tx_x - rx_x) + (tx_y - rx_y) * (tx_y - rx_y))%float.

(** The receiver gate, used by [ReceiveWavePacket] and by the scan of
    [GenerateWaveTraffic]: [rxVel.x != 0.0 || rxVel.y != 0.0]. *)
Definition receiverMoving (rxVel : Vector) : bool :=
  if fneq (x rxVel) 0%float || fneq (y rxVel) 0%float then true else false.

(** The sender gate of [GenerateWaveTraffic]:
    [(txVel.x == 0.0) && (txVel.y == 0.0)] means not moving. *)
Definition senderMoving (txVel : Vector) : bool :=
  if PrimFloat.eqb (x txVel) 0%float && PrimFloat.eqb (y txVel) 0%float
  then false else true.

(** ** Counter updates *)

Definition incrSendCount (c : WaveCounters) : WaveCounters :=
  mkCounters (int_incr (wavePktSendCount c)) (wavePktReceiveCount c)
             (wavePktInCoverageReceiveCount c) (wavePktExpectedReceiveCount c).

Definition incrReceiveCount (c : WaveCounters) : WaveCounters :=
  mkCounters (wavePktSendCount c) (int_incr (wavePktReceiveCount c))
             (wavePktInCoverageReceiveCount c) (wavePktExpectedReceiveCount c).

Definition incrInCoverageReceiveCount (c : WaveCounters) : WaveCounters :=
  mkCounters (wavePktSendCount c) (wavePktReceiveCount c)
             (int_incr (wavePktInCoverageReceiveCount c))
             (wavePktExpectedReceiveCount c).

Definition incrExpectedReceiveCount (c : WaveCounters) : WaveCounters :=
  mkCounters (wavePktSendCount c) (wavePktReceiveCount c)
             (wavePktInCoverageReceiveCount c)
             (int_incr (wavePktExpectedReceiveCount c)).

(** ** [VanetRoutingExperiment::ReceiveWavePacket] *)

(** Body of the scan [for (int i = 0; i < (int) m_nNodes; i++)] over the
    interface table: the entry whose address is the packet's is the sender,
    and it counts when it is within the safety range of the receiver. *)
Definition resolveSender (env : Env) (node : Node) (addr : Ipv4Address)
    (c : WaveCounters) (i : Z) : option WaveCounters :=
  xx <- GetInterface (m_adhocTxInterfaces env) i ;;
  if addr =? fst xx then
    let txNode := snd xx in
    rxDistSq <- getDistSq env node txNode ;;
    if (rxDistSq <=? m_txSafetyRangeSq env)%float
    then Some (incrInCoverageReceiveCount c)
    else Some c
  else Some c.

(** Body of [while ((packet = socket->Recv ()))]. *)
Definition receiveOne (env : Env) (socket : Socket) (c : WaveCounters)
    (packet : Packet) : option WaveCounters :=
  let c := incrReceiveCount c in
  let node := GetNode socket in
  rxPosition <- GetMobilityModel env node ;;
  let rxVel := GetVelocity rxPosition in
  if receiverMoving rxVel then
    match PeekPacketTag packet with
    | Some addr =>
        forIndexM (resolveSender env node addr)
                  (Z.to_nat (int_of_uint32 (m_nNodes env))) 0 c
    | None => Some c
    end
  else Some c.

(** The handler drains every packet queued on the socket, in order. *)
Definition ReceiveWavePacket (env : Env) (socket : Socket) (queue : list Packet)
    (c : WaveCounters) : option WaveCounters :=
  forEachM (receiveOne env socket) queue c.

(** ** [GenerateWaveTraffic] *)

Inductive Event : Set :=
| EvGenerateWaveTraffic (socket : Socket) (pktSize pktCount : N) (pktInterval : Time)
| EvCheckThroughput.

(** What a handler asks of the transport and of the simulator. *)
Inductive Action : Set :=
| ActSend (socket : Socket) (pktSize : N)
| ActClose (socket : Socket)
| ActSchedule (delay : Time) (ev : Event).

(** Body of the scan over [m_adhocTxNodes] that counts the nodes expected
    to receive the beacon just sent by node [txNodeId]. *)
Definition expectReceiver (env : Env) (txNodeId : nat) (c : WaveCounters)
    (object : Node) : option WaveCounters :=
  let rxNodeId := GetId object in
  if negb (Nat.eqb rxNodeId txNodeId) then
    rxPosition <- GetMobilityModel env object ;;
    let rxVel := GetVelocity rxPosition in
    if receiverMoving rxVel then
      txNode <- Get (m_adhocTxNodes env) txNodeId ;;
      distSq <- getDistSq env txNode object ;;
      if (distSq <=? m_txSafetyRangeSq env)%float
      then Some (incrExpectedReceiveCount c)
      else Some c
    else Some c
  else Some c.

Definition GenerateWaveTraffic (env : Env) (c : WaveCounters) (socket : Socket)
    (pktSize pktCount : N) (pktInterval : Time)
  : option (WaveCounters * list Action) :=
  if (0 <? pktCount)%N then
    let txNodeId := GetId (GetNode socket) in
    let n := m_adhocTxNodes env in
    txNode <- Get n txNodeId ;;
    txPosition <- GetMobilityModel env txNode ;;
    let txVel := GetVelocity txPosition in
    r <- (if senderMoving txVel then
            let c := incrSendCount c in
            c' <- forEachM (expectReceiver env txNodeId) n c ;;
            Some (c', [ActSend socket pktSize])
          else Some (c, [])) ;;
    Some (fst r,
          snd r ++ [ActSchedule pktInterval
                      (EvGenerateWaveTraffic socket pktSize (pktCount - 1) pktInterval)])
  else Some (c, [ActClose socket]).

(** ** [VanetRoutingExperiment::CheckThroughput] *)

(** The members of the experiment that the sampler reads or resets. *)
Record Members : Set := mkMembers {
  bytesTotal : Z;
  packetsReceived : Z;
  m_nSinks : Z;
  m_protocolName : string;
  m_txp : float
}.

(** One line of the interval CSV file, field by field in the order written. *)
Record Row : Set := mkRow {
  row_now : Time;  (* [Simulator::Now ()], printed in seconds *)
  row_kbs : float;
  row_packetsReceived : Z;
  row_nSinks : Z;
  row_protocolName : string;
  row_txp : float;
  row_wavePktReceiveCount : Z;
  row_wavePktSendCount : Z;
  row_wavePDR : float;
  row_wavePktExpectedReceiveCount : Z;
  row_wavePktInCoverageReceiveCount : Z;
  row_wavePDR2 : float
}.

(** [Seconds (1.0)], in nanoseconds. *)
Definition Seconds_1 : Time := 1000000000.

(** The interval ratio [wavePDR]. *)
Definition wavePDR (c : WaveCounters) : float :=
  if 0 <? wavePktSendCount c
  then (double_of_int (wavePktReceiveCount c) / double_of_int (wavePktSendCount c))%float
  else 0%float.

(** The cumulative in-coverage ratio [wavePDR2]. *)
Definition wavePDR2 (c : WaveCounters) : float :=
  if 0 <? wavePktExpectedReceiveCount c
  then (double_of_int (wavePktInCoverageReceiveCount c)
        / double_of_int (wavePktExpectedReceiveCount c))%float
  else 0%float.

(** What one call of the sampler leaves behind: the members and counters
    after it, the row it appended to the CSV file, and what it scheduled. *)
Record Sample : Set := mkSample {
  sample_members : Members;
  sample_counters : WaveCounters;
  sample_row : Row;
  sample_actions : list Action
}.

Definition CheckThroughput (now : Time) (m : Members) (c : WaveCounters) : Sample :=
  let kbs := (double_of_int (bytesTotal m) * 8 / 1000)%float in
  let wavePDR := wavePDR c in
  let wavePDR2 := wavePDR2 c in
  (* bytesTotal = 0; *)
  let bytesTotal' := 0 in
  let row :=
    mkRow now kbs (packetsReceived m) (m_nSinks m)
          (m_protocolName m) (m_txp m)
          (wavePktReceiveCount c) (wavePktSendCount c) wavePDR
          (wavePktExpectedReceiveCount c) (wavePktInCoverageReceiveCount c)
          wavePDR2 in
  (* packetsReceived = 0; wavePktReceiveCount = 0; wavePktSendCount = 0; *)
  let m' := mkMembers bytesTotal' 0 (m_nSinks m) (m_protocolName m) (m_txp m) in
  let c' := mkCounters 0 0 (wavePktInCoverageReceiveCount c)
                       (wavePktExpectedReceiveCount c) in
  mkSample m' c' row [ActSchedule Seconds_1 EvCheckThroughput].

(** ** The final ratio of [VanetRoutingExperiment::Run] *)

Definition bsm_pdr (c : WaveCounters) : float :=
  if 0 <? wavePktExpectedReceiveCount c
  then (double_of_int (wavePktInCoverageReceiveCount c)
        / double_of_int (wavePktExpectedReceiveCount c))%float
  else 0%float.

(** * Part II: the vocabulary of the properties *)

(** ** Motion, distance and coverage, in the words of the specification *)

(** A node moves when the x or the y component of its velocity is nonzero. *)
Definition spec_moving (m : MobilityModel) : bool :=
  fneq (x (GetVelocity m)) 0%float || fneq (y (GetVelocity m)) 0%float.

(** Squared Euclidean distance of two positions in the (x, y) plane. *)
Definition spec_distSq (p q : Vector) : float :=
  ((x q - x p) * (x q - x p) + (y q - y p) * (y q - y p))%float.

(** A node of the transmitter set is expected to receive the beacon of
    [sender] (whose mobility is [sm]) when it is another node, it moves, and
    it is within the safety range of the sender. *)
Definition spec_expected (env : Env) (sender : Node) (sm : MobilityModel)
    (o : Node) : bool :=
  negb (Nat.eqb (GetId o) (GetId sender)) &&
  match GetMobilityModel env o with
  | Some om =>
      spec_moving om &&
      (spec_distSq (GetPosition sm) (GetPosition om) <=? m_txSafetyRangeSq env)%float
  | None => false
  end.

Definition spec_expectedCount (env : Env) (sender : Node) (sm : MobilityModel)
    (l : list Node) : Z :=
  Z.of_nat (List.length (filter (spec_expected env sender sm) l)).

(** A node with a mobility model that moves. *)
Definition movingNode (env : Env) (o : Node) : bool :=
  match GetMobilityModel env o with
  | Some m => spec_moving m
  | None => false
  end.

(** Node [a] is within the safety range of node [b]. *)
Definition inRange (env : Env) (a b : Node) : bool :=
  match GetMobilityModel env a, GetMobilityModel env b with
  | Some ma, Some mb =>
      (spec_distSq (GetPosition ma) (GetPosition mb) <=? m_txSafetyRangeSq env)%float
  | _, _ => false
  end.

(** The number of moving nodes of the transmitter set. *)
Definition spec_movers (env : Env) : Z :=
  Z.of_nat (List.length (filter (movingNode env) (m_adhocTxNodes env))).

(** The sender address of a beacon cannot be resolved: the packet carries
    no address tag, or no interface of the table has the tagged address. *)
Definition spec_unresolved (env : Env) (packet : Packet) : Prop :=
  match PeekPacketTag packet with
  | None => True
  | Some addr => ~ In addr (map fst (m_adhocTxInterfaces env))
  end.

(** ** Well-formed worlds and counters *)

(** The interface table has one entry per node, as [AssignIpAddresses]
    builds it from the devices installed on the [m_nNodes] nodes. *)
Definition interfaces_wf (env : Env) : Prop :=
  Z.of_nat (List.length (m_adhocTxInterfaces env)) = m_nNodes env /\
  m_nNodes env <= INT_MAX.

(** All four counters are within the range of an [int]. *)
Definition counters_in_range (c : WaveCounters) : Prop :=
  (INT_MIN <= wavePktSendCount c <= INT_MAX) /\
  (INT_MIN <= wavePktReceiveCount c <= INT_MAX) /\
  (INT_MIN <= wavePktInCoverageReceiveCount c <= INT_MAX) /\
  (INT_MIN <= wavePktExpectedReceiveCount c <= INT_MAX).

Definition addExpected (c : WaveCounters) (k : Z) : WaveCounters :=
  mkCounters (wavePktSendCount c) (wavePktReceiveCount c)
             (wavePktInCoverageReceiveCount c) (wavePktExpectedReceiveCount c + k).

Definition addCounters (c : WaveCounters) (sent received inCoverage expected : Z)
  : WaveCounters :=
  mkCounters (wavePktSendCount c + sent) (wavePktReceiveCount c + received)
             (wavePktInCoverageReceiveCount c + inCoverage)
             (wavePktExpectedReceiveCount c + expected).

(** The scan of [resolveSender], entry by entry. *)
Definition resolveEntry (env : Env) (node : Node) (addr : Ipv4Address)
    (c : WaveCounters) (xx : Ipv4Address * Node) : option WaveCounters :=
  if addr =? fst xx then
    rxDistSq <- getDistSq env node (snd xx) ;;
    if (rxDistSq <=? m_txSafetyRangeSq env)%float
    then Some (incrInCoverageReceiveCount c)
    else Some c
  else Some c.

(** * Part III: the event loop around the handlers *)

(** Modelled from the spec: the discrete-event scheduler of the simulation
    engine ([Simulator::Schedule], [Simulator::Stop], [Simulator::Run]) is
    not part of the script.  Events run in non-decreasing order of simulated
    time and, at equal times, in the order in which they were scheduled;
    every handler runs to completion before the next event. *)
Definition EventQueue : Set := list (Time * Event).

(** Insertion that keeps the queue sorted by time and puts a new event
    behind those already scheduled for the same instant. *)
Fixpoint insertEvent (t : Time) (ev : Event) (q : EventQueue) : EventQueue :=
  match q with
  | [] => [(t, ev)]
  | (t', ev') :: q' =>
      if t <? t' then (t, ev) :: q else (t', ev') :: insertEvent t ev q'
  end.

(** Modelled from the spec: the transport between the sockets is not part
    of the script either.  A network says which sockets a beacon sent from
    a socket is delivered to, and which address the transport puts in the
    tag of a packet sent by a node. *)
Record Network : Type := mkNetwork {
  net_receivers : Socket -> list Socket;
  net_address : Node -> Ipv4Address
}.

(** The state of a run: the clock, the pending events, the counters and
    members of the experiment, and three logs: the events fired, what reached
    the transport ([Send], [Close]), and the rows written. *)
Record Sim : Type := mkSim {
  sim_now : Time;
  sim_queue : EventQueue;
  sim_counters : WaveCounters;
  sim_members : Members;
  sim_fired : list (Time * Event);
  sim_transport : list (Time * Action);
  sim_rows : list Row
}.

(** The [Simulator::Schedule] calls of a handler that ran at [now]. *)
Fixpoint scheduleActions (now : Time) (acts : list Action) (q : EventQueue)
  : EventQueue :=
  match acts with
  | [] => q
  | ActSchedule delay ev :: acts' =>
      scheduleActions now acts' (insertEvent (now + delay) ev q)
  | _ :: acts' => scheduleActions now acts' q
  end.

(** The [Send] and [Close] calls of a handler that ran at [now]. *)
Fixpoint transportActions (now : Time) (acts : list Action) : list (Time * Action) :=
  match acts with
  | [] => []
  | ActSchedule _ _ :: acts' => transportActions now acts'
  | a :: acts' => (now, a) :: transportActions now acts'
  end.

(** Every beacon sent is handed to [ReceiveWavePacket] on each socket the
    network delivers it to, tagged with the address of its sender.  The
    delivery is taken at the instant of the send: the receptions only add
    to the counters, so their order among other events does not matter. *)
Fixpoint deliverActions (net : Network) (env : Env) (acts : list Action)
    (c : WaveCounters) : option WaveCounters :=
  match acts with
  | [] => Some c
  | ActSend socket pktSize :: acts' =>
      c' <- forEachM
              (fun c recvSink =>
                 ReceiveWavePacket env recvSink
                   [mkPacket pktSize (Some (net_address net (GetNode socket)))] c)
              (net_receivers net socket) c ;;
      deliverActions net env acts' c'
  | _ :: acts' => deliverActions net env acts' c
  end.

(** Firing the event [ev] at time [t]. *)
Definition fire (net : Network) (env : Env) (t : Time) (ev : Event)
    (q : EventQueue) (s : Sim) : option Sim :=
  match ev with
  | EvGenerateWaveTraffic socket pktSize pktCount pktInterval =>
      r <- GenerateWaveTraffic env (sim_counters s) socket pktSize pktCount
             pktInterval ;;
      c' <- deliverActions net env (snd r) (fst r) ;;
      Some (mkSim t (scheduleActions t (snd r) q) c' (sim_members s)
                  (sim_fired s ++ [(t, ev)])
                  (sim_transport s ++ transportActions t (snd r))
                  (sim_rows s))
  | EvCheckThroughput =>
      let r := CheckThroughput t (sim_members s) (sim_counters s) in
      Some (mkSim t (scheduleActions t (sample_actions r) q)
                  (sample_counters r) (sample_members r)
                  (sim_fired s ++ [(t, ev)])
                  (sim_transport s)
                  (sim_rows s ++ [sample_row r]))
  end.

Inductive Outcome : Type :=
| Finished (s : Sim)
| OutOfFuel (s : Sim)
| Aborted.

(** [Simulator::Run] after [Simulator::Stop (stop)]: events are fired in
    queue order until none is left before the stop time. *)
Fixpoint run (net : Network) (env : Env) (stop : Time) (fuel : nat) (s : Sim)
  : Outcome :=
  match sim_queue s with
  | [] => Finished s
  | (t, ev) :: q =>
      if stop <=? t then Finished s
      else
        match fuel with
        | O => OutOfFuel s
        | S fuel' =>
            match fire net env t ev q s with
            | Some s' => run net env stop fuel' s'
            | None => Aborted
            end
        end
  end.

(** The counters at the end of a run, if it ran to the end. *)
Definition final_counters (o : Outcome) : option WaveCounters :=
  match o with
  | Finished s => Some (sim_counters s)
  | _ => None
  end.

(** A network that delivers nothing. *)
Definition quiet_net : Network := mkNetwork (fun _ => []) (fun _ => 0).

(** ** One generator, one beacon per sender *)

(** The events fired and the transport calls made by one generator that
    starts at [t] with a budget of [b] beacons, as the specification
    describes them: a sending tick every [pktInterval] while the budget
    lasts, then one last tick that closes the socket. *)
Fixpoint generator_fired (socket : Socket) (pktSize : N) (pktInterval : Time)
    (t : Time) (b : nat) : list (Time * Event) :=
  (t, EvGenerateWaveTraffic socket pktSize (N.of_nat b) pktInterval) ::
  match b with
  | O => []
  | S b' => generator_fired socket pktSize pktInterval (t + pktInterval) b'
  end.

Fixpoint generator_transport (socket : Socket) (pktSize : N) (pktInterval : Time)
    (t : Time) (b : nat) : list (Time * Action) :=
  match b with
  | O => [(t, ActClose socket)]
  | S b' =>
      (t, ActSend socket pktSize) ::
      generator_transport socket pktSize pktInterval (t + pktInterval) b'
  end.

(** The tick of a sender with a budget of one beacon, followed by the
    reception of that beacon on every socket the network delivers it to:
    what the counters go through when the generator event of [socket]
    fires. *)
Definition sendAndDeliver (net : Network) (env : Env) (pktSize : N)
    (pktInterval : Time) (c : WaveCounters) (socket : Socket)
  : option WaveCounters :=
  r <- GenerateWaveTraffic env c socket pktSize 1 pktInterval ;;
  deliverActions net env (snd r) (fst r).

(** The number of deliveries of the beacons of [senders]. *)
Definition spec_deliveries (net : Network) (senders : list Socket) : Z :=
  Z.of_nat (List.length (flat_map (net_receivers net) senders)).

(** What the one-beacon-per-sender theorem asks of a sender: it is stored
    at its own id in the transmitter container, it moves, the interface
    table maps its address to it, and everyone its beacon is delivered to
    moves and is within the safety range of it. *)
Definition sender_ok (net : Network) (env : Env) (s : Socket) : Prop :=
  Get (m_adhocTxNodes env) (GetId (GetNode s)) = Some (GetNode s) /\
  movingNode env (GetNode s) = true /\
  In (net_address net (GetNode s), GetNode s) (m_adhocTxInterfaces env) /\
  Forall (fun r => movingNode env (GetNode r) = true /\
                   inRange env (GetNode r) (GetNode s) = true)
         (net_receivers net s).

(** Executable versions of the side conditions, to check them on a
    concrete world by computation. *)
Definition sender_okb (net : Network) (env : Env) (s : Socket) : bool :=
  match Get (m_adhocTxNodes env) (GetId (GetNode s)) with
  | Some n => Nat.eqb (GetId n) (GetId (GetNode s))
  | None => false
  end &&
  movingNode env (GetNode s) &&
  existsb (fun xx => Z.eqb (fst xx) (net_address net (GetNode s)) &&
                     Nat.eqb (GetId (snd xx)) (GetId (GetNode s)))
          (m_adhocTxInterfaces env) &&
  forallb (fun r => movingNode env (GetNode r) &&
                    inRange env (GetNode r) (GetNode s))
          (net_receivers net s).

Definition all_in_rangeb (env : Env) : bool :=
  forallb (fun a =>
             forallb (fun b =>
                        Nat.eqb (GetId a) (GetId b) ||
                        negb (movingNode env a && movingNode env b) ||
                        inRange env a b)
                     (m_adhocTxNodes env))
          (m_adhocTxNodes env).

Definition all_mobilityb (env : Env) : bool :=
  forallb (fun o => match GetMobilityModel env o with Some _ => true | None => false end)
          (m_adhocTxNodes env).

(** * Part IV: concrete worlds *)

(** ** A small world used to instantiate the theorems

    Three nodes: node 0 at the origin and node 1 at (30, 40) both move;
    node 2 at (3, 4) only has a vertical velocity.  The safety range is
    50 m, so node 1 is exactly on the boundary of node 0. *)

Definition demo_mobility (n : Node) : option MobilityModel :=
  match GetId n with
  | 0%nat => Some (mkMobility (mkVector 0 0 0) (mkVector 1 0 0))
  | 1%nat => Some (mkMobility (mkVector 30 40 0) (mkVector 0 2 0))
  | 2%nat => Some (mkMobility (mkVector 3 4 0) (mkVector 0 0 5))
  | _ => None
  end.

Definition demo_env : Env :=
  mkEnv demo_mobility [mkNode 0; mkNode 1; mkNode 2] 2500 3
        [(167837697, mkNode 0); (167837698, mkNode 1); (167837699, mkNode 2)].

Definition demo_members : Members := mkMembers 0 0 10 "AODV" 20.

(** ** Scenario 3 *)

(** Scenario 3: one moving sender (node 0 of the small world) with a budget
    of 3 beacons, one every second, first tick at t = 1 s. *)
Definition scenario3_socket : Socket := mkSocket (mkNode 0).

Definition scenario3_start : Sim :=
  mkSim 0 [(1000000000,
            EvGenerateWaveTraffic scenario3_socket 200 3 1000000000)]
        initial_counters demo_members [] [] [].

Definition scenario3_final : Sim :=
  mkSim 4000000000 [] (mkCounters 3 0 0 3) demo_members
        [(1000000000, EvGenerateWaveTraffic scenario3_socket 200 3 1000000000);
         (2000000000, EvGenerateWaveTraffic scenario3_socket 200 2 1000000000);
         (3000000000, EvGenerateWaveTraffic scenario3_socket 200 1 1000000000);
         (4000000000, EvGenerateWaveTraffic scenario3_socket 200 0 1000000000)]
        [(1000000000, ActSend scenario3_socket 200);
         (2000000000, ActSend scenario3_socket 200);
         (3000000000, ActSend scenario3_socket 200);
         (4000000000, ActClose scenario3_socket)]
        [].

(** ** Scenario 1 *)

(** Scenario 1: ten transmitters (nodes 0 to 9), all moving, each 50 m away
    from one observer (node 10) at the origin; the safety range is 100 m;
    every transmitter has a budget of one beacon.  The observer's velocity
    and the number [k] of nodes in the transmitter set (10: the transmitters
    alone, 11: the observer as well) are left open. *)
Definition scenario1_positions : list Vector :=
  [mkVector 50 0 0; mkVector 0 50 0; mkVector (-50) 0 0; mkVector 0 (-50) 0;
   mkVector 30 40 0; mkVector 40 30 0; mkVector (-30) 40 0; mkVector (-40) 30 0;
   mkVector 30 (-40) 0; mkVector (-40) (-30) 0].

Definition scenario1_observer : Node := mkNode 10.

Definition scenario1_mobility (observerVelocity : Vector) (n : Node)
  : option MobilityModel :=
  if Nat.eqb (GetId n) 10 then Some (mkMobility (mkVector 0 0 0) observerVelocity)
  else
    match nth_error scenario1_positions (GetId n) with
    | Some p => Some (mkMobility p (mkVector 1 0 0))
    | None => None
    end.

Definition scenario1_address (n : Node) : Ipv4Address :=
  167837697 + Z.of_nat (GetId n).

Definition scenario1_env (observerVelocity : Vector) (k : nat) : Env :=
  mkEnv (scenario1_mobility observerVelocity)
        (map mkNode (seq 0 k)) 10000 (Z.of_nat k)
        (map (fun i => (scenario1_address (mkNode i), mkNode i)) (seq 0 k)).

Definition moving_observer : Vector := mkVector 0 1 0.
Definition fixed_observer : Vector := mkVector 0 0 0.

(** Every beacon reaches the observer, and nobody else. *)
Definition scenario1_to_observer : Network :=
  mkNetwork (fun _ => [mkSocket scenario1_observer]) scenario1_address.

(** Every beacon reaches every other one of the eleven nodes. *)
Definition scenario1_to_all : Network :=
  mkNetwork (fun socket =>
               map mkSocket
                   (filter (fun n => negb (Nat.eqb (GetId n) (GetId (GetNode socket))))
                           (map mkNode (seq 0 11))))
            scenario1_address.

(** The sockets of the ten transmitters of scenario 1. *)
Definition scenario1_senders : list Socket := map (fun i => mkSocket (mkNode i)) (seq 0 10).

(** The ten generators, started with a small stagger after t = 1 s, with a
    budget of one beacon and the default interval of 0.1 s. *)
Definition scenario1_start : Sim :=
  mkSim 0
        (map (fun i => (1000000000 + 1000 * Z.of_nat (S i),
                        EvGenerateWaveTraffic (mkSocket (mkNode i)) 200 1 100000000))
             (seq 0 10))
        initial_counters demo_members [] [] [].

(** * Part V: what the further properties are about *)

(** ** Counting the hits of one beacon *)

(** The scan of [resolveSender] with a plain count in place of the
    counters: how many times the in-coverage counter is incremented for a
    beacon tagged [addr] and received by [node]. *)
Definition countSender (env : Env) (node : Node) (addr : Ipv4Address)
    (k : nat) (i : Z) : option nat :=
  xx <- GetInterface (m_adhocTxInterfaces env) i ;;
  if addr =? fst xx then
    rxDistSq <- getDistSq env node (snd xx) ;;
    if (rxDistSq <=? m_txSafetyRangeSq env)%float then Some (S k) else Some k
  else Some k.

(** The number of in-coverage increments that one drained beacon causes,
    or [None] when handling it aborts.  It does not depend on the counters. *)
Definition receiveHits (env : Env) (socket : Socket) (packet : Packet)
  : option nat :=
  rxPosition <- GetMobilityModel env (GetNode socket) ;;
  if receiverMoving (GetVelocity rxPosition) then
    match PeekPacketTag packet with
    | Some addr =>
        forIndexM (countSender env (GetNode socket) addr)
                  (Z.to_nat (int_of_uint32 (m_nNodes env))) 0 0%nat
    | None => Some 0%nat
    end
  else Some 0%nat.

(** The counters after a beacon that caused [k] in-coverage increments. *)
Definition afterBeacon (c : WaveCounters) (k : nat) : WaveCounters :=
  mkCounters (wavePktSendCount c) (int_incr (wavePktReceiveCount c))
             (Nat.iter k int_incr (wavePktInCoverageReceiveCount c))
             (wavePktExpectedReceiveCount c).

(** The interfaces of the table that carry [addr] and whose node is
    within the safety range of [node]. *)
Definition spec_hits (env : Env) (node : Node) (addr : Ipv4Address) : nat :=
  List.length
    (filter (fun xx : Ipv4Address * Node =>
               Z.eqb addr (fst xx) && inRange env node (snd xx))
            (m_adhocTxInterfaces env)).

(** A world in which two interfaces carry the same address: nodes 0 and 1
    of the small world, node 1 listed twice. *)
Definition twin_env : Env :=
  mkEnv demo_mobility [mkNode 0; mkNode 1; mkNode 2] 2500 3
        [(167837698, mkNode 1); (167837698, mkNode 1); (167837699, mkNode 2)].

(** [k] increments of the in-coverage counter. *)
Definition addHits (c : WaveCounters) (k : nat) : WaveCounters :=
  mkCounters (wavePktSendCount c) (wavePktReceiveCount c)
             (Nat.iter k int_incr (wavePktInCoverageReceiveCount c))
             (wavePktExpectedReceiveCount c).

(** ** Following one generator from tick to tick *)

(** The event that a handler rescheduled, if any. *)
Fixpoint scheduled (acts : list Action) : option (Time * Event) :=
  match acts with
  | [] => None
  | ActSchedule delay ev :: _ => Some (delay, ev)
  | _ :: acts' => scheduled acts'
  end.

Inductive ChainOutcome : Set :=
| ChainEnded (c : WaveCounters) (log : list (Time * Action))
| ChainOutOfFuel
| ChainAborted.

(** One generator followed through the events it schedules for itself:
    the handler runs at [t] in the world of that instant, [envAt t], and the
    event it schedules runs after the delay it asked for.  The log keeps
    the [Send] and [Close] calls with their times. *)
Fixpoint generatorChain (envAt : Time -> Env) (fuel : nat) (t : Time)
    (c : WaveCounters) (ev : Event) (log : list (Time * Action)) : ChainOutcome :=
  match fuel with
  | O => ChainOutOfFuel
  | S fuel' =>
      match ev with
      | EvCheckThroughput => ChainEnded c log
      | EvGenerateWaveTraffic socket pktSize pktCount pktInterval =>
          match GenerateWaveTraffic (envAt t) c socket pktSize pktCount pktInterval with
          | None => ChainAborted
          | Some (c', acts) =>
              match scheduled acts with
              | Some (delay, ev') =>
                  generatorChain envAt fuel' (t + delay) c' ev'
                                 (log ++ transportActions t acts)
              | None => ChainEnded c' (log ++ transportActions t acts)
              end
          end
      end
  end.

(** What the chain of a socket with budget [b] is expected to log when the
    mobility changes over time: a beacon at each of the [b] tick times at
    which the sender moves, then the [Close]. *)
Fixpoint chain_log (envAt : Time -> Env) (socket : Socket) (pktSize : N)
    (pktInterval : Time) (t : Time) (b : nat) : list (Time * Action) :=
  match b with
  | O => [(t, ActClose socket)]
  | S b' =>
      (if movingNode (envAt t) (GetNode socket)
       then [(t, ActSend socket pktSize)] else []) ++
      chain_log envAt socket pktSize pktInterval (t + pktInterval) b'
  end.

(** The number of tick times at which the sender moves. *)
Fixpoint chain_sends (envAt : Time -> Env) (socket : Socket) (pktInterval : Time)
    (t : Time) (b : nat) : nat :=
  match b with
  | O => 0
  | S b' =>
      (if movingNode (envAt t) (GetNode socket) then 1 else 0) +
      chain_sends envAt socket pktInterval (t + pktInterval) b'
  end.

(** The sender is stored at its own id and every node of the container
    has a mobility model. *)
Definition sender_ready (env : Env) (socket : Socket) : Prop :=
  Get (m_adhocTxNodes env) (GetId (GetNode socket)) = Some (GetNode socket) /\
  forall o, In o (m_adhocTxNodes env) -> GetMobilityModel env o <> None.

(** A world that stands still until t = 2 s and moves afterwards: node 0
    at the origin, node 1 at (30, 40), safety range 50 m. *)
Definition waking_env (t : Time) : Env :=
  mkEnv (fun n =>
           match GetId n with
           | 0%nat => Some (mkMobility (mkVector 0 0 0)
                              (if t <? 2000000000 then mkVector 0 0 0 else mkVector 1 0 0))
           | 1%nat => Some (mkMobility (mkVector 30 40 0)
                              (if t <? 2000000000 then mkVector 0 0 0 else mkVector 0 2 0))
           | _ => None
           end)
        [mkNode 0; mkNode 1] 2500 2
        [(167837697, mkNode 0); (167837698, mkNode 1)].

(** ** [VanetRoutingExperiment::ReceivePacket], the routing sink *)

(** Reduction into the range of a [uint32_t]. *)
Definition wrap_uint32 (v : Z) : Z := v mod 2 ^ 32.

(** The run-long totals that the routing sink keeps beside the interval
    totals of [Members]. *)
Record Totals : Set := mkTotals {
  totalBytesTotal : Z;
  totalPacketsReceived : Z
}.

(** Body of [while ((packet = socket->Recv ()))] in [ReceivePacket]. *)
Definition receiveRouted (mt : Members * Totals) (packet : Packet)
  : Members * Totals :=
  let m := fst mt in
  let tot := snd mt in
  (mkMembers (wrap_uint32 (bytesTotal m + Z.of_N (GetSize packet)))
             (wrap_uint32 (packetsReceived m + 1))
             (m_nSinks m) (m_protocolName m) (m_txp m),
   mkTotals (wrap_uint32 (totalBytesTotal tot + Z.of_N (GetSize packet)))
            (wrap_uint32 (totalPacketsReceived tot + 1))).

Definition ReceivePacket (queue : list Packet) (mt : Members * Totals)
  : Members * Totals :=
  fold_left receiveRouted queue mt.

(** The callbacks that touch the members of the experiment, in the order
    the simulator runs them: a drain of the routing sink, a call of the
    sampler, or any activity of the beacon handlers, which leaves the static
    counters at some value. *)
Inductive Callback : Set :=
| CbReceivePacket (queue : list Packet)
| CbCheckThroughput (now : Time)
| CbWave (c : WaveCounters).

Record Experiment : Set := mkExperiment {
  exp_members : Members;
  exp_totals : Totals;
  exp_counters : WaveCounters;
  exp_rows : list Row
}.

Definition callback (e : Experiment) (cb : Callback) : Experiment :=
  match cb with
  | CbReceivePacket queue =>
      let mt := ReceivePacket queue (exp_members e, exp_totals e) in
      mkExperiment (fst mt) (snd mt) (exp_counters e) (exp_rows e)
  | CbCheckThroughput now =>
      let s := CheckThroughput now (exp_members e) (exp_counters e) in
      mkExperiment (sample_members s) (exp_totals e) (sample_counters s)
                   (exp_rows e ++ [sample_row s])
  | CbWave c => mkExperiment (exp_members e) (exp_totals e) c (exp_rows e)
  end.

Definition callbacks (cbs : list Callback) (e : Experiment) : Experiment :=
  fold_left callback cbs e.

(** The experiment as its constructor leaves it. *)
Definition new_experiment (nSinks : Z) (protocolName : string) (txp : float)
  : Experiment :=
  mkExperiment (mkMembers 0 0 nSinks protocolName txp) (mkTotals 0 0)
               initial_counters [].

(** The sizes of the packets of a queue, and the packet counts of the
    rows written so far. *)
Definition queueBytes (queue : list Packet) : Z :=
  fold_right (fun packet acc => Z.of_N (GetSize packet) + acc) 0 queue.

Definition sampledPackets (rows : list Row) : Z :=
  fold_right (fun r acc => row_packetsReceived r + acc) 0 rows.

(** ** The setup of the experiment

    The members that [CommandSetup], [SetupScenario], [WriteCsvHeader],
    [SetupRouting] and [SetupRoutingMessages] read and write, under the
    names the class gives them.  They live in a module of their own because
    some of them are also fields of the records of Part I. *)

Module Setup.

(** The literal [300.01] as a [double]: the binary64 number nearest to it. *)
Definition d300_01 : float := 0x1.2c028f5c28f5cp+8%float.

Record Config : Set := mkConfig {
  m_scenario : Z;
  m_traceFile : string;
  m_logFile : string;
  m_mobility : Z;
  m_nNodes : Z;
  m_TotalTime : float;
  m_nodeSpeed : Z;
  m_nodePause : Z;
  m_CSVfileName : string;
  m_CSVfileName2 : string;
  m_protocol : Z;
  m_protocolName : string;
  m_txSafetyRangeSq : float;
  m_txp : float;
  m_loadBuildings : Z;
  m_nSinks : Z;
  m_routing_tables : Z
}.

(** Assignment to one member. *)
Definition set_scenario (v : Z) (cfg : Config) : Config :=
  mkConfig v (m_traceFile cfg) (m_logFile cfg) (m_mobility cfg) (m_nNodes cfg) (m_TotalTime cfg) (m_nodeSpeed cfg) (m_nodePause cfg) (m_CSVfileName cfg) (m_CSVfileName2 cfg) (m_protocol cfg) (m_protocolName cfg) (m_txSafetyRangeSq cfg) (m_txp cfg) (m_loadBuildings cfg) (m_nSinks cfg) (m_routing_tables cfg).

Definition set_traceFile (v : string) (cfg : Config) : Config :=
  mkConfig (m_scenario cfg) v (m_logFile cfg) (m_mobility cfg) (m_nNodes cfg) (m_TotalTime cfg) (m_nodeSpeed cfg) (m_nodePause cfg) (m_CSVfileName cfg) (m_CSVfileName2 cfg) (m_protocol cfg) (m_protocolName cfg) (m_txSafetyRangeSq cfg) (m_txp cfg) (m_loadBuildings cfg) (m_nSinks cfg) (m_routing_tables cfg).

Definition set_logFile (v : string) (cfg : Config) : Config :=
  mkConfig (m_scenario cfg) (m_traceFile cfg) v (m_mobility cfg) (m_nNodes cfg) (m_TotalTime cfg) (m_nodeSpeed cfg) (m_nodePause cfg) (m_CSVfileName cfg) (m_CSVfileName2 cfg) (m_protocol cfg) (m_protocolName cfg) (m_txSafetyRangeSq cfg) (m_txp cfg) (m_loadBuildings cfg) (m_nSinks cfg) (m_routing_tables cfg).

Definition set_mobility (v : Z) (cfg : Config) : Config :=
  mkConfig (m_scenario cfg) (m_traceFile cfg) (m_logFile cfg) v (m_nNodes cfg) (m_TotalTime cfg) (m_nodeSpeed cfg) (m_nodePause cfg) (m_CSVfileName cfg) (m_CSVfileName2 cfg) (m_protocol cfg) (m_protocolName cfg) (m_txSafetyRangeSq cfg) (m_txp cfg) (m_loadBuildings cfg) (m_nSinks cfg) (m_routing_tables cfg).

Definition set_nNodes (v : Z) (cfg : Config) : Config :=
  mkConfig (m_scenario cfg) (m_traceFile cfg) (m_logFile cfg) (m_mobility cfg) v (m_TotalTime cfg) (m_nodeSpeed cfg) (m_nodePause cfg) (m_CSVfileName cfg) (m_CSVfileName2 cfg) (m_protocol cfg) (m_protocolName cfg) (m_txSafetyRangeSq cfg) (m_txp cfg) (m_loadBuildings cfg) (m_nSinks cfg) (m_routing_tables cfg).

Definition set_TotalTime (v : float) (cfg : Config) : Config :=
  mkConfig (m_scenario cfg) (m_traceFile cfg) (m_logFile cfg) (m_mobility cfg) (m_nNodes cfg) v (m_nodeSpeed cfg) (m_nodePause cfg) (m_CSVfileName cfg) (m_CSVfileName2 cfg) (m_protocol cfg) (m_protocolName cfg) (m_txSafetyRangeSq cfg) (m_txp cfg) (m_loadBuildings cfg) (m_nSinks cfg) (m_routing_tables cfg).

Definition set_nodeSpeed (v : Z) (cfg : Config) : Config :=
  mkConfig (m_scenario cfg) (m_traceFile cfg) (m_logFile cfg) (m_mobility cfg) (m_nNodes cfg) (m_TotalTime cfg) v (m_nodePause cfg) (m_CSVfileName cfg) (m_CSVfileName2 cfg) (m_protocol cfg) (m_protocolName cfg) (m_txSafetyRangeSq cfg) (m_txp cfg) (m_loadBuildings cfg) (m_nSinks cfg) (m_routing_tables cfg).

Definition set_nodePause (v : Z) (cfg : Config) : Config :=
  mkConfig (m_scenario cfg) (m_traceFile cfg) (m_logFile cfg) (m_mobility cfg) (m_nNodes cfg) (m_TotalTime cfg) (m_nodeSpeed cfg) v (m_CSVfileName cfg) (m_CSVfileName2 cfg) (m_protocol cfg) (m_protocolName cfg) (m_txSafetyRangeSq cfg) (m_txp cfg) (m_loadBuildings cfg) (m_nSinks cfg) (m_routing_tables cfg).

Definition set_CSVfileName (v : string) (cfg : Config) : Config :=
  mkConfig (m_scenario cfg) (m_traceFile cfg) (m_logFile cfg) (m_mobility cfg) (m_nNodes cfg) (m_TotalTime cfg) (m_nodeSpeed cfg) (m_nodePause cfg) v (m_CSVfileName2 cfg) (m_protocol cfg) (m_protocolName cfg) (m_txSafetyRangeSq cfg) (m_txp cfg) (m_loadBuildings cfg) (m_nSinks cfg) (m_routing_tables cfg).

Definition set_CSVfileName2 (v : string) (cfg : Config) : Config :=
  mkConfig (m_scenario cfg) (m_traceFile cfg) (m_logFile cfg) (m_mobility cfg) (m_nNodes cfg) (m_TotalTime cfg) (m_nodeSpeed cfg) (m_nodePause cfg) (m_CSVfileName cfg) v (m_protocol cfg) (m_protocolName cfg) (m_txSafetyRangeSq cfg) (m_txp cfg) (m_loadBuildings cfg) (m_nSinks cfg) (m_routing_tables cfg).

Definition set_protocol (v : Z) (cfg : Config) : Config :=
  mkConfig (m_scenario cfg) (m_traceFile cfg) (m_logFile cfg) (m_mobility cfg) (m_nNodes cfg) (m_TotalTime cfg) (m_nodeSpeed cfg) (m_nodePause cfg) (m_CSVfileName cfg) (m_CSVfileName2 cfg) v (m_protocolName cfg) (m_txSafetyRangeSq cfg) (m_txp cfg) (m_loadBuildings cfg) (m_nSinks cfg) (m_routing_tables cfg).

Definition set_protocolName (v : string) (cfg : Config) : Config :=
  mkConfig (m_scenario cfg) (m_traceFile cfg) (m_logFile cfg) (m_mobility cfg) (m_nNodes cfg) (m_TotalTime cfg) (m_nodeSpeed cfg) (m_nodePause cfg) (m_CSVfileName cfg) (m_CSVfileName2 cfg) (m_protocol cfg) v (m_txSafetyRangeSq cfg) (m_txp cfg) (m_loadBuildings cfg) (m_nSinks cfg) (m_routing_tables cfg).

Definition set_txSafetyRangeSq (v : float) (cfg : Config) : Config :=
  mkConfig (m_scenario cfg) (m_traceFile cfg) (m_logFile cfg) (m_mobility cfg) (m_nNodes cfg) (m_TotalTime cfg) (m_nodeSpeed cfg) (m_nodePause cfg) (m_CSVfileName cfg) (m_CSVfileName2 cfg) (m_protocol cfg) (m_protocolName cfg) v (m_txp cfg) (m_loadBuildings cfg) (m_nSinks cfg) (m_routing_tables cfg).

Definition set_txp (v : float) (cfg : Config) : Config :=
  mkConfig (m_scenario cfg) (m_traceFile cfg) (m_logFile cfg) (m_mobility cfg) (m_nNodes cfg) (m_TotalTime cfg) (m_nodeSpeed cfg) (m_nodePause cfg) (m_CSVfileName cfg) (m_CSVfileName2 cfg) (m_protocol cfg) (m_protocolName cfg) (m_txSafetyRangeSq cfg) v (m_loadBuildings cfg) (m_nSinks cfg) (m_routing_tables cfg).

Definition set_loadBuildings (v : Z) (cfg : Config) : Config :=
  mkConfig (m_scenario cfg) (m_traceFile cfg) (m_logFile cfg) (m_mobility cfg) (m_nNodes cfg) (m_TotalTime cfg) (m_nodeSpeed cfg) (m_nodePause cfg) (m_CSVfileName cfg) (m_CSVfileName2 cfg) (m_protocol cfg) (m_protocolName cfg) (m_txSafetyRangeSq cfg) (m_txp cfg) v (m_nSinks cfg) (m_routing_tables cfg).

Definition set_nSinks (v : Z) (cfg : Config) : Config :=
  mkConfig (m_scenario cfg) (m_traceFile cfg) (m_logFile cfg) (m_mobility cfg) (m_nNodes cfg) (m_TotalTime cfg) (m_nodeSpeed cfg) (m_nodePause cfg) (m_CSVfileName cfg) (m_CSVfileName2 cfg) (m_protocol cfg) (m_protocolName cfg) (m_txSafetyRangeSq cfg) (m_txp cfg) (m_loadBuildings cfg) v (m_routing_tables cfg).

Definition set_routing_tables (v : Z) (cfg : Config) : Config :=
  mkConfig (m_scenario cfg) (m_traceFile cfg) (m_logFile cfg) (m_mobility cfg) (m_nNodes cfg) (m_TotalTime cfg) (m_nodeSpeed cfg) (m_nodePause cfg) (m_CSVfileName cfg) (m_CSVfileName2 cfg) (m_protocol cfg) (m_protocolName cfg) (m_txSafetyRangeSq cfg) (m_txp cfg) (m_loadBuildings cfg) (m_nSinks cfg) v.

(** Statements in sequence. *)
Notation "cfg |> f" := (f cfg) (at level 45, left associativity, only parsing).

(** The members as the constructor of [VanetRoutingExperiment] and the
    static initializers leave them. *)
Definition defaultConfig : Config :=
  mkConfig 1 "./scratch/low_ct-unterstrass-1day.filt.5.adj.mov"
           "low_ct-unterstrass-1day.filt.5.adj.log" 1 156 d300_01 20 0
           "vanet-routing.output.csv" "vanet-routing.output2.csv" 2 "protocol"
           (145 * 145) 7.5 0 10 0.

(** The last statement of [CommandSetup]: after the command line has been
    parsed into the members, the safety range is the square of [txdist]
    (145 unless given). *)
Definition CommandSetup (parsed : Config) (txDist : float) : Config :=
  parsed |> set_txSafetyRangeSq (txDist * txDist)%float.

(** [SetupScenario]. *)
Definition SetupScenario (cfg : Config) : Config :=
  let cfg :=
    if m_scenario cfg =? 1 then
      let cfg := cfg |> set_traceFile "" |> set_logFile "" |> set_mobility 2 in
      let cfg := if m_nNodes cfg =? 156 then cfg |> set_nNodes 40 else cfg in
      let cfg := if PrimFloat.eqb (m_TotalTime cfg) d300_01
                 then cfg |> set_TotalTime 10 else cfg in
      cfg
    else if m_scenario cfg =? 2 then
      cfg |> set_traceFile "./scratch/low99-ct-unterstrass-1day.filt.7.adj.mov"
          |> set_logFile "low99-ct-unterstrass-1day.filt.7.adj.log"
          |> set_mobility 1
          |> set_nNodes 99
          |> set_TotalTime d300_01
          |> set_nodeSpeed 0
          |> set_nodePause 0
          |> set_CSVfileName "low_vanet-routing-compare.csv"
          |> set_CSVfileName2 "low_vanet-routing-compare2.csv"
    else if m_scenario cfg =? 3 then
      cfg |> set_traceFile "./scratch/med210-ct-unterstrass-1day.filt.0.adj.mov"
          |> set_logFile "med210-ct-unterstrass-1day.filt.0.adj.log"
          |> set_mobility 1
          |> set_nNodes 210
          |> set_TotalTime d300_01
          |> set_nodeSpeed 0
          |> set_nodePause 0
          |> set_CSVfileName "med_vanet-routing-compare.csv"
          |> set_CSVfileName "med_vanet-routing-compare2.csv"
    else if m_scenario cfg =? 4 then
      cfg |> set_traceFile "./scratch/high370-ct-unterstrass-1day.filt.9.adj.mov"
          |> set_logFile "high370-ct-unterstrass-1day.filt.9.adj.log"
          |> set_mobility 1
          |> set_nNodes 370
          |> set_TotalTime d300_01
          |> set_nodeSpeed 0
          |> set_nodePause 0
          |> set_CSVfileName "high_vanet-routing-compare.csv"
          |> set_CSVfileName "high_vanet-routing-compare2.csv"
    else if m_scenario cfg =? 5 then
      cfg |> set_traceFile "./scratch/centennial2.ns2"
          |> set_logFile "centennial2.log"
          |> set_mobility 1
          |> set_nNodes 180
          |> set_TotalTime 781
          |> set_nodeSpeed 0
          |> set_nodePause 0
          |> set_CSVfileName "centennial2.csv"
          |> set_CSVfileName "centennial2_2.csv"
          |> set_protocol 0
          |> set_txSafetyRangeSq (145 * 145)%float
    else cfg in
  if PrimFloat.eqb (m_txp cfg) 7.5 then cfg |> set_txp 20 else cfg.

(** ** [SetupRouting] *)

Inductive RoutingHelper : Set := Olsr | Aodv | Dsdv.

(** The calls that [SetupRouting] makes on its helpers, in order:
    [PrintRoutingTableAllAt], [list.Add], [internet.SetRoutingHelper (list)],
    [internet.Install] and [dsrMain.Install], the last two on
    [m_adhocTxNodes]. *)
Inductive StackCall : Set :=
| PrintRoutingTableAllAt (h : RoutingHelper)
| ListAdd (h : RoutingHelper) (priority : Z)
| SetRoutingHelper
| InternetInstall
| DsrMainInstall.

(** A [case] of the [switch] that adds a helper to the list. *)
Definition routed (h : RoutingHelper) (name : string) (cfg : Config)
  : Config * list StackCall :=
  (cfg |> set_protocolName name,
   (if negb (m_routing_tables cfg =? 0) then [PrintRoutingTableAllAt h] else [])
   ++ [ListAdd h 100]).

(** [SetupRouting]: [None] is [NS_FATAL_ERROR].  The stream [routing_table]
    that the routing tables would be printed to is left out. *)
Definition SetupRouting (cfg : Config) : option (Config * list StackCall) :=
  r <- match m_protocol cfg with
       | 1 => Some (routed Olsr "OLSR" cfg)
       | 0 | 2 => Some (routed Aodv "AODV" cfg)
       | 3 => Some (routed Dsdv "DSDV" cfg)
       | 4 => Some (cfg |> set_protocolName "DSR", [])
       | _ => None
       end ;;
  let cfg := fst r in
  if m_protocol cfg <? 4 then
    Some (cfg, snd r ++ [SetRoutingHelper; InternetInstall])
  else if m_protocol cfg =? 4 then
    Some (cfg, snd r ++ [InternetInstall; DsrMainInstall])
  else Some r.

Definition isInternetInstall (c : StackCall) : bool :=
  match c with InternetInstall => true | _ => false end.

(** ** [SetupRoutingMessages] *)

(** What the loop installs: a sink socket bound to an address on a node
    ([SetupPacketReceive]), and an OnOff application that sends to a remote
    address and port from a node ([onoff1.Install]). *)
Inductive AppCall : Set :=
| SinkInstall (addr : Ipv4Address) (node : Node)
| OnOffInstall (remote : Ipv4Address) (remotePort : Z) (node : Node).

(** An [int] passed for the [uint32_t] index of [NodeContainer::Get]. *)
Definition index_of_int (i : Z) : nat := Z.to_nat (wrap_uint32 i).

(** Body of [for (int i = 0; i <= m_nSinks - 1; i++)]. *)
Definition routingPair (cfg : Config) (nodes : list Node)
    (ifs : list (Ipv4Address * Node)) (calls : list AppCall) (i : Z)
  : option (list AppCall) :=
  sink <- (if negb (m_protocol cfg =? 0) then
             a <- GetInterface ifs i ;;
             n <- Get nodes (index_of_int i) ;;
             Some [SinkInstall (fst a) n]
           else Some []) ;;
  a <- GetInterface ifs i ;;
  n <- Get nodes (index_of_int (wrap_int (i + m_nSinks cfg))) ;;
  Some (calls ++ sink ++ [OnOffInstall (fst a) 9 n]).

(** [SetupRoutingMessages] over the node container and the interface
    table; [None] when an index is outside its container.  The random start
    time of each source and its stop time are left out. *)
Definition SetupRoutingMessages (cfg : Config) (nodes : list Node)
    (ifs : list (Ipv4Address * Node)) : option (list AppCall) :=
  forIndexM (routingPair cfg nodes ifs)
            (Z.to_nat (wrap_int (m_nSinks cfg - 1) + 1)) 0 [].

Definition isSink (c : AppCall) : bool :=
  match c with SinkInstall _ _ => true | OnOffInstall _ _ _ => false end.

Definition callNode (c : AppCall) : Node :=
  match c with SinkInstall _ n => n | OnOffInstall _ _ n => n end.

(** ** The flow statistics of [Run] *)

(** Reduction into the range of the [int64_t] of a [Time]. *)
Definition wrap_int64 (v : Z) : Z := (v + 2 ^ 63) mod 2 ^ 64 - 2 ^ 63.

(** One entry of [monitor->GetFlowStats ()] with the destination port that
    the classifier finds for it. *)
Record FlowStats : Set := mkFlowStats {
  destinationPort : Z;
  txBytes : Z;
  txPackets : Z;
  rxBytes : Z;
  rxPackets : Z;
  lostPackets : Z;
  delaySum : Time;
  jitterSum : Time
}.

(** The locals of [Run] that the loop over the flows fills. *)
Record FlowTotals : Set := mkFlowTotals {
  totalDelaySum : Time;
  totalRxPackets : Z;
  totalJitterSum : Time;
  totalTxBytes : Z;
  totalRxBytes : Z;
  totalTxPackets : Z;
  totalLostPackets : Z
}.

Definition noFlows : FlowTotals := mkFlowTotals 0 0 0 0 0 0 0.

(** Body of the loop over the flows: [int += uint64_t] and
    [int += uint32_t] both end in the low 32 bits of the sum. *)
Definition addFlow (t : FlowTotals) (f : FlowStats) : FlowTotals :=
  if destinationPort f =? 9 then
    mkFlowTotals (wrap_int64 (totalDelaySum t + delaySum f))
                 (wrap_int (totalRxPackets t + rxPackets f))
                 (wrap_int64 (totalJitterSum t + jitterSum f))
                 (wrap_int (totalTxBytes t + txBytes f))
                 (wrap_int (totalRxBytes t + rxBytes f))
                 (wrap_int (totalTxPackets t + txPackets f))
                 (wrap_int (totalLostPackets t + lostPackets f))
  else t.

Definition collectFlows (flowmon : Z) (stats : list FlowStats) : FlowTotals :=
  if negb (flowmon =? 0) then fold_left addFlow stats noFlows else noFlows.

(** The line that [Run] appends to the second CSV file. *)
Record FinalStats : Set := mkFinalStats {
  final_bsm_pdr : float;
  meanDelay : float;
  meanJitter : float;
  meanTxPktSize : float;
  meanRxPktSize : float;
  meanPktLossRatio : float;
  meanRxThroughputKbps : float;
  meanRoutingThroughputKbps : float
}.

(** [Time::GetDouble ()]. *)
Definition GetDouble (t : Time) : float := double_of_int t.

Definition finalStats (cfg : Config) (c : WaveCounters) (tot : Totals)
    (t : FlowTotals) : FinalStats :=
  mkFinalStats
    (bsm_pdr c)
    (if 0 <? totalRxPackets t
     then (GetDouble (totalDelaySum t) / double_of_int (totalRxPackets t))%float
     else 0%float)
    (if 0 <? totalRxPackets t
     then (GetDouble (totalJitterSum t) / double_of_int (totalRxPackets t))%float
     else 0%float)
    (if 0 <? totalTxPackets t
     then (double_of_int (totalTxBytes t) / double_of_int (totalTxPackets t))%float
     else 0%float)
    (if 0 <? totalRxPackets t
     then (double_of_int (totalRxBytes t) / double_of_int (totalRxPackets t))%float
     else 0%float)
    (if 0 <? totalRxPackets t
     then (double_of_int (totalLostPackets t)
           / (double_of_int (totalRxPackets t)
              + double_of_int (totalLostPackets t)))%float
     else 0%float)
    (if 0 <? totalRxPackets t
     then (double_of_int (totalRxBytes t) * 8 / m_TotalTime cfg / 1000)%float
     else 0%float)
    (double_of_int (totalBytesTotal tot) * 8 / m_TotalTime cfg / 1000)%float.

(** The exact sum of one field over the flows to port 9. *)
Definition routingSum (field : FlowStats -> Z) (stats : list FlowStats) : Z :=
  fold_right (fun f acc => (if destinationPort f =? 9 then field f else 0) + acc)
             0 stats.

(** ** The files of a run *)

Inductive Line : Set :=
| LHeader
| LHeader2
| LRow (r : Row)
| LFinal (s : FinalStats)
| LText (s : string).

(** What is known of a file: it does not exist; it holds these lines; or
    a stream of the run other than the CSV writers (the log file, a trace,
    the flow monitor) has opened it, and what it holds is not followed. *)
Inductive FileState : Set :=
| Absent
| Holds (lines : list Line)
| Foreign.

Definition Files : Type := string -> FileState.

Definition set_file (name : string) (st : FileState) (fs : Files) : Files :=
  fun n => if String.eqb n name then st else fs n.

(** Lines written at the end of a file. *)
Definition extend (st : FileState) (ls : list Line) : FileState :=
  match st with
  | Absent => Holds ls
  | Holds old => Holds (old ++ ls)
  | Foreign => Foreign
  end.

(** The three ways in which the run opens a file.  [opens] tells the names
    under which a file can be opened for writing; on another name the open
    fails and what is written to the stream is lost.

    [std::ofstream out (name)]: the file is created or blanked. *)
Definition open_out (opens : string -> bool) (name : string) (fs : Files) : Files :=
  if opens name then set_file name (Holds []) fs else fs.

(** [std::ofstream out (name, std::ios::app)] and one line written. *)
Definition append_line (opens : string -> bool) (name : string) (l : Line)
    (fs : Files) : Files :=
  if opens name then set_file name (extend (fs name) [l]) fs else fs.

(** A stream other than the CSV writers is opened on the file. *)
Definition open_foreign (opens : string -> bool) (name : string) (fs : Files)
  : Files :=
  if opens name then set_file name Foreign fs else fs.

Definition open_all (opens : string -> bool) (names : list string) (fs : Files)
  : Files :=
  fold_left (fun fs name => open_foreign opens name fs) names fs.

(** [WriteCsvHeader]. *)
Definition WriteCsvHeader (opens : string -> bool) (cfg : Config) (fs : Files)
  : Files :=
  fs |> open_out opens (m_CSVfileName cfg)
     |> append_line opens (m_CSVfileName cfg) LHeader
     |> open_out opens (m_CSVfileName2 cfg)
     |> append_line opens (m_CSVfileName2 cfg) LHeader2.

(** [m_tr_name], which no command-line option changes. *)
Definition m_tr_name : string := "vanet-routing-compare".

(** The members that switch the traces on, and the names of the files that
    [EnablePcapAll] creates, which ns-3 chooses. *)
Record Traces : Set := mkTraces {
  m_ascii_trace : Z;
  m_pcap : Z;
  m_flowmon : Z;
  pcapFiles : list string
}.

(** What [Run] does to the files, in its order.  The headers are written
    under the names of the command line, then [SetupScenario] runs, then
    the log file and the traces are opened.  If [SetupRouting] ends in the
    fatal error the run stops there.  Otherwise [CheckThroughput] appends
    one row when [Run] calls it and one for each later call during the
    simulation, the flow monitor is written, and the line of final results
    is appended. *)
Definition RunCsv (opens : string -> bool) (cfg : Config) (tr : Traces)
    (first : Row) (later : list Row) (final : FinalStats) (fs : Files) : Files :=
  (* WriteCsvHeader (); SetupScenario (); *)
  let fs := WriteCsvHeader opens cfg fs in
  let cfg := SetupScenario cfg in
  (* SetupLogFile (): m_os.open (m_logFile.c_str ()) *)
  let fs := open_foreign opens (m_logFile cfg) fs in
  (* SetupAdhocDevices () *)
  let fs := if negb (m_ascii_trace tr =? 0)
            then open_foreign opens (m_tr_name ++ ".tr") fs else fs in
  let fs := if negb (m_pcap tr =? 0) then open_all opens (pcapFiles tr) fs else fs in
  (* SetupRouting () *)
  let fs := open_foreign opens "routing_table" fs in
  match SetupRouting cfg with
  | None => fs
  | Some _ =>
      (* MobilityHelper::EnableAsciiAll *)
      let fs := open_foreign opens (m_tr_name ++ ".mob") fs in
      (* CheckThroughput (), then once a second during Simulator::Run () *)
      let fs := fold_left (fun fs r => append_line opens (m_CSVfileName cfg) (LRow r) fs)
                          (first :: later) fs in
      (* flowmon->SerializeToXmlFile *)
      let fs := if negb (m_flowmon tr =? 0)
                then open_foreign opens (m_tr_name ++ ".flowmon") fs else fs in
      append_line opens (m_CSVfileName2 cfg) (LFinal final) fs
  end.

(** The names of the files that the streams other than the CSV writers
    open, under members [cfg] as [SetupScenario] left them. *)
Definition traceFiles (cfg : Config) (tr : Traces) : list string :=
  [m_logFile cfg]
  ++ (if negb (m_ascii_trace tr =? 0) then [(m_tr_name ++ ".tr")%string] else [])
  ++ (if negb (m_pcap tr =? 0) then pcapFiles tr else [])
  ++ ["routing_table"%string; (m_tr_name ++ ".mob")%string]
  ++ (if negb (m_flowmon tr =? 0) then [(m_tr_name ++ ".flowmon")%string] else []).

(** ** The columns of the first CSV file *)

(** The column names that [WriteCsvHeader] writes to the first file, in
    order. *)
Definition csvHeader : list string :=
  ["SimulationSecond"; "ReceiveRate"; "PacketsReceived"; "NumberOfSinks";
   "RoutingProtocol"; "TransmissionPower"; "WavePktsSent"; "WavePtksReceived";
   "WavePktsPpr"; "ExpectedWavePktsReceived";
   "ExpectedWavePktsInCoverageReceived"; "BSM_PDR"]%string.

Inductive Cell : Set :=
| CTime (t : Time)
| CFloat (f : float)
| CInt (v : Z)
| CString (s : string).

(** The values that [CheckThroughput] writes on one line, in order. *)
Definition rowCells (r : Row) : list Cell :=
  [CTime (row_now r); CFloat (row_kbs r); CInt (row_packetsReceived r);
   CInt (row_nSinks r); CString (row_protocolName r); CFloat (row_txp r);
   CInt (row_wavePktReceiveCount r); CInt (row_wavePktSendCount r);
   CFloat (row_wavePDR r); CInt (row_wavePktExpectedReceiveCount r);
   CInt (row_wavePktInCoverageReceiveCount r); CFloat (row_wavePDR2 r)].

(** The value of a line that stands under a column name. *)
Fixpoint column (name : string) (header : list string) (cells : list Cell)
  : option Cell :=
  match header, cells with
  | h :: header', c :: cells' =>
      if String.eqb name h then Some c else column name header' cells'
  | _, _ => None
  end.

(** ** Small worlds for the setup *)

(** Two nodes with one interface each, and one sink asked for. *)
Definition two_nodes : list Node := [mkNode 0; mkNode 1].

Definition two_ifs : list (Ipv4Address * Node) :=
  [(167837697, mkNode 0); (167837698, mkNode 1)].

Definition one_sink : Config := defaultConfig |> set_nSinks 1.

Definition one_sink_calls : list AppCall :=
  [SinkInstall 167837697 (mkNode 0); OnOffInstall 167837697 9 (mkNode 1)].

(** Scenario 3 asked for on the command line, the file names left alone. *)
Definition scenario3 : Config := defaultConfig |> set_scenario 3.

(** Every name but the empty one can be opened. *)
Definition named (name : string) : bool := negb (String.eqb name "").

(** The traces as the constructor sets them (only the flow monitor is on),
    and with the ASCII and pcap traces of two devices switched on. *)
Definition default_traces : Traces := mkTraces 0 0 1 [].

Definition all_traces : Traces :=
  mkTraces 1 1 1 ["vanet-routing-compare-pcap-0-0.pcap";
                  "vanet-routing-compare-pcap-1-0.pcap"]%string.

(** The row of the call of [CheckThroughput] in [Run], a row one second
    later, and a row and a line of results left by an earlier run. *)
Definition row_0s : Row :=
  sample_row (CheckThroughput 0 (mkMembers 0 0 10 "AODV" 20) initial_counters).

Definition row_1s : Row :=
  sample_row (CheckThroughput 1000000000 (mkMembers 640 10 10 "AODV" 20)
                              (mkCounters 8 5 2 10)).

Definition old_row : Row :=
  sample_row (CheckThroughput 0 (mkMembers 0 0 10 "OLSR" 20) initial_counters).

Definition some_final : FinalStats :=
  finalStats defaultConfig (mkCounters 0 0 2 10) (mkTotals 640 10) noFlows.

(** The files that earlier runs left behind. *)
Definition old_files : Files :=
  fun n =>
    if String.eqb n "med_vanet-routing-compare2.csv" then Holds [LRow old_row]
    else if String.eqb n "vanet-routing.output.csv"
         then Holds [LHeader; LRow old_row; LRow old_row]
    else if String.eqb n "vanet-routing.output2.csv"
         then Holds [LHeader2; LFinal some_final]
    else Absent.

(** A flow to port 9 on which five packets were sent and all were lost,
    and a flow of beacons to port 9080. *)
Definition lost_flows : list FlowStats :=
  [mkFlowStats 9 320 5 0 0 5 0 0; mkFlowStats 9080 2000 10 1800 9 1 4000 300].

End Setup.

(** * Part VI: properties *)

(** ** Integers and floats *)

Lemma wrap_int_id (z : Z) : INT_MIN <= z <= INT_MAX -> wrap_int z = z.
Proof.
  unfold wrap_int, INT_MIN, INT_MAX. intros H.
  rewrite Z.mod_small; lia.
Qed.

Lemma int_incr_succ (c : Z) : INT_MIN <= c < INT_MAX -> int_incr c = c + 1.
Proof.
  intros H. unfold int_incr. apply wrap_int_id. lia.
Qed.

(** [a != b] is the negation of [a == b], also on NaN: the receiver gate
    and the sender gate are the same test. *)
Lemma senderMoving_receiverMoving (v : Vector) : senderMoving v = receiverMoving v.
Proof.
  unfold senderMoving, receiverMoving, fneq.
  destruct (PrimFloat.eqb (x v) 0), (PrimFloat.eqb (y v) 0); reflexivity.
Qed.

(** On doubles [a == b] implies [a <= b]. *)
Lemma feqb_leb (a b : float) : PrimFloat.eqb a b = true -> PrimFloat.leb a b = true.
Proof.
  rewrite FloatAxioms.eqb_spec, FloatAxioms.leb_spec. unfold SFeqb, SFleb.
  destruct (SFcompare (Prim2SF a) (Prim2SF b)) as [[ | | ] | ]; easy.
Qed.

(** ** The expected-coverage scan *)

Lemma addExpected_0 (c : WaveCounters) : addExpected c 0 = c.
Proof. destruct c; unfold addExpected; simpl. now rewrite Z.add_0_r. Qed.

Lemma addExpected_add (c : WaveCounters) (j k : Z) :
  addExpected (addExpected c j) k = addExpected c (j + k).
Proof. unfold addExpected; simpl. now rewrite Z.add_assoc. Qed.

Lemma spec_expectedCount_nonneg env sender sm l : 0 <= spec_expectedCount env sender sm l.
Proof. unfold spec_expectedCount. lia. Qed.

Lemma spec_expectedCount_cons env sender sm o l :
  spec_expectedCount env sender sm (o :: l) =
  (if spec_expected env sender sm o then 1 else 0) + spec_expectedCount env sender sm l.
Proof.
  unfold spec_expectedCount. cbn [filter].
  destruct (spec_expected env sender sm o); cbn [List.length]; lia.
Qed.

Section Scan.
Variable env : Env.
Variable sender : Node.
Variable sm : MobilityModel.
Hypothesis sender_indexed :
  Get (m_adhocTxNodes env) (GetId sender) = Some sender.
Hypothesis sender_mobility : GetMobilityModel env sender = Some sm.

(** One iteration of the scan adds one exactly for an expected receiver. *)
Lemma expectReceiver_spec (c : WaveCounters) (o : Node) (om : MobilityModel) :
  GetMobilityModel env o = Some om ->
  INT_MIN <= wavePktExpectedReceiveCount c ->
  wavePktExpectedReceiveCount c
    + (if spec_expected env sender sm o then 1 else 0) <= INT_MAX ->
  expectReceiver env (GetId sender) c o =
    Some (addExpected c (if spec_expected env sender sm o then 1 else 0)).
Proof.
  intros Hom Hlo Hhi.
  unfold expectReceiver, spec_expected in *.
  destruct (Nat.eqb (GetId o) (GetId sender)); simpl in *.
  - now rewrite addExpected_0.
  - rewrite Hom in *. simpl.
    unfold receiverMoving, spec_moving in *.
    destruct (fneq (x (GetVelocity om)) 0 || fneq (y (GetVelocity om)) 0); simpl in *.
    + rewrite sender_indexed. simpl.
      unfold getDistSq. rewrite sender_mobility, Hom. simpl.
      fold (spec_distSq (GetPosition sm) (GetPosition om)) in *.
      destruct (spec_distSq (GetPosition sm) (GetPosition om) <=? m_txSafetyRangeSq env)%float.
      * unfold incrExpectedReceiveCount, addExpected.
        rewrite int_incr_succ by lia. reflexivity.
      * now rewrite addExpected_0.
    + now rewrite addExpected_0.
Qed.

(** The whole scan adds the number of expected receivers. *)
Lemma scan_spec (l : list Node) : forall c : WaveCounters,
  (forall o, In o l -> GetMobilityModel env o <> None) ->
  INT_MIN <= wavePktExpectedReceiveCount c ->
  wavePktExpectedReceiveCount c + spec_expectedCount env sender sm l <= INT_MAX ->
  forEachM (expectReceiver env (GetId sender)) l c =
    Some (addExpected c (spec_expectedCount env sender sm l)).
Proof.
  induction l as [ | o l IH]; intros c Hmob Hlo Hhi.
  - simpl. now rewrite addExpected_0.
  - rewrite spec_expectedCount_cons in *.
    pose proof (spec_expectedCount_nonneg env sender sm l) as Hnn.
    destruct (GetMobilityModel env o) as [om | ] eqn:Hom;
      [ | exfalso; apply (Hmob o); [ now left | exact Hom ] ].
    simpl.
    rewrite (expectReceiver_spec c o om Hom Hlo)
      by (destruct (spec_expected env sender sm o); lia).
    simpl. rewrite IH.
    + now rewrite addExpected_add.
    + intros o' Ho'. apply Hmob. now right.
    + unfold addExpected; simpl.
      destruct (spec_expected env sender sm o); lia.
    + unfold addExpected; simpl. lia.
Qed.
End Scan.

(** ** The generator tick *)

(** C1. At a tick with [pktCount > 0] whose sender moves (x or y velocity
    nonzero), exactly one beacon of [pktSize] bytes is sent, the send counter
    grows by one and the expected counter grows by the number of other nodes
    of [m_adhocTxNodes] that move and are within the safety range of the
    sender (squared planar distance at most [m_txSafetyRangeSq]); the other
    two counters are untouched and the task is rescheduled.  The sender is
    stored at its own id in the container, every scanned node has a mobility
    model, and the two counters do not overflow. *)
Theorem moving_sender_tick (env : Env) (c : WaveCounters) (socket : Socket)
    (pktSize pktCount : N) (pktInterval : Time) (sm : MobilityModel) :
  (0 < pktCount)%N ->
  Get (m_adhocTxNodes env) (GetId (GetNode socket)) = Some (GetNode socket) ->
  GetMobilityModel env (GetNode socket) = Some sm ->
  spec_moving sm = true ->
  (forall o, In o (m_adhocTxNodes env) -> GetMobilityModel env o <> None) ->
  INT_MIN <= wavePktSendCount c < INT_MAX ->
  INT_MIN <= wavePktExpectedReceiveCount c ->
  wavePktExpectedReceiveCount c
    + spec_expectedCount env (GetNode socket) sm (m_adhocTxNodes env) <= INT_MAX ->
  GenerateWaveTraffic env c socket pktSize pktCount pktInterval =
    Some (mkCounters (wavePktSendCount c + 1)
                     (wavePktReceiveCount c)
                     (wavePktInCoverageReceiveCount c)
                     (wavePktExpectedReceiveCount c
                      + spec_expectedCount env (GetNode socket) sm (m_adhocTxNodes env)),
          [ActSend socket pktSize;
           ActSchedule pktInterval
             (EvGenerateWaveTraffic socket pktSize (pktCount - 1) pktInterval)]).
Proof.
  intros Hcount Hidx Hmob Hmoving Hall Hsent Hlo Hhi.
  unfold GenerateWaveTraffic.
  apply N.ltb_lt in Hcount. rewrite Hcount.
  rewrite Hidx. simpl. rewrite Hmob. simpl.
  rewrite senderMoving_receiverMoving.
  unfold receiverMoving. unfold spec_moving in Hmoving. rewrite Hmoving.
  rewrite (scan_spec env (GetNode socket) sm Hidx Hmob); auto.
  simpl. unfold addExpected. simpl.
  rewrite int_incr_succ by exact Hsent. reflexivity.
Qed.

Lemma moving_sender_tick_witness :
  GenerateWaveTraffic demo_env (mkCounters 7 5 2 9) (mkSocket (mkNode 0))
                      200 3 100000000 =
    Some (mkCounters 8 5 2 10,
          [ActSend (mkSocket (mkNode 0)) 200;
           ActSchedule 100000000
             (EvGenerateWaveTraffic (mkSocket (mkNode 0)) 200 2 100000000)]).
Proof.
  refine (moving_sender_tick demo_env (mkCounters 7 5 2 9) (mkSocket (mkNode 0))
            200 3 100000000 (mkMobility (mkVector 0 0 0) (mkVector 1 0 0))
            _ _ _ _ _ _ _ _).
  - reflexivity.
  - reflexivity.
  - reflexivity.
  - reflexivity.
  - intros o [<- | [<- | [<- | []]]]; discriminate.
  - unfold INT_MIN, INT_MAX; simpl; lia.
  - unfold INT_MIN; simpl; lia.
  - vm_compute; discriminate.
Defined.

(** C3. At a tick with [pktCount > 0] whose sender is stationary (x and y
    velocity both equal to zero), nothing is sent, the four counters keep
    their values, and the task is still rescheduled after [pktInterval] with
    [pktCount - 1]. *)
Theorem stationary_sender_tick (env : Env) (c : WaveCounters) (socket : Socket)
    (pktSize pktCount : N) (pktInterval : Time) (sm : MobilityModel) :
  (0 < pktCount)%N ->
  Get (m_adhocTxNodes env) (GetId (GetNode socket)) = Some (GetNode socket) ->
  GetMobilityModel env (GetNode socket) = Some sm ->
  PrimFloat.eqb (x (GetVelocity sm)) 0 = true ->
  PrimFloat.eqb (y (GetVelocity sm)) 0 = true ->
  GenerateWaveTraffic env c socket pktSize pktCount pktInterval =
    Some (c, [ActSchedule pktInterval
                (EvGenerateWaveTraffic socket pktSize (pktCount - 1) pktInterval)]).
Proof.
  intros Hcount Hidx Hmob Hx Hy.
  unfold GenerateWaveTraffic.
  apply N.ltb_lt in Hcount. rewrite Hcount.
  rewrite Hidx. simpl. rewrite Hmob. simpl.
  unfold senderMoving. rewrite Hx, Hy. reflexivity.
Qed.

Lemma stationary_sender_tick_witness :
  GenerateWaveTraffic demo_env (mkCounters 7 5 2 9) (mkSocket (mkNode 2))
                      200 3 100000000 =
    Some (mkCounters 7 5 2 9,
          [ActSchedule 100000000
             (EvGenerateWaveTraffic (mkSocket (mkNode 2)) 200 2 100000000)]).
Proof.
  refine (stationary_sender_tick demo_env (mkCounters 7 5 2 9) (mkSocket (mkNode 2))
            200 3 100000000 (mkMobility (mkVector 3 4 0) (mkVector 0 0 5))
            _ _ _ _ _); reflexivity.
Defined.

(** ** The reception handler *)

Lemma int_of_uint32_id (u : Z) : 0 <= u <= INT_MAX -> int_of_uint32 u = u.
Proof.
  intros H. unfold int_of_uint32. apply wrap_int_id. unfold INT_MIN. lia.
Qed.

(** The index loop over the table is the loop over its entries. *)
Lemma forIndexM_entries (env : Env) (node : Node) (addr : Ipv4Address)
    (l2 : list (Ipv4Address * Node)) :
  forall (l1 : list (Ipv4Address * Node)) (c : WaveCounters),
    m_adhocTxInterfaces env = l1 ++ l2 ->
    forIndexM (resolveSender env node addr) (List.length l2)
              (Z.of_nat (List.length l1)) c =
    forEachM (resolveEntry env node addr) l2 c.
Proof.
  induction l2 as [ | xx l2 IH]; intros l1 c Htable; [ reflexivity | ].
  cbn [forIndexM forEachM List.length].
  assert (Hget : GetInterface (m_adhocTxInterfaces env) (Z.of_nat (List.length l1))
                 = Some xx).
  { unfold GetInterface.
    destruct (Z.ltb_spec (Z.of_nat (List.length l1)) 0) as [Hneg | _]; [ lia | ].
    rewrite Nat2Z.id, Htable, nth_error_app2 by lia.
    now rewrite Nat.sub_diag. }
  assert (Hbody : resolveSender env node addr c (Z.of_nat (List.length l1))
                  = resolveEntry env node addr c xx).
  { unfold resolveSender. rewrite Hget. reflexivity. }
  rewrite Hbody.
  destruct (resolveEntry env node addr c xx) as [c' | ]; [ | reflexivity ].
  cbn [bind].
  specialize (IH (l1 ++ [xx]) c').
  rewrite length_app in IH. cbn [List.length] in IH.
  replace (Z.of_nat (List.length l1 + 1)) with (Z.of_nat (List.length l1) + 1) in IH by lia.
  apply IH. rewrite <- app_assoc. exact Htable.
Qed.

Lemma resolve_loop_entries (env : Env) (node : Node) (addr : Ipv4Address)
    (c : WaveCounters) :
  interfaces_wf env ->
  forIndexM (resolveSender env node addr)
            (Z.to_nat (int_of_uint32 (m_nNodes env))) 0 c =
  forEachM (resolveEntry env node addr) (m_adhocTxInterfaces env) c.
Proof.
  intros [Hlen Hmax].
  rewrite int_of_uint32_id by lia.
  rewrite <- Hlen, Nat2Z.id.
  exact (forIndexM_entries env node addr (m_adhocTxInterfaces env) [] c eq_refl).
Qed.

(** Entries with another address leave the counters alone. *)
Lemma resolve_no_match (env : Env) (node : Node) (addr : Ipv4Address)
    (l : list (Ipv4Address * Node)) (c : WaveCounters) :
  ~ In addr (map fst l) ->
  forEachM (resolveEntry env node addr) l c = Some c.
Proof.
  induction l as [ | xx l IH]; intros Hnot; [ reflexivity | ].
  cbn [forEachM]. unfold resolveEntry at 1.
  destruct (Z.eqb_spec addr (fst xx)) as [Heq | _].
  - exfalso. apply Hnot. left. now symmetry.
  - cbn [bind]. apply IH. intros Hin. apply Hnot. now right.
Qed.

(** When the address is that of exactly one interface, the scan compares
    one distance with the safety range. *)
Lemma resolve_unique (env : Env) (node txNode : Node) (addr : Ipv4Address)
    (rm tm : MobilityModel) (l : list (Ipv4Address * Node)) (c : WaveCounters) :
  NoDup (map fst l) ->
  In (addr, txNode) l ->
  GetMobilityModel env node = Some rm ->
  GetMobilityModel env txNode = Some tm ->
  forEachM (resolveEntry env node addr) l c =
    Some (if (spec_distSq (GetPosition rm) (GetPosition tm)
              <=? m_txSafetyRangeSq env)%float
          then incrInCoverageReceiveCount c else c).
Proof.
  intros Hnodup Hin Hrm Htm.
  destruct (in_split _ _ Hin) as (l1 & l2 & ->).
  rewrite map_app in Hnodup. cbn [map fst] in Hnodup.
  assert (H1 : ~ In addr (map fst l1)).
  { intros Hin1. apply NoDup_remove_2 in Hnodup. apply Hnodup.
    apply in_or_app. now left. }
  assert (H2 : ~ In addr (map fst l2)).
  { intros Hin2. apply NoDup_remove_2 in Hnodup. apply Hnodup.
    apply in_or_app. now right. }
  clear Hnodup Hin. revert c.
  induction l1 as [ | xx l1 IH]; intros c.
  - cbn [app forEachM]. unfold resolveEntry at 1. cbn [fst snd].
    rewrite Z.eqb_refl. unfold getDistSq. rewrite Hrm, Htm. cbn [bind].
    fold (spec_distSq (GetPosition rm) (GetPosition tm)).
    destruct (spec_distSq (GetPosition rm) (GetPosition tm)
              <=? m_txSafetyRangeSq env)%float;
      cbn [bind]; now apply resolve_no_match.
  - cbn [app forEachM]. unfold resolveEntry at 1.
    destruct (Z.eqb_spec addr (fst xx)) as [Heq | _].
    + exfalso. apply H1. left. now symmetry.
    + cbn [bind]. apply IH. intros Hin. apply H1. now right.
Qed.

Lemma receiverMoving_spec (m : MobilityModel) :
  receiverMoving (GetVelocity m) = spec_moving m.
Proof.
  unfold receiverMoving, spec_moving.
  now destruct (fneq (x (GetVelocity m)) 0 || fneq (y (GetVelocity m)) 0).
Qed.

(** The scan never aborts when every interface node has a mobility model,
    and it only ever touches the in-coverage counter. *)
Lemma resolve_loop_frame (env : Env) (node : Node) (addr : Ipv4Address)
    (rm : MobilityModel) (l : list (Ipv4Address * Node)) :
  GetMobilityModel env node = Some rm ->
  (forall xx, In xx l -> GetMobilityModel env (snd xx) <> None) ->
  forall c, exists c',
    forEachM (resolveEntry env node addr) l c = Some c' /\
    wavePktSendCount c' = wavePktSendCount c /\
    wavePktReceiveCount c' = wavePktReceiveCount c /\
    wavePktExpectedReceiveCount c' = wavePktExpectedReceiveCount c.
Proof.
  intros Hrm. induction l as [ | xx l IH]; intros Hall c.
  - exists c. now cbn.
  - assert (Hstep : exists c1, resolveEntry env node addr c xx = Some c1 /\
              wavePktSendCount c1 = wavePktSendCount c /\
              wavePktReceiveCount c1 = wavePktReceiveCount c /\
              wavePktExpectedReceiveCount c1 = wavePktExpectedReceiveCount c).
    { unfold resolveEntry. destruct (addr =? fst xx); [ | now exists c ].
      unfold getDistSq. rewrite Hrm.
      destruct (GetMobilityModel env (snd xx)) as [tm | ] eqn:Htm.
      - cbn [bind].
        match goal with |- context [if ?b then _ else _] => destruct b end;
          eexists; split; try reflexivity; now cbn.
      - exfalso. apply (Hall xx); [ now left | exact Htm ]. }
    destruct Hstep as (c1 & Hc1 & Hs & Hr & He).
    destruct (IH (fun xx' H => Hall xx' (or_intror H)) c1) as (c' & Hc' & Hs' & Hr' & He').
    exists c'. cbn [forEachM]. rewrite Hc1. cbn [bind].
    repeat split; congruence.
Qed.

(** One drained beacon: the receive counter is incremented; the send and
    expected counters are not touched; a stationary receiver leaves the
    in-coverage counter alone. *)
Lemma receiveOne_frame (env : Env) (socket : Socket) (rm : MobilityModel)
    (c : WaveCounters) (packet : Packet) :
  interfaces_wf env ->
  (forall xx, In xx (m_adhocTxInterfaces env) ->
              GetMobilityModel env (snd xx) <> None) ->
  GetMobilityModel env (GetNode socket) = Some rm ->
  exists c',
    receiveOne env socket c packet = Some c' /\
    wavePktSendCount c' = wavePktSendCount c /\
    wavePktReceiveCount c' = int_incr (wavePktReceiveCount c) /\
    wavePktExpectedReceiveCount c' = wavePktExpectedReceiveCount c /\
    (spec_moving rm = false ->
     wavePktInCoverageReceiveCount c' = wavePktInCoverageReceiveCount c).
Proof.
  intros Hwf Hall Hrm. unfold receiveOne. rewrite Hrm. cbn [bind].
  rewrite receiverMoving_spec.
  destruct (spec_moving rm).
  - destruct (PeekPacketTag packet) as [addr | ].
    + rewrite resolve_loop_entries by exact Hwf.
      destruct (resolve_loop_frame env (GetNode socket) addr rm _ Hrm Hall
                  (incrReceiveCount c)) as (c' & Hc' & Hs & Hr & He).
      exists c'. split; [ exact Hc' | ].
      split; [ exact Hs | ]. split; [ exact Hr | ]. split; [ exact He | ].
      discriminate.
    + exists (incrReceiveCount c). split; [ reflexivity | ].
      split; [ reflexivity | ]. split; [ reflexivity | ]. split; [ reflexivity | ].
      discriminate.
  - exists (incrReceiveCount c). split; [ reflexivity | ].
    split; [ reflexivity | ]. split; [ reflexivity | ]. split; reflexivity.
Qed.

(** C4. Draining a queue of beacons adds exactly one to the receive counter
    per beacon, whatever the receiver's motion and the senders' distances;
    and when the receiver is stationary the in-coverage counter keeps its
    value (as do the send and expected counters in every case). *)
Theorem received_counts_every_beacon (env : Env) (socket : Socket)
    (rm : MobilityModel) (queue : list Packet) (c : WaveCounters) :
  interfaces_wf env ->
  (forall xx, In xx (m_adhocTxInterfaces env) ->
              GetMobilityModel env (snd xx) <> None) ->
  GetMobilityModel env (GetNode socket) = Some rm ->
  INT_MIN <= wavePktReceiveCount c ->
  wavePktReceiveCount c + Z.of_nat (List.length queue) <= INT_MAX ->
  exists c',
    ReceiveWavePacket env socket queue c = Some c' /\
    wavePktReceiveCount c' = wavePktReceiveCount c + Z.of_nat (List.length queue) /\
    wavePktSendCount c' = wavePktSendCount c /\
    wavePktExpectedReceiveCount c' = wavePktExpectedReceiveCount c /\
    (spec_moving rm = false ->
     wavePktInCoverageReceiveCount c' = wavePktInCoverageReceiveCount c).
Proof.
  intros Hwf Hall Hrm. unfold ReceiveWavePacket.
  revert c. induction queue as [ | packet queue IH]; intros c Hlo Hhi.
  - exists c. cbn. repeat split. lia.
  - cbn [List.length] in Hhi.
    destruct (receiveOne_frame env socket rm c packet Hwf Hall Hrm)
      as (c1 & Hc1 & Hs1 & Hr1 & He1 & Hi1).
    rewrite int_incr_succ in Hr1 by lia.
    destruct (IH c1) as (c' & Hc' & Hr' & Hs' & He' & Hi'); [ lia | lia | ].
    exists c'. cbn [forEachM List.length]. rewrite Hc1. cbn [bind].
    split; [ exact Hc' | ].
    split; [ lia | ].
    split; [ congruence | ].
    split; [ congruence | ].
    intros Hst. rewrite Hi', Hi1 by exact Hst. reflexivity.
Qed.

Lemma demo_interfaces_wf : interfaces_wf demo_env.
Proof. split; [ reflexivity | vm_compute; discriminate ]. Qed.

Lemma demo_interfaces_mobility (xx : Ipv4Address * Node) :
  In xx (m_adhocTxInterfaces demo_env) -> GetMobilityModel demo_env (snd xx) <> None.
Proof. intros [<- | [<- | [<- | []]]]; discriminate. Qed.

Lemma received_counts_every_beacon_witness :
  exists c',
    ReceiveWavePacket demo_env (mkSocket (mkNode 2))
      [mkPacket 200 (Some 167837697); mkPacket 200 None] (mkCounters 7 5 2 9)
      = Some c' /\
    wavePktReceiveCount c' = 5 + 2 /\
    wavePktSendCount c' = 7 /\
    wavePktExpectedReceiveCount c' = 9 /\
    (spec_moving (mkMobility (mkVector 3 4 0) (mkVector 0 0 5)) = false ->
     wavePktInCoverageReceiveCount c' = 2).
Proof.
  refine (received_counts_every_beacon demo_env (mkSocket (mkNode 2))
            (mkMobility (mkVector 3 4 0) (mkVector 0 0 5))
            [mkPacket 200 (Some 167837697); mkPacket 200 None]
            (mkCounters 7 5 2 9) demo_interfaces_wf demo_interfaces_mobility
            _ _ _).
  - reflexivity.
  - vm_compute; discriminate.
  - vm_compute; discriminate.
Defined.

(** C2. When [ReceiveWavePacket] drains a beacon on the socket of a moving
    receiver, and the tagged address is that of exactly one interface, the
    handler returns, and it has added one to the in-coverage counter if and
    only if the squared planar distance from the receiver to that
    interface's node is at most [m_txSafetyRangeSq]; otherwise the counter
    keeps its value.  The bound is inclusive: a distance equal to the
    threshold counts. *)
Theorem in_coverage_iff_within_range (env : Env) (socket : Socket)
    (c : WaveCounters) (packet : Packet) (addr : Ipv4Address) (txNode : Node)
    (rm tm : MobilityModel) :
  interfaces_wf env ->
  NoDup (map fst (m_adhocTxInterfaces env)) ->
  GetMobilityModel env (GetNode socket) = Some rm ->
  spec_moving rm = true ->
  PeekPacketTag packet = Some addr ->
  In (addr, txNode) (m_adhocTxInterfaces env) ->
  GetMobilityModel env txNode = Some tm ->
  INT_MIN <= wavePktInCoverageReceiveCount c < INT_MAX ->
  exists c',
    ReceiveWavePacket env socket [packet] c = Some c' /\
    (wavePktInCoverageReceiveCount c' = wavePktInCoverageReceiveCount c + 1 <->
     (spec_distSq (GetPosition rm) (GetPosition tm) <=? m_txSafetyRangeSq env)%float
       = true) /\
    (wavePktInCoverageReceiveCount c' = wavePktInCoverageReceiveCount c <->
     (spec_distSq (GetPosition rm) (GetPosition tm) <=? m_txSafetyRangeSq env)%float
       = false) /\
    (PrimFloat.eqb (spec_distSq (GetPosition rm) (GetPosition tm))
                   (m_txSafetyRangeSq env) = true ->
     wavePktInCoverageReceiveCount c' = wavePktInCoverageReceiveCount c + 1).
Proof.
  intros Hwf Hnodup Hrm Hmoving Htag Hin Htm Hrange.
  unfold ReceiveWavePacket. cbn [forEachM].
  unfold receiveOne. rewrite Hrm. cbn [bind].
  rewrite receiverMoving_spec, Hmoving, Htag.
  rewrite resolve_loop_entries by exact Hwf.
  rewrite (resolve_unique env (GetNode socket) txNode addr rm tm _ _ Hnodup Hin Hrm Htm).
  pose proof (feqb_leb (spec_distSq (GetPosition rm) (GetPosition tm))
                       (m_txSafetyRangeSq env)) as Hboundary.
  destruct (spec_distSq (GetPosition rm) (GetPosition tm)
            <=? m_txSafetyRangeSq env)%float;
    eexists; (split; [ reflexivity | ]); cbn;
    try rewrite int_incr_succ by exact Hrange.
  - repeat split; auto; try lia; discriminate.
  - split; [ split; [ lia | discriminate ] | ].
    split; [ split; [ reflexivity | reflexivity ] | ].
    intros Heq. specialize (Hboundary Heq). discriminate.
Qed.

Lemma demo_addresses_distinct : NoDup (map fst (m_adhocTxInterfaces demo_env)).
Proof.
  cbn. repeat constructor; cbn; intuition discriminate.
Qed.

Lemma in_coverage_iff_within_range_witness :
  exists c',
    ReceiveWavePacket demo_env (mkSocket (mkNode 0))
                      [mkPacket 200 (Some 167837698)] (mkCounters 7 5 2 9)
    = Some c' /\
    (wavePktInCoverageReceiveCount c' = 2 + 1 <->
     (spec_distSq (mkVector 0 0 0) (mkVector 30 40 0) <=? 2500)%float = true) /\
    (wavePktInCoverageReceiveCount c' = 2 <->
     (spec_distSq (mkVector 0 0 0) (mkVector 30 40 0) <=? 2500)%float = false) /\
    (PrimFloat.eqb (spec_distSq (mkVector 0 0 0) (mkVector 30 40 0)) 2500 = true ->
     wavePktInCoverageReceiveCount c' = 2 + 1).
Proof.
  refine (in_coverage_iff_within_range demo_env (mkSocket (mkNode 0))
            (mkCounters 7 5 2 9) (mkPacket 200 (Some 167837698)) 167837698
            (mkNode 1)
            (mkMobility (mkVector 0 0 0) (mkVector 1 0 0))
            (mkMobility (mkVector 30 40 0) (mkVector 0 2 0))
            demo_interfaces_wf demo_addresses_distinct _ _ _ _ _ _).
  - reflexivity.
  - reflexivity.
  - reflexivity.
  - right; left; reflexivity.
  - reflexivity.
  - unfold INT_MIN, INT_MAX; cbn; lia.
Defined.

(** C9. A beacon whose sender address cannot be resolved (no address tag,
    or an address that no interface of the table has) raises no error:
    [ReceiveWavePacket] returns from a queue that holds it alone with the
    receive counter incremented as usual and the in-coverage counter and
    the other counters at their values, and in a longer queue the handler
    goes on with the rest of the queue from these counters. *)
Theorem unresolved_sender_is_skipped (env : Env) (socket : Socket)
    (rm : MobilityModel) (c : WaveCounters) (packet : Packet)
    (rest : list Packet) :
  interfaces_wf env ->
  GetMobilityModel env (GetNode socket) = Some rm ->
  spec_unresolved env packet ->
  INT_MIN <= wavePktReceiveCount c < INT_MAX ->
  ReceiveWavePacket env socket [packet] c =
    Some (mkCounters (wavePktSendCount c) (wavePktReceiveCount c + 1)
                     (wavePktInCoverageReceiveCount c)
                     (wavePktExpectedReceiveCount c)) /\
  ReceiveWavePacket env socket (packet :: rest) c =
    ReceiveWavePacket env socket rest
      (mkCounters (wavePktSendCount c) (wavePktReceiveCount c + 1)
                  (wavePktInCoverageReceiveCount c)
                  (wavePktExpectedReceiveCount c)).
Proof.
  intros Hwf Hrm Hun Hrange.
  assert (Hone : receiveOne env socket c packet =
    Some (mkCounters (wavePktSendCount c) (wavePktReceiveCount c + 1)
                     (wavePktInCoverageReceiveCount c)
                     (wavePktExpectedReceiveCount c))).
  { unfold receiveOne. rewrite Hrm. cbn [bind].
    unfold incrReceiveCount. rewrite int_incr_succ by exact Hrange.
    destruct (receiverMoving (GetVelocity rm)); [ | reflexivity ].
    unfold spec_unresolved in Hun.
    destruct (PeekPacketTag packet) as [addr | ]; [ | reflexivity ].
    rewrite resolve_loop_entries by exact Hwf.
    now apply resolve_no_match. }
  unfold ReceiveWavePacket. cbn [forEachM]. rewrite Hone. cbn [bind].
  split; reflexivity.
Qed.

Lemma unresolved_sender_is_skipped_witness :
  ReceiveWavePacket demo_env (mkSocket (mkNode 0))
    [mkPacket 200 (Some 167837700)] (mkCounters 7 5 2 9)
  = Some (mkCounters 7 6 2 9) /\
  ReceiveWavePacket demo_env (mkSocket (mkNode 0))
    [mkPacket 200 (Some 167837700); mkPacket 200 (Some 167837698)]
    (mkCounters 7 5 2 9)
  = Some (mkCounters 7 7 3 9).
Proof.
  assert (H : ReceiveWavePacket demo_env (mkSocket (mkNode 0))
                [mkPacket 200 (Some 167837700)] (mkCounters 7 5 2 9)
              = Some (mkCounters 7 6 2 9) /\
              ReceiveWavePacket demo_env (mkSocket (mkNode 0))
                [mkPacket 200 (Some 167837700); mkPacket 200 (Some 167837698)]
                (mkCounters 7 5 2 9)
              = ReceiveWavePacket demo_env (mkSocket (mkNode 0))
                  [mkPacket 200 (Some 167837698)] (mkCounters 7 6 2 9)).
  { refine (unresolved_sender_is_skipped demo_env (mkSocket (mkNode 0))
              (mkMobility (mkVector 0 0 0) (mkVector 1 0 0))
              (mkCounters 7 5 2 9) (mkPacket 200 (Some 167837700))
              [mkPacket 200 (Some 167837698)] demo_interfaces_wf _ _ _).
    - reflexivity.
    - cbn. intuition discriminate.
    - unfold INT_MIN, INT_MAX; cbn; lia. }
  destruct H as [Hone Hrest]. split; [exact Hone|].
  rewrite Hrest. reflexivity.
Defined.

(** ** The z component of the velocity *)

Lemma forEachM_app {A S : Type} (body : S -> A -> option S) (l1 l2 : list A) (s : S) :
  forEachM body (l1 ++ l2) s = s' <- forEachM body l1 s ;; forEachM body l2 s'.
Proof.
  revert s. induction l1 as [ | a l1 IH]; intros s; [ reflexivity | ].
  cbn [app forEachM]. destruct (body s a) as [s1 | ]; [ apply IH | reflexivity ].
Qed.

(** C10. The three motion gates read only the x and y components of the
    velocity.  A node whose velocity is (0, 0, vz), whatever vz, is
    stationary for all of them: as a sender its tick sends nothing and
    changes no counter; as a candidate it is skipped by the expected-coverage
    scan of every sender, which runs as if the node were not in the
    container; as a receiver its beacons only increment the receive counter
    and never the in-coverage counter. *)
Theorem vertical_velocity_is_stationary (env : Env) (socket : Socket)
    (m : MobilityModel) (vz : float) :
  GetMobilityModel env (GetNode socket) = Some m ->
  GetVelocity m = mkVector 0 0 vz ->
  (forall c pktSize pktCount pktInterval,
     (0 < pktCount)%N ->
     Get (m_adhocTxNodes env) (GetId (GetNode socket)) = Some (GetNode socket) ->
     GenerateWaveTraffic env c socket pktSize pktCount pktInterval =
       Some (c, [ActSchedule pktInterval
                   (EvGenerateWaveTraffic socket pktSize (pktCount - 1) pktInterval)])) /\
  (forall txNodeId c l1 l2,
     expectReceiver env txNodeId c (GetNode socket) = Some c /\
     forEachM (expectReceiver env txNodeId) (l1 ++ GetNode socket :: l2) c =
       forEachM (expectReceiver env txNodeId) (l1 ++ l2) c) /\
  (forall sender sm, spec_expected env sender sm (GetNode socket) = false) /\
  (forall c packet,
     receiveOne env socket c packet = Some (incrReceiveCount c)) /\
  (forall queue c, exists c',
     ReceiveWavePacket env socket queue c = Some c' /\
     wavePktInCoverageReceiveCount c' = wavePktInCoverageReceiveCount c).
Proof.
  intros Hm Hvel.
  assert (Hsend : senderMoving (GetVelocity m) = false) by now rewrite Hvel.
  assert (Hrecv : receiverMoving (GetVelocity m) = false) by now rewrite Hvel.
  assert (Hcand : forall txNodeId c,
            expectReceiver env txNodeId c (GetNode socket) = Some c).
  { intros txNodeId c. unfold expectReceiver.
    destruct (negb (Nat.eqb (GetId (GetNode socket)) txNodeId)); [ | reflexivity ].
    rewrite Hm. cbn [bind]. now rewrite Hrecv. }
  assert (Hone : forall c packet,
            receiveOne env socket c packet = Some (incrReceiveCount c)).
  { intros c packet. unfold receiveOne. rewrite Hm. cbn [bind]. now rewrite Hrecv. }
  split; [ | split; [ | split; [ | split ] ] ].
  - intros c pktSize pktCount pktInterval Hcount Hidx.
    unfold GenerateWaveTraffic.
    apply N.ltb_lt in Hcount. rewrite Hcount, Hidx. cbn [bind].
    rewrite Hm. cbn [bind]. now rewrite Hsend.
  - intros txNodeId c l1 l2. split; [ apply Hcand | ].
    rewrite !forEachM_app.
    destruct (forEachM (expectReceiver env txNodeId) l1 c) as [c1 | ]; [ | reflexivity ].
    cbn [bind forEachM]. now rewrite Hcand.
  - intros sender sm. unfold spec_expected. rewrite Hm.
    unfold spec_moving. rewrite Hvel. cbn.
    apply andb_false_r.
  - exact Hone.
  - intros queue. unfold ReceiveWavePacket.
    induction queue as [ | packet queue IH]; intros c.
    + now exists c.
    + destruct (IH (incrReceiveCount c)) as (c' & Hc' & Hin).
      exists c'. cbn [forEachM]. rewrite Hone. cbn [bind].
      split; [ exact Hc' | exact Hin ].
Qed.

Lemma vertical_velocity_is_stationary_witness :
  GenerateWaveTraffic demo_env (mkCounters 7 5 2 9) (mkSocket (mkNode 2))
                      200 3 100000000 =
    Some (mkCounters 7 5 2 9,
          [ActSchedule 100000000
             (EvGenerateWaveTraffic (mkSocket (mkNode 2)) 200 2 100000000)]).
Proof.
  refine (proj1 (vertical_velocity_is_stationary demo_env (mkSocket (mkNode 2))
                   (mkMobility (mkVector 3 4 0) (mkVector 0 0 5)) 5 _ _)
                (mkCounters 7 5 2 9) 200%N 3%N 100000000 _ _); reflexivity.
Defined.

(** ** The sampler and the ratios *)

(** C7. A ratio whose denominator is zero is reported as exactly 0: the
    interval ratio of a row when [wavePktSendCount] is 0, the cumulative
    ratio of a row and the final ratio of [Run] when
    [wavePktExpectedReceiveCount] is 0.  The sampler and the final ratio are
    total functions, and the value 0 is neither a NaN nor an infinity. *)
Theorem zero_denominator_reports_zero (now : Time) (m : Members)
    (sent received inCoverage expected : Z) :
  row_wavePDR (sample_row (CheckThroughput now m
                 (mkCounters 0 received inCoverage expected))) = 0%float /\
  row_wavePDR2 (sample_row (CheckThroughput now m
                  (mkCounters sent received inCoverage 0))) = 0%float /\
  bsm_pdr (mkCounters sent received inCoverage 0) = 0%float /\
  PrimFloat.is_nan 0 = false /\
  PrimFloat.is_infinity 0 = false.
Proof.
  repeat split.
Qed.

(** C6, as the code has it.  The sampler sets the receive counter, the send
    counter and the interval byte total (and the interval packet count) to
    zero and keeps the two cumulative counters.  The row it writes carries
    the ratios of the counters it found, so the interval ratio of a first
    call is that of the interval that just ended; a second call with no
    send or receive in between writes a row whose interval ratio is 0 and
    whose cumulative ratio is that of the first row.  When nothing was sent
    before the first call either, both rows have interval ratio 0. *)
Theorem sampler_resets_interval_counters (now1 now2 : Time) (m : Members)
    (c : WaveCounters) :
  let s1 := CheckThroughput now1 m c in
  let s2 := CheckThroughput now2 (sample_members s1) (sample_counters s1) in
  wavePktReceiveCount (sample_counters s1) = 0 /\
  wavePktSendCount (sample_counters s1) = 0 /\
  bytesTotal (sample_members s1) = 0 /\
  packetsReceived (sample_members s1) = 0 /\
  wavePktExpectedReceiveCount (sample_counters s1) = wavePktExpectedReceiveCount c /\
  wavePktInCoverageReceiveCount (sample_counters s1) = wavePktInCoverageReceiveCount c /\
  row_wavePDR (sample_row s1) = wavePDR c /\
  row_wavePDR (sample_row s2) = 0%float /\
  row_wavePDR2 (sample_row s2) = row_wavePDR2 (sample_row s1) /\
  sample_counters s2 = sample_counters s1 /\
  (wavePktSendCount c <= 0 -> row_wavePDR (sample_row s1) = 0%float).
Proof.
  cbn. repeat split.
  unfold wavePDR. intros Hsent.
  destruct (Z.ltb_spec 0 (wavePktSendCount c)); [ lia | reflexivity ].
Qed.

(** C6 as stated fails: with 2 beacons sent and 1 received before the first
    call, the first of the two rows has interval ratio 0.5, not 0. *)
Lemma sampler_first_row_not_zero :
  let m := mkMembers 0 0 10 "AODV" 20 in
  let s1 := CheckThroughput 1000000000 m (mkCounters 2 1 0 0) in
  let s2 := CheckThroughput 2000000000 (sample_members s1) (sample_counters s1) in
  row_wavePDR (sample_row s1) = 0.5%float /\
  PrimFloat.eqb (row_wavePDR (sample_row s1)) 0 = false /\
  row_wavePDR (sample_row s2) = 0%float.
Proof.
  repeat split.
Qed.

(** ** Scenarios *)

Lemma run_empty (net : Network) (env : Env) (stop : Time) (fuel : nat) (s : Sim) :
  sim_queue s = [] -> run net env stop fuel s = Finished s.
Proof.
  intros Hq. destruct fuel; cbn; now rewrite Hq.
Qed.

Lemma run_step (net : Network) (env : Env) (stop : Time) (fuel : nat)
    (s s' : Sim) (t : Time) (ev : Event) (q : EventQueue) :
  sim_queue s = (t, ev) :: q ->
  (stop <=? t) = false ->
  fire net env t ev q s = Some s' ->
  run net env stop (S fuel) s = run net env stop fuel s'.
Proof.
  intros Hq Hstop Hfire. cbn. now rewrite Hq, Hstop, Hfire.
Qed.

Lemma deliver_quiet (env : Env) (acts : list Action) (c : WaveCounters) :
  deliverActions quiet_net env acts c = Some c.
Proof.
  revert c. induction acts as [ | a acts IH]; intros c; [ reflexivity | ].
  destruct a; cbn; apply IH.
Qed.

(** When and what a generator sends: a beacon at [t + k * pktInterval] for
    every [k] below the budget, and nothing else but the final [Close]. *)
Lemma generator_transport_sends (socket : Socket) (pktSize : N)
    (pktInterval : Time) (b : nat) : forall (t t' : Time) (a : Action),
  In (t', a) (generator_transport socket pktSize pktInterval t b) <->
  (exists k, (k < b)%nat /\ t' = t + Z.of_nat k * pktInterval /\
             a = ActSend socket pktSize) \/
  (t' = t + Z.of_nat b * pktInterval /\ a = ActClose socket).
Proof.
  induction b as [ | b IH]; intros t t' a; cbn [generator_transport In].
  - split.
    + intros [Heq | []]. right. inversion Heq; subst. split; [ lia | reflexivity ].
    + intros [(k & Hk & _) | [-> ->]]; [ lia | ]. left. f_equal. lia.
  - rewrite IH. split.
    + intros [Heq | [(k & Hk & -> & ->) | [-> ->]]].
      * inversion Heq; subst. left. exists 0%nat. repeat split; lia.
      * left. exists (S k). repeat split; lia.
      * right. split; [ lia | reflexivity ].
    + intros [(k & Hk & -> & ->) | [-> ->]].
      * destruct k as [ | k].
        -- left. f_equal. lia.
        -- right. left. exists k. repeat split; lia.
      * right. right. split; [ lia | reflexivity ].
Qed.

Section SingleGenerator.
Variable env : Env.
Variable socket : Socket.
Variable sm : MobilityModel.
Variables pktSize : N.
Variables pktInterval stop : Time.
Hypothesis sender_indexed :
  Get (m_adhocTxNodes env) (GetId (GetNode socket)) = Some (GetNode socket).
Hypothesis sender_mobility : GetMobilityModel env (GetNode socket) = Some sm.
Hypothesis sender_moving : spec_moving sm = true.
Hypothesis all_mobility :
  forall o, In o (m_adhocTxNodes env) -> GetMobilityModel env o <> None.
Hypothesis interval_nonneg : 0 <= pktInterval.

(** Firing a tick that has budget left, when nothing is delivered. *)
Lemma fire_sending_tick (t : Time) (b : nat) (q : EventQueue) (s : Sim) :
  INT_MIN <= wavePktSendCount (sim_counters s) < INT_MAX ->
  INT_MIN <= wavePktExpectedReceiveCount (sim_counters s) ->
  wavePktExpectedReceiveCount (sim_counters s)
    + spec_expectedCount env (GetNode socket) sm (m_adhocTxNodes env) <= INT_MAX ->
  fire quiet_net env t
       (EvGenerateWaveTraffic socket pktSize (N.of_nat (S b)) pktInterval) q s =
    Some (mkSim t
            (insertEvent (t + pktInterval)
               (EvGenerateWaveTraffic socket pktSize (N.of_nat b) pktInterval) q)
            (mkCounters (wavePktSendCount (sim_counters s) + 1)
                        (wavePktReceiveCount (sim_counters s))
                        (wavePktInCoverageReceiveCount (sim_counters s))
                        (wavePktExpectedReceiveCount (sim_counters s)
                         + spec_expectedCount env (GetNode socket) sm
                             (m_adhocTxNodes env)))
            (sim_members s)
            (sim_fired s ++
               [(t, EvGenerateWaveTraffic socket pktSize (N.of_nat (S b)) pktInterval)])
            (sim_transport s ++ [(t, ActSend socket pktSize)])
            (sim_rows s)).
Proof.
  intros Hsent Hlo Hhi.
  unfold fire, GenerateWaveTraffic.
  replace (0 <? N.of_nat (S b))%N with true by (symmetry; apply N.ltb_lt; lia).
  rewrite sender_indexed. cbn [bind]. rewrite sender_mobility. cbn [bind].
  rewrite senderMoving_receiverMoving, receiverMoving_spec, sender_moving.
  rewrite (scan_spec env (GetNode socket) sm sender_indexed sender_mobility);
    [ | exact all_mobility | exact Hlo | exact Hhi ].
  cbn [bind fst snd app]. rewrite deliver_quiet. cbn [bind].
  unfold addExpected, incrSendCount.
  cbn [wavePktSendCount wavePktReceiveCount wavePktInCoverageReceiveCount
       wavePktExpectedReceiveCount scheduleActions transportActions].
  rewrite int_incr_succ by exact Hsent.
  replace (N.of_nat (S b) - 1)%N with (N.of_nat b) by lia.
  reflexivity.
Qed.

(** The whole life of one generator with a budget of [b] beacons. *)
Lemma run_single_generator (b : nat) :
  forall (t now : Time) (c : WaveCounters) (m : Members)
         (fired : list (Time * Event)) (tr : list (Time * Action))
         (rows : list Row) (fuel : nat),
  t + Z.of_nat b * pktInterval < stop ->
  INT_MIN <= wavePktSendCount c ->
  wavePktSendCount c + Z.of_nat b <= INT_MAX ->
  INT_MIN <= wavePktExpectedReceiveCount c ->
  wavePktExpectedReceiveCount c
    + Z.of_nat b * spec_expectedCount env (GetNode socket) sm (m_adhocTxNodes env)
    <= INT_MAX ->
  run quiet_net env stop (S b + fuel)
      (mkSim now [(t, EvGenerateWaveTraffic socket pktSize (N.of_nat b) pktInterval)]
             c m fired tr rows) =
    Finished
      (mkSim (t + Z.of_nat b * pktInterval) []
             (mkCounters (wavePktSendCount c + Z.of_nat b)
                         (wavePktReceiveCount c)
                         (wavePktInCoverageReceiveCount c)
                         (wavePktExpectedReceiveCount c
                          + Z.of_nat b
                            * spec_expectedCount env (GetNode socket) sm
                                (m_adhocTxNodes env)))
             m
             (fired ++ generator_fired socket pktSize pktInterval t b)
             (tr ++ generator_transport socket pktSize pktInterval t b)
             rows).
Proof.
  pose proof (spec_expectedCount_nonneg env (GetNode socket) sm (m_adhocTxNodes env))
    as Hcount.
  induction b as [ | b IH]; intros t now c m fired tr rows fuel Hstop Hs1 Hs2 He1 He2.
  - cbn [Nat.add].
    erewrite run_step;
      [ | reflexivity | apply Z.leb_gt; cbn in Hstop; lia | reflexivity ].
    rewrite run_empty by reflexivity.
    destruct c. cbn. do 3 f_equal; lia.
  - change (S (S b) + fuel)%nat with (S (S b + fuel)).
    assert (Hnext : 0 <= Z.of_nat b * pktInterval) by (apply Z.mul_nonneg_nonneg; lia).
    erewrite run_step;
      [ | reflexivity | apply Z.leb_gt; lia
        | apply fire_sending_tick; cbn; nia ].
    cbn [insertEvent sim_counters sim_members sim_fired sim_transport sim_rows].
    rewrite IH by (cbn; nia).
    cbn [generator_fired generator_transport wavePktSendCount wavePktReceiveCount
         wavePktInCoverageReceiveCount wavePktExpectedReceiveCount].
    rewrite <- !app_assoc. cbn [app].
    f_equal. f_equal; [ lia | f_equal; lia ].
Qed.
End SingleGenerator.

(** C5, as the code has it.  A generator invoked with [pktCount = 0] closes
    the socket, schedules nothing and touches no counter.  A tick with
    [pktCount = 1] still reschedules (with 0), so a moving sender with a
    budget of [b] beacons that starts at [t] sends at [t + k * pktInterval]
    for every [k < b] and fires once more at [t + b * pktInterval], where it
    only closes the socket; nothing is pending after that.  With a budget of
    3, one beacon per second from 1 s: beacons at 1 s, 2 s, 3 s and the
    closing tick at 4 s. *)
Theorem generator_budget_timeline (env : Env) (socket : Socket)
    (sm : MobilityModel) (pktSize : N) (pktInterval stop t now : Time) (b : nat)
    (c : WaveCounters) (m : Members) (fuel : nat) :
  Get (m_adhocTxNodes env) (GetId (GetNode socket)) = Some (GetNode socket) ->
  GetMobilityModel env (GetNode socket) = Some sm ->
  spec_moving sm = true ->
  (forall o, In o (m_adhocTxNodes env) -> GetMobilityModel env o <> None) ->
  0 <= pktInterval ->
  t + Z.of_nat b * pktInterval < stop ->
  INT_MIN <= wavePktSendCount c ->
  wavePktSendCount c + Z.of_nat b <= INT_MAX ->
  INT_MIN <= wavePktExpectedReceiveCount c ->
  wavePktExpectedReceiveCount c
    + Z.of_nat b * spec_expectedCount env (GetNode socket) sm (m_adhocTxNodes env)
    <= INT_MAX ->
  GenerateWaveTraffic env c socket pktSize 0 pktInterval =
    Some (c, [ActClose socket]) /\
  run quiet_net env stop (S b + fuel)
      (mkSim now [(t, EvGenerateWaveTraffic socket pktSize (N.of_nat b) pktInterval)]
             c m [] [] []) =
    Finished
      (mkSim (t + Z.of_nat b * pktInterval) []
             (mkCounters (wavePktSendCount c + Z.of_nat b)
                         (wavePktReceiveCount c)
                         (wavePktInCoverageReceiveCount c)
                         (wavePktExpectedReceiveCount c
                          + Z.of_nat b
                            * spec_expectedCount env (GetNode socket) sm
                                (m_adhocTxNodes env)))
             m
             (generator_fired socket pktSize pktInterval t b)
             (generator_transport socket pktSize pktInterval t b)
             []) /\
  (forall t' a,
     In (t', a) (generator_transport socket pktSize pktInterval t b) <->
     (exists k, (k < b)%nat /\ t' = t + Z.of_nat k * pktInterval /\
                a = ActSend socket pktSize) \/
     (t' = t + Z.of_nat b * pktInterval /\ a = ActClose socket)).
Proof.
  intros Hidx Hmob Hmoving Hall Hint Hstop Hs1 Hs2 He1 He2.
  split; [ reflexivity | ].
  split; [ | apply generator_transport_sends ].
  exact (run_single_generator env socket sm pktSize pktInterval stop
           Hidx Hmob Hmoving Hall Hint b t now c m [] [] [] fuel
           Hstop Hs1 Hs2 He1 He2).
Qed.

Lemma generator_budget_timeline_witness :
  GenerateWaveTraffic demo_env initial_counters scenario3_socket 200 0 1000000000 =
    Some (initial_counters, [ActClose scenario3_socket]) /\
  run quiet_net demo_env 10000000000 (4 + 6) scenario3_start =
    Finished scenario3_final /\
  (forall t' a,
     In (t', a) (sim_transport scenario3_final) <->
     (exists k, (k < 3)%nat /\ t' = 1000000000 + Z.of_nat k * 1000000000 /\
                a = ActSend scenario3_socket 200) \/
     (t' = 1000000000 + Z.of_nat 3 * 1000000000 /\ a = ActClose scenario3_socket)).
Proof.
  refine (generator_budget_timeline demo_env scenario3_socket
            (mkMobility (mkVector 0 0 0) (mkVector 1 0 0))
            200 1000000000 10000000000 1000000000 0 3
            initial_counters demo_members 6
            _ _ _ _ _ _ _ _ _ _).
  - reflexivity.
  - reflexivity.
  - reflexivity.
  - intros o [<- | [<- | [<- | []]]]; discriminate.
  - lia.
  - cbn; lia.
  - unfold INT_MIN; cbn; lia.
  - unfold INT_MAX; cbn; lia.
  - unfold INT_MIN; cbn; lia.
  - vm_compute; discriminate.
Defined.

(** C5 as stated fails: an event does occur at t = 4 s.  The tick at 3 s,
    with one beacon left, sends it and schedules the generator once more;
    after the three sending ticks the queue holds the generator, due at 4 s
    with a budget of 0, and the run fires it. *)
Lemma generator_fires_at_4s :
  GenerateWaveTraffic demo_env (mkCounters 2 0 0 2) scenario3_socket 200 1 1000000000 =
    Some (mkCounters 3 0 0 3,
          [ActSend scenario3_socket 200;
           ActSchedule 1000000000
             (EvGenerateWaveTraffic scenario3_socket 200 0 1000000000)]) /\
  run quiet_net demo_env 10000000000 3 scenario3_start =
    OutOfFuel
      (mkSim 3000000000
         [(4000000000, EvGenerateWaveTraffic scenario3_socket 200 0 1000000000)]
         (mkCounters 3 0 0 3) demo_members
         [(1000000000, EvGenerateWaveTraffic scenario3_socket 200 3 1000000000);
          (2000000000, EvGenerateWaveTraffic scenario3_socket 200 2 1000000000);
          (3000000000, EvGenerateWaveTraffic scenario3_socket 200 1 1000000000)]
         [(1000000000, ActSend scenario3_socket 200);
          (2000000000, ActSend scenario3_socket 200);
          (3000000000, ActSend scenario3_socket 200)]
         []) /\
  run quiet_net demo_env 10000000000 4 scenario3_start = Finished scenario3_final /\
  In (4000000000, EvGenerateWaveTraffic scenario3_socket 200 0 1000000000)
     (sim_fired scenario3_final) /\
  sim_now scenario3_final = 4000000000.
Proof.
  split; [ reflexivity | ].
  split; [ reflexivity | ].
  split; [ reflexivity | ].
  split; [ | reflexivity ].
  cbn. auto.
Qed.

(** ** One beacon per sender, all in range *)

Lemma node_eqb_eq (a b : Node) : Nat.eqb (GetId a) (GetId b) = true <-> a = b.
Proof.
  destruct a as [i], b as [j]. cbn. rewrite Nat.eqb_eq.
  split; [ now intros -> | intros H; now inversion H ].
Qed.

(** Leaving one element that satisfies [P] out of a duplicate-free list
    lowers the count of [P] by one. *)
Lemma filter_other_length (P : Node -> bool) (a : Node) (l : list Node) :
  NoDup l -> In a l -> P a = true ->
  S (List.length (filter (fun o => negb (Nat.eqb (GetId o) (GetId a)) && P o) l))
  = List.length (filter P l).
Proof.
  induction l as [ | o l IH]; intros Hnd Hin HP; [ destruct Hin | ].
  inversion Hnd as [ | ? ? Hnotin Hnd']; subst.
  cbn [filter]. destruct Hin as [-> | Hin].
  - rewrite Nat.eqb_refl, HP. cbn [negb andb List.length]. f_equal. f_equal.
    apply filter_ext_in. intros o Ho.
    destruct (Nat.eqb (GetId o) (GetId a)) eqn:E; [ | reflexivity ].
    apply node_eqb_eq in E. subst. contradiction.
  - assert (E : Nat.eqb (GetId o) (GetId a) = false).
    { destruct (Nat.eqb (GetId o) (GetId a)) eqn:E; [ | reflexivity ].
      apply node_eqb_eq in E. subst. contradiction. }
    rewrite E. cbn [negb andb].
    destruct (P o); cbn [List.length]; rewrite <- (IH Hnd' Hin HP); reflexivity.
Qed.

(** A tick with budget left of a moving sender, in terms of the updates
    the code makes. *)
Lemma tick_sends (env : Env) (c : WaveCounters) (socket : Socket)
    (pktSize pktCount : N) (pktInterval : Time) (sm : MobilityModel) :
  (0 < pktCount)%N ->
  Get (m_adhocTxNodes env) (GetId (GetNode socket)) = Some (GetNode socket) ->
  GetMobilityModel env (GetNode socket) = Some sm ->
  spec_moving sm = true ->
  (forall o, In o (m_adhocTxNodes env) -> GetMobilityModel env o <> None) ->
  INT_MIN <= wavePktExpectedReceiveCount c ->
  wavePktExpectedReceiveCount c
    + spec_expectedCount env (GetNode socket) sm (m_adhocTxNodes env) <= INT_MAX ->
  GenerateWaveTraffic env c socket pktSize pktCount pktInterval =
    Some (addExpected (incrSendCount c)
            (spec_expectedCount env (GetNode socket) sm (m_adhocTxNodes env)),
          [ActSend socket pktSize;
           ActSchedule pktInterval
             (EvGenerateWaveTraffic socket pktSize (pktCount - 1) pktInterval)]).
Proof.
  intros Hcount Hidx Hmob Hmoving Hall Hlo Hhi.
  unfold GenerateWaveTraffic.
  apply N.ltb_lt in Hcount. rewrite Hcount, Hidx. cbn [bind].
  rewrite Hmob. cbn [bind].
  rewrite senderMoving_receiverMoving, receiverMoving_spec, Hmoving.
  rewrite (scan_spec env (GetNode socket) sm Hidx Hmob); auto.
Qed.

(** A beacon received by a moving node within range of its sender. *)
Lemma receiveOne_in_range (env : Env) (socket : Socket) (c : WaveCounters)
    (packet : Packet) (addr : Ipv4Address) (txNode : Node) :
  interfaces_wf env ->
  NoDup (map fst (m_adhocTxInterfaces env)) ->
  movingNode env (GetNode socket) = true ->
  PeekPacketTag packet = Some addr ->
  In (addr, txNode) (m_adhocTxInterfaces env) ->
  inRange env (GetNode socket) txNode = true ->
  receiveOne env socket c packet =
    Some (incrInCoverageReceiveCount (incrReceiveCount c)).
Proof.
  intros Hwf Hnodup Hmoving Htag Hin Hrange.
  unfold movingNode in Hmoving. unfold inRange in Hrange.
  destruct (GetMobilityModel env (GetNode socket)) as [rm | ] eqn:Hrm;
    [ | discriminate ].
  destruct (GetMobilityModel env txNode) as [tm | ] eqn:Htm; [ | discriminate ].
  unfold receiveOne. rewrite Hrm. cbn [bind].
  rewrite receiverMoving_spec, Hmoving, Htag.
  rewrite resolve_loop_entries by exact Hwf.
  rewrite (resolve_unique env (GetNode socket) txNode addr rm tm _ _ Hnodup Hin Hrm Htm).
  now rewrite Hrange.
Qed.

(** Range side conditions on counters, once the records are opened. *)
Ltac open_counters :=
  unfold counters_in_range, addCounters, addExpected, incrSendCount,
    incrReceiveCount, incrInCoverageReceiveCount, incrExpectedReceiveCount in *;
  cbn [wavePktSendCount wavePktReceiveCount wavePktInCoverageReceiveCount
       wavePktExpectedReceiveCount] in *.

Lemma addCounters_0 (c : WaveCounters) : addCounters c 0 0 0 0 = c.
Proof. destruct c. unfold addCounters. cbn. now rewrite !Z.add_0_r. Qed.

Lemma addCounters_add (c : WaveCounters) (s r i e s' r' i' e' : Z) :
  addCounters (addCounters c s r i e) s' r' i' e' =
  addCounters c (s + s') (r + r') (i + i') (e + e').
Proof. unfold addCounters. cbn. now rewrite !Z.add_assoc. Qed.

Section AllInRange.
Variable net : Network.
Variable env : Env.
Variable pktSize : N.
Variable pktInterval : Time.
Hypothesis table_wf : interfaces_wf env.
Hypothesis addresses_distinct : NoDup (map fst (m_adhocTxInterfaces env)).
Hypothesis nodes_distinct : NoDup (m_adhocTxNodes env).
Hypothesis all_mobility :
  forall o, In o (m_adhocTxNodes env) -> GetMobilityModel env o <> None.
Hypothesis all_in_range :
  forall a b, In a (m_adhocTxNodes env) -> In b (m_adhocTxNodes env) -> a <> b ->
              movingNode env a = true -> movingNode env b = true ->
              inRange env a b = true.

(** A moving sender of the set expects every other moving node of it. *)
Lemma expected_is_other_movers (sender : Node) (sm : MobilityModel) :
  In sender (m_adhocTxNodes env) ->
  GetMobilityModel env sender = Some sm ->
  spec_moving sm = true ->
  spec_expectedCount env sender sm (m_adhocTxNodes env) = spec_movers env - 1.
Proof.
  intros Hin Hmob Hmoving.
  assert (Hsender : movingNode env sender = true).
  { unfold movingNode. now rewrite Hmob. }
  unfold spec_expectedCount, spec_movers.
  rewrite <- (filter_other_length (movingNode env) sender _ nodes_distinct Hin Hsender).
  rewrite Nat2Z.inj_succ.
  replace (filter (spec_expected env sender sm) (m_adhocTxNodes env))
    with (filter (fun o => negb (Nat.eqb (GetId o) (GetId sender)) && movingNode env o)
                 (m_adhocTxNodes env)); [ lia | ].
  apply filter_ext_in. intros o Ho. unfold spec_expected.
  destruct (Nat.eqb (GetId o) (GetId sender)) eqn:E; [ reflexivity | ].
  cbn [negb andb].
  assert (Hne : sender <> o).
  { intros ->. now rewrite Nat.eqb_refl in E. }
  unfold movingNode.
  destruct (GetMobilityModel env o) as [om | ] eqn:Hom; [ | reflexivity ].
  destruct (spec_moving om) eqn:Hmo; [ | reflexivity ].
  cbn [andb]. symmetry.
  assert (Ho' : movingNode env o = true) by (unfold movingNode; now rewrite Hom).
  pose proof (all_in_range sender o Hin Ho Hne Hsender Ho') as Hr.
  unfold inRange in Hr. now rewrite Hmob, Hom in Hr.
Qed.

(** The beacon of an acceptable sender is counted once as received and
    once as in coverage by every socket it is delivered to. *)
Lemma deliver_in_range (s : Socket) (receivers : list Socket) :
  In (net_address net (GetNode s), GetNode s) (m_adhocTxInterfaces env) ->
  Forall (fun r => movingNode env (GetNode r) = true /\
                   inRange env (GetNode r) (GetNode s) = true) receivers ->
  forall c,
    counters_in_range c ->
    counters_in_range
      (addCounters c 0 (Z.of_nat (List.length receivers))
                   (Z.of_nat (List.length receivers)) 0) ->
    forEachM (fun c recvSink =>
                ReceiveWavePacket env recvSink
                  [mkPacket pktSize (Some (net_address net (GetNode s)))] c)
             receivers c =
      Some (addCounters c 0 (Z.of_nat (List.length receivers))
                        (Z.of_nat (List.length receivers)) 0).
Proof.
  intros Haddr. induction receivers as [ | r receivers IH]; intros Hall c Hc Hc'.
  - cbn. now rewrite addCounters_0.
  - inversion Hall as [ | ? ? [Hmoving Hrange] Hall']; subst.
    cbn [forEachM ReceiveWavePacket].
    unfold ReceiveWavePacket. cbn [forEachM].
    rewrite (receiveOne_in_range env r c
               (mkPacket pktSize (Some (net_address net (GetNode s))))
               (net_address net (GetNode s)) (GetNode s)
               table_wf addresses_distinct Hmoving eq_refl Haddr Hrange).
    cbn [bind].
    assert (E : incrInCoverageReceiveCount (incrReceiveCount c) = addCounters c 0 1 1 0).
    { cbn [List.length] in Hc'. rewrite Nat2Z.inj_succ in Hc'. open_counters.
      rewrite !int_incr_succ by lia. now rewrite !Z.add_0_r. }
    rewrite E.
    fold (ReceiveWavePacket env).
    change (forEachM
              (fun (c0 : WaveCounters) (recvSink : Socket) =>
                 forEachM (receiveOne env recvSink)
                   [mkPacket pktSize (Some (net_address net (GetNode s)))] c0))
      with (forEachM
              (fun (c0 : WaveCounters) (recvSink : Socket) =>
                 ReceiveWavePacket env recvSink
                   [mkPacket pktSize (Some (net_address net (GetNode s)))] c0)).
    cbn [List.length] in Hc'. rewrite Nat2Z.inj_succ in Hc'.
    rewrite IH; [ | exact Hall' | | ].
    + rewrite addCounters_add. cbn [List.length]. rewrite Nat2Z.inj_succ.
      f_equal. f_equal; lia.
    + open_counters; lia.
    + rewrite addCounters_add.
      open_counters; lia.
Qed.

(** One sender: its tick and the delivery of its beacon. *)
Lemma sendAndDeliver_in_range (s : Socket) (c : WaveCounters) :
  sender_ok net env s ->
  counters_in_range c ->
  counters_in_range
    (addCounters c 1 (Z.of_nat (List.length (net_receivers net s)))
                 (Z.of_nat (List.length (net_receivers net s)))
                 (spec_movers env - 1)) ->
  sendAndDeliver net env pktSize pktInterval c s =
    Some (addCounters c 1 (Z.of_nat (List.length (net_receivers net s)))
                      (Z.of_nat (List.length (net_receivers net s)))
                      (spec_movers env - 1)).
Proof.
  intros (Hidx & Hmoving & Haddr & Hrecv) Hc Hc'.
  assert (Hin : In (GetNode s) (m_adhocTxNodes env)).
  { unfold Get in Hidx. eapply nth_error_In. exact Hidx. }
  unfold movingNode in Hmoving.
  destruct (GetMobilityModel env (GetNode s)) as [sm | ] eqn:Hmob; [ | discriminate ].
  pose proof (expected_is_other_movers (GetNode s) sm Hin Hmob Hmoving) as Hcount.
  assert (Hpos : 0 <= spec_movers env - 1).
  { rewrite <- Hcount. apply spec_expectedCount_nonneg. }
  unfold sendAndDeliver.
  rewrite (tick_sends env c s pktSize 1 pktInterval sm);
    [ | reflexivity | exact Hidx | exact Hmob | exact Hmoving | exact all_mobility
      | open_counters; lia
      | rewrite Hcount; open_counters; lia ].
  cbn [bind fst snd deliverActions].
  rewrite Hcount.
  assert (E : addExpected (incrSendCount c) (spec_movers env - 1)
              = addCounters c 1 0 0 (spec_movers env - 1)).
  { open_counters. rewrite int_incr_succ by lia. now rewrite !Z.add_0_r. }
  rewrite E.
  rewrite (deliver_in_range s (net_receivers net s) Haddr Hrecv).
  - cbn [bind]. rewrite addCounters_add. f_equal. f_equal; lia.
  - open_counters; lia.
  - rewrite addCounters_add.
    open_counters; lia.
Qed.

(** All senders, one after the other. *)
Lemma all_senders_in_range (senders : list Socket) : forall c,
  Forall (sender_ok net env) senders ->
  counters_in_range c ->
  counters_in_range
    (addCounters c (Z.of_nat (List.length senders))
                 (spec_deliveries net senders) (spec_deliveries net senders)
                 (Z.of_nat (List.length senders) * (spec_movers env - 1))) ->
  forEachM (sendAndDeliver net env pktSize pktInterval) senders c =
    Some (addCounters c (Z.of_nat (List.length senders))
                      (spec_deliveries net senders) (spec_deliveries net senders)
                      (Z.of_nat (List.length senders) * (spec_movers env - 1))).
Proof.
  induction senders as [ | s senders IH]; intros c Hall Hc Hc'.
  - cbn. now rewrite addCounters_0.
  - inversion Hall as [ | ? ? Hs Hall']; subst.
    assert (Hpos : 0 <= spec_movers env - 1).
    { destruct Hs as (Hidx & Hmoving & _).
      unfold movingNode in Hmoving.
      destruct (GetMobilityModel env (GetNode s)) as [sm | ] eqn:Hmob; [ | discriminate ].
      rewrite <- (expected_is_other_movers (GetNode s) sm
                    (nth_error_In _ _ Hidx) Hmob Hmoving).
      apply spec_expectedCount_nonneg. }
    unfold spec_deliveries in *. cbn [flat_map List.length] in *.
    rewrite length_app, Nat2Z.inj_add, Nat2Z.inj_succ in *.
    set (d := Z.of_nat (List.length (net_receivers net s))) in *.
    set (D := Z.of_nat (List.length (flat_map (net_receivers net) senders))) in *.
    set (k := Z.of_nat (List.length senders)) in *.
    assert (0 <= d /\ 0 <= D /\ 0 <= k) as (Hd & HD & Hk) by (subst d D k; lia).
    cbn [forEachM].
    rewrite (sendAndDeliver_in_range s c Hs Hc);
      [ | open_counters; nia ].
    cbn [bind].
    rewrite IH; [ | exact Hall' | | ].
    + rewrite addCounters_add. f_equal. f_equal; lia.
    + open_counters; nia.
    + rewrite addCounters_add.
      open_counters; nia.
Qed.
End AllInRange.

Lemma sender_okb_sound (net : Network) (env : Env) (senders : list Socket) :
  forallb (sender_okb net env) senders = true ->
  Forall (sender_ok net env) senders.
Proof.
  rewrite forallb_forall, Forall_forall. intros H s Hs.
  specialize (H s Hs). unfold sender_okb in H.
  apply andb_prop in H as [H Hrecv]. apply andb_prop in H as [H Haddr].
  apply andb_prop in H as [Hidx Hmoving].
  repeat split.
  - destruct (Get (m_adhocTxNodes env) (GetId (GetNode s))) as [n | ];
      [ | discriminate ].
    apply node_eqb_eq in Hidx. now subst.
  - exact Hmoving.
  - apply existsb_exists in Haddr as ([addr n] & Hin & Hxx).
    cbn [fst snd] in Hxx. apply andb_prop in Hxx as [Ha Hn].
    apply Z.eqb_eq in Ha. apply node_eqb_eq in Hn. now subst.
  - rewrite Forall_forall. intros r Hr.
    rewrite forallb_forall in Hrecv. specialize (Hrecv r Hr).
    now apply andb_prop in Hrecv.
Qed.

Lemma all_in_rangeb_sound (env : Env) :
  all_in_rangeb env = true ->
  forall a b, In a (m_adhocTxNodes env) -> In b (m_adhocTxNodes env) -> a <> b ->
              movingNode env a = true -> movingNode env b = true ->
              inRange env a b = true.
Proof.
  unfold all_in_rangeb. rewrite forallb_forall.
  intros H a b Ha Hb Hne Hma Hmb.
  specialize (H a Ha). rewrite forallb_forall in H. specialize (H b Hb).
  rewrite Hma, Hmb in H. cbn [andb negb] in H. rewrite orb_false_r in H.
  apply orb_prop in H as [H | H]; [ | exact H ].
  apply node_eqb_eq in H. contradiction.
Qed.

Lemma all_mobilityb_sound (env : Env) :
  all_mobilityb env = true ->
  forall o, In o (m_adhocTxNodes env) -> GetMobilityModel env o <> None.
Proof.
  unfold all_mobilityb. rewrite forallb_forall. intros H o Ho Hnone.
  specialize (H o Ho). now rewrite Hnone in H.
Qed.

(** C8, as the code has it.  When the moving nodes of the transmitter set
    are all within the safety range of each other, as ten transmitters 50 m
    away from a common observer are for a range of 100 m, every send counts
    all the other moving nodes of the set: after one beacon from each of
    [k] senders the expected counter is [k * (M - 1)], where [M] is the
    number of moving nodes in the set, and each delivery of a beacon to a
    moving node within range of its sender adds one to the receive and to
    the in-coverage counter.  For scenario 1 that is 90 expected receptions
    with the ten transmitters alone and 100 when the moving observer is in
    the set; the ten receptions of the observer alone give a cumulative
    ratio of 10/100, and the ratio is 1 when every beacon reaches every
    other node. *)
Theorem one_beacon_each_in_range (net : Network) (env : Env) (pktSize : N)
    (pktInterval : Time) (senders : list Socket) :
  interfaces_wf env ->
  NoDup (map fst (m_adhocTxInterfaces env)) ->
  NoDup (m_adhocTxNodes env) ->
  (forall o, In o (m_adhocTxNodes env) -> GetMobilityModel env o <> None) ->
  (forall a b, In a (m_adhocTxNodes env) -> In b (m_adhocTxNodes env) -> a <> b ->
               movingNode env a = true -> movingNode env b = true ->
               inRange env a b = true) ->
  Forall (sender_ok net env) senders ->
  Z.of_nat (List.length senders) <= INT_MAX ->
  spec_deliveries net senders <= INT_MAX ->
  Z.of_nat (List.length senders) * (spec_movers env - 1) <= INT_MAX ->
  forEachM (sendAndDeliver net env pktSize pktInterval) senders initial_counters =
    Some (mkCounters (Z.of_nat (List.length senders))
                     (spec_deliveries net senders)
                     (spec_deliveries net senders)
                     (Z.of_nat (List.length senders) * (spec_movers env - 1))) /\
  bsm_pdr (mkCounters 10 10 10 100) = (10 / 100)%float /\
  PrimFloat.ltb (bsm_pdr (mkCounters 10 10 10 100)) 1 = true /\
  bsm_pdr (mkCounters 10 100 100 100) = 1%float.
Proof.
  intros Hwf Haddr Hnodes Hmob Hrange Hsenders Hk Hd He.
  split; [ | repeat split ].
  assert (Hpos : 0 <= Z.of_nat (List.length senders) * (spec_movers env - 1)).
  { destruct senders as [ | s senders']; [ cbn; lia | ].
    inversion Hsenders as [ | ? ? (Hidx & Hmoving & _) _]; subst.
    unfold movingNode in Hmoving.
    destruct (GetMobilityModel env (GetNode s)) as [sm | ] eqn:Hsm; [ | discriminate ].
    rewrite <- (expected_is_other_movers env Hnodes Hrange (GetNode s) sm
                  (nth_error_In _ _ Hidx) Hsm Hmoving).
    pose proof (spec_expectedCount_nonneg env (GetNode s) sm (m_adhocTxNodes env)).
    lia. }
  assert (Hdpos : 0 <= spec_deliveries net senders) by (unfold spec_deliveries; lia).
  rewrite (all_senders_in_range net env pktSize pktInterval Hwf Haddr Hnodes Hmob
             Hrange senders initial_counters Hsenders).
  - reflexivity.
  - unfold counters_in_range, initial_counters, INT_MIN, INT_MAX. cbn. lia.
  - unfold initial_counters. open_counters. unfold INT_MIN, INT_MAX in *. lia.
Qed.

Lemma scenario1_all_wf :
  interfaces_wf (scenario1_env moving_observer 11) /\
  NoDup (map fst (m_adhocTxInterfaces (scenario1_env moving_observer 11))) /\
  NoDup (m_adhocTxNodes (scenario1_env moving_observer 11)).
Proof.
  split; [ split; [ reflexivity | vm_compute; discriminate ] | ].
  split; cbn; repeat constructor; cbn; intuition discriminate.
Qed.

Lemma one_beacon_each_in_range_witness :
  forEachM (sendAndDeliver scenario1_to_all (scenario1_env moving_observer 11)
              200 100000000)
           scenario1_senders initial_counters =
    Some (mkCounters 10 100 100 100) /\
  bsm_pdr (mkCounters 10 10 10 100) = (10 / 100)%float /\
  PrimFloat.ltb (bsm_pdr (mkCounters 10 10 10 100)) 1 = true /\
  bsm_pdr (mkCounters 10 100 100 100) = 1%float.
Proof.
  refine (one_beacon_each_in_range scenario1_to_all
            (scenario1_env moving_observer 11) 200 100000000 scenario1_senders
            (proj1 scenario1_all_wf) (proj1 (proj2 scenario1_all_wf))
            (proj2 (proj2 scenario1_all_wf))
            (all_mobilityb_sound _ _) (all_in_rangeb_sound _ _)
            (sender_okb_sound _ _ _ _) _ _ _).
  - vm_compute; reflexivity.
  - vm_compute; reflexivity.
  - vm_compute; reflexivity.
  - vm_compute; discriminate.
  - vm_compute; discriminate.
  - vm_compute; discriminate.
Defined.

(** The other readings of scenario 1: the observer stationary, or outside
    the transmitter set (90 expected receptions), and delivery to the
    observer only (10 receptions in coverage out of 100 or 90 expected). *)
Lemma scenario1_variants :
  forEachM (sendAndDeliver quiet_net (scenario1_env fixed_observer 11) 200 100000000)
           scenario1_senders initial_counters = Some (mkCounters 10 0 0 90) /\
  forEachM (sendAndDeliver quiet_net (scenario1_env moving_observer 10) 200 100000000)
           scenario1_senders initial_counters = Some (mkCounters 10 0 0 90) /\
  forEachM (sendAndDeliver quiet_net (scenario1_env moving_observer 11) 200 100000000)
           scenario1_senders initial_counters = Some (mkCounters 10 0 0 100) /\
  forEachM (sendAndDeliver scenario1_to_observer (scenario1_env moving_observer 11)
              200 100000000)
           scenario1_senders initial_counters = Some (mkCounters 10 10 10 100) /\
  forEachM (sendAndDeliver scenario1_to_observer (scenario1_env moving_observer 10)
              200 100000000)
           scenario1_senders initial_counters = Some (mkCounters 10 10 10 90).
Proof.
  repeat split; vm_compute; reflexivity.
Qed.

(** The same numbers come out of the event loop, where every generator
    also fires a second time, 0.1 s later, to close its socket. *)
Lemma scenario1_run_counts :
  Forall (fun p => spec_distSq (mkVector 0 0 0) p = 2500%float)
         scenario1_positions /\
  Forall (fun p => Forall (fun q => (spec_distSq p q <=? 10000)%float = true)
                          scenario1_positions)
         scenario1_positions /\
  final_counters (run quiet_net (scenario1_env fixed_observer 11)
                      10000000000 20 scenario1_start)
    = Some (mkCounters 10 0 0 90) /\
  final_counters (run quiet_net (scenario1_env moving_observer 10)
                      10000000000 20 scenario1_start)
    = Some (mkCounters 10 0 0 90) /\
  final_counters (run quiet_net (scenario1_env moving_observer 11)
                      10000000000 20 scenario1_start)
    = Some (mkCounters 10 0 0 100) /\
  final_counters (run scenario1_to_observer (scenario1_env moving_observer 11)
                      10000000000 20 scenario1_start)
    = Some (mkCounters 10 10 10 100) /\
  final_counters (run scenario1_to_all (scenario1_env moving_observer 11)
                      10000000000 20 scenario1_start)
    = Some (mkCounters 10 100 100 100).
Proof.
  split; [ repeat constructor | ].
  split; [ repeat constructor | ].
  repeat split; vm_compute; reflexivity.
Qed.

(** C8 as stated fails: after the ten sends the expected counter is 90 or
    100, never 10; with delivery to the observer alone the cumulative ratio
    is below 1, and with delivery to every node the in-coverage counter is
    100, not 10. *)
Lemma scenario1_expected_is_not_10 :
  option_map wavePktExpectedReceiveCount
    (final_counters (run scenario1_to_observer (scenario1_env moving_observer 11)
                         10000000000 20 scenario1_start)) = Some 100 /\
  option_map wavePktExpectedReceiveCount
    (final_counters (run scenario1_to_observer (scenario1_env moving_observer 10)
                         10000000000 20 scenario1_start)) = Some 90 /\
  option_map wavePktExpectedReceiveCount
    (final_counters (run quiet_net (scenario1_env fixed_observer 11)
                         10000000000 20 scenario1_start)) = Some 90 /\
  100 <> 10 /\ 90 <> 10 /\
  option_map (fun c => PrimFloat.ltb (bsm_pdr c) 1)
    (final_counters (run scenario1_to_observer (scenario1_env moving_observer 11)
                         10000000000 20 scenario1_start)) = Some true /\
  option_map wavePktInCoverageReceiveCount
    (final_counters (run scenario1_to_all (scenario1_env moving_observer 11)
                         10000000000 20 scenario1_start)) = Some 100.
Proof.
  repeat split; try (vm_compute; reflexivity); discriminate.
Qed.

(** * Part VII: further properties *)

(** ** One beacon, any interface table *)

Lemma iter_int_incr (k : nat) : forall v : Z,
  INT_MIN <= v -> v + Z.of_nat k <= INT_MAX ->
  Nat.iter k int_incr v = v + Z.of_nat k.
Proof.
  induction k as [ | k IH]; intros v Hlo Hhi.
  - cbn. lia.
  - rewrite Nat.iter_succ_r. rewrite int_incr_succ by lia.
    rewrite IH by lia. lia.
Qed.

(** The scan over the entries adds one per interface that carries the
    address and is in range; entries with the address need a mobility
    model, the others are not looked at. *)
Lemma resolve_entries_hits (env : Env) (node : Node) (addr : Ipv4Address)
    (rm : MobilityModel) (l : list (Ipv4Address * Node)) :
  GetMobilityModel env node = Some rm ->
  (forall xx, In xx l -> fst xx = addr -> GetMobilityModel env (snd xx) <> None) ->
  forall c,
    forEachM (resolveEntry env node addr) l c =
      Some (mkCounters (wavePktSendCount c) (wavePktReceiveCount c)
              (Nat.iter
                 (List.length
                    (filter (fun xx : Ipv4Address * Node =>
               Z.eqb addr (fst xx) && inRange env node (snd xx)) l))
                 int_incr (wavePktInCoverageReceiveCount c))
              (wavePktExpectedReceiveCount c)).
Proof.
  intros Hrm. induction l as [ | xx l IH]; intros Hmob c.
  - cbn. now destruct c.
  - cbn [forEachM filter]. unfold resolveEntry at 1.
    destruct (Z.eqb_spec addr (fst xx)) as [Heq | Hne]; cbn [andb].
    + destruct (GetMobilityModel env (snd xx)) as [tm | ] eqn:Htm;
        [ | exfalso; apply (Hmob xx); [ now left | now symmetry | exact Htm ] ].
      assert (Hin : inRange env node (snd xx) =
                    (spec_distSq (GetPosition rm) (GetPosition tm)
                     <=? m_txSafetyRangeSq env)%float).
      { unfold inRange. now rewrite Hrm, Htm. }
      rewrite Hin. unfold getDistSq. rewrite Hrm, Htm. cbn [bind].
      fold (spec_distSq (GetPosition rm) (GetPosition tm)).
      destruct (spec_distSq (GetPosition rm) (GetPosition tm)
                <=? m_txSafetyRangeSq env)%float; cbn [bind].
      * rewrite IH by (intros xx' H; apply Hmob; now right).
        cbn [List.length]. rewrite Nat.iter_succ_r. reflexivity.
      * apply IH. intros xx' H; apply Hmob; now right.
    + cbn [bind]. apply IH. intros xx' H; apply Hmob; now right.
Qed.



(** ** The order of the beacons in a queue *)

(** The scan on the counters is the scan on a plain count. *)
Lemma resolve_loop_count (env : Env) (node : Node) (addr : Ipv4Address)
    (c : WaveCounters) (n : nat) : forall (i : Z) (k : nat),
  forIndexM (resolveSender env node addr) n i (addHits c k) =
  option_map (addHits c) (forIndexM (countSender env node addr) n i k).
Proof.
  induction n as [ | n IH]; intros i k; [ reflexivity | ].
  cbn [forIndexM]. unfold resolveSender at 1, countSender at 1.
  destruct (GetInterface (m_adhocTxInterfaces env) i) as [xx | ]; [ | reflexivity ].
  cbn [bind]. destruct (addr =? fst xx); [ | cbn [bind]; apply IH ].
  destruct (getDistSq env node (snd xx)) as [d | ]; [ | reflexivity ].
  cbn [bind]. destruct (d <=? m_txSafetyRangeSq env)%float; cbn [bind].
  - change (incrInCoverageReceiveCount (addHits c k)) with (addHits c (S k)).
    apply IH.
  - apply IH.
Qed.

(** What one beacon does to the counters depends on the counters only
    through the number of hits, which they do not influence. *)
Lemma receiveOne_hits (env : Env) (socket : Socket) (c : WaveCounters)
    (packet : Packet) :
  receiveOne env socket c packet =
  option_map (afterBeacon c) (receiveHits env socket packet).
Proof.
  unfold receiveOne, receiveHits.
  destruct (GetMobilityModel env (GetNode socket)) as [rm | ]; [ | reflexivity ].
  cbn [bind].
  destruct (receiverMoving (GetVelocity rm)); [ | now destruct c ].
  destruct (PeekPacketTag packet) as [addr | ]; [ | now destruct c ].
  change (incrReceiveCount c) with (addHits (incrReceiveCount c) 0).
  rewrite resolve_loop_count.
  destruct (forIndexM (countSender env (GetNode socket) addr)
              (Z.to_nat (int_of_uint32 (m_nNodes env))) 0 0%nat); reflexivity.
Qed.

Lemma afterBeacon_swap (c : WaveCounters) (j k : nat) :
  afterBeacon (afterBeacon c j) k = afterBeacon (afterBeacon c k) j.
Proof.
  unfold afterBeacon.
  cbn [wavePktSendCount wavePktReceiveCount wavePktInCoverageReceiveCount
       wavePktExpectedReceiveCount].
  f_equal. rewrite <- !Nat.iter_add. f_equal. lia.
Qed.

(** X5.  The counters after a drain do not depend on the order in which
    the beacons were queued, and neither does whether the drain aborts. *)
Theorem drain_order_irrelevant (env : Env) (socket : Socket)
    (queue queue' : list Packet) (c : WaveCounters) :
  Permutation queue queue' ->
  ReceiveWavePacket env socket queue c = ReceiveWavePacket env socket queue' c.
Proof.
  intros Hperm. revert c. unfold ReceiveWavePacket.
  induction Hperm as [ | p q q' _ IH | p1 p2 q | q1 q2 q3 _ IH1 _ IH2 ]; intros c.
  - reflexivity.
  - cbn [forEachM]. destruct (receiveOne env socket c p); [ apply IH | reflexivity ].
  - cbn [forEachM].
    rewrite (receiveOne_hits env socket c p1), (receiveOne_hits env socket c p2).
    destruct (receiveHits env socket p1) as [k1 | ] eqn:E1;
      destruct (receiveHits env socket p2) as [k2 | ] eqn:E2;
      cbn [option_map bind]; rewrite ?receiveOne_hits, ?E1, ?E2;
      cbn [option_map bind]; try reflexivity.
    now rewrite afterBeacon_swap.
  - now rewrite IH1.
Qed.

Lemma drain_order_irrelevant_witness :
  ReceiveWavePacket demo_env (mkSocket (mkNode 0))
    [mkPacket 200 (Some 167837698); mkPacket 100 None] (mkCounters 7 5 2 9) =
  ReceiveWavePacket demo_env (mkSocket (mkNode 0))
    [mkPacket 100 None; mkPacket 200 (Some 167837698)] (mkCounters 7 5 2 9).
Proof.
  refine (drain_order_irrelevant demo_env (mkSocket (mkNode 0)) _ _
            (mkCounters 7 5 2 9) (perm_swap _ _ _)).
Defined.

(** ** In-coverage receptions against receptions *)

(** With distinct addresses at most one interface carries an address. *)
Lemma hits_at_most_one (P : Ipv4Address * Node -> bool) (addr : Ipv4Address)
    (l : list (Ipv4Address * Node)) :
  NoDup (map fst l) ->
  (List.length (filter (fun xx : Ipv4Address * Node => Z.eqb addr (fst xx) && P xx) l)
   <= 1)%nat.
Proof.
  induction l as [ | xx l IH]; intros Hnd; [ cbn; lia | ].
  cbn [map] in Hnd. inversion Hnd as [ | ? ? Hnotin Hnd']; subst.
  cbn [filter]. destruct (Z.eqb_spec addr (fst xx)) as [Heq | Hne]; cbn [andb].
  - assert (Hnone : filter (fun xx0 : Ipv4Address * Node =>
                              Z.eqb addr (fst xx0) && P xx0) l = []).
    { clear IH Hnd Hnd'. induction l as [ | yy l IHl]; [ reflexivity | ].
      cbn [filter]. destruct (Z.eqb_spec addr (fst yy)) as [Heq' | _].
      - exfalso. apply Hnotin. left. congruence.
      - cbn [andb]. apply IHl. intros Hin. apply Hnotin. now right. }
    rewrite Hnone. destruct (P xx); cbn; lia.
  - now apply IH.
Qed.

(** One beacon, when no interface node lacks a mobility model. *)
Lemma receiveOne_total (env : Env) (socket : Socket) (rm : MobilityModel)
    (c : WaveCounters) (packet : Packet) :
  interfaces_wf env ->
  (forall xx, In xx (m_adhocTxInterfaces env) ->
              GetMobilityModel env (snd xx) <> None) ->
  GetMobilityModel env (GetNode socket) = Some rm ->
  receiveOne env socket c packet =
    Some (afterBeacon c
            (if spec_moving rm
             then match PeekPacketTag packet with
                  | Some addr => spec_hits env (GetNode socket) addr
                  | None => 0%nat
                  end
             else 0%nat)).
Proof.
  intros Hwf Hmob Hrm. unfold receiveOne. rewrite Hrm. cbn [bind].
  rewrite receiverMoving_spec.
  destruct (spec_moving rm); [ | now destruct c ].
  destruct (PeekPacketTag packet) as [addr | ]; [ | now destruct c ].
  rewrite resolve_loop_entries by exact Hwf.
  now rewrite (resolve_entries_hits env (GetNode socket) addr rm _ Hrm
                 (fun xx H _ => Hmob xx H)).
Qed.

(** X6.  With one interface per address, a drain never adds more to the
    in-coverage counter than to the receive counter, and it never lowers
    either of them. *)
Theorem in_coverage_growth_bounded (env : Env) (socket : Socket)
    (rm : MobilityModel) (queue : list Packet) (c : WaveCounters) :
  interfaces_wf env ->
  NoDup (map fst (m_adhocTxInterfaces env)) ->
  (forall xx, In xx (m_adhocTxInterfaces env) ->
              GetMobilityModel env (snd xx) <> None) ->
  GetMobilityModel env (GetNode socket) = Some rm ->
  INT_MIN <= wavePktReceiveCount c ->
  wavePktReceiveCount c + Z.of_nat (List.length queue) <= INT_MAX ->
  INT_MIN <= wavePktInCoverageReceiveCount c ->
  wavePktInCoverageReceiveCount c + Z.of_nat (List.length queue) <= INT_MAX ->
  exists c',
    ReceiveWavePacket env socket queue c = Some c' /\
    wavePktReceiveCount c' - wavePktReceiveCount c = Z.of_nat (List.length queue) /\
    0 <= wavePktInCoverageReceiveCount c' - wavePktInCoverageReceiveCount c
      <= wavePktReceiveCount c' - wavePktReceiveCount c.
Proof.
  intros Hwf Hnd Hmob Hrm. unfold ReceiveWavePacket.
  revert c. induction queue as [ | packet queue IH]; intros c Hr1 Hr2 Hi1 Hi2.
  - exists c. cbn. repeat split; lia.
  - cbn [List.length] in Hr2, Hi2. rewrite Nat2Z.inj_succ in Hr2, Hi2.
    cbn [forEachM].
    rewrite (receiveOne_total env socket rm c packet Hwf Hmob Hrm). cbn [bind].
    set (k := if spec_moving rm
              then match PeekPacketTag packet with
                   | Some addr => spec_hits env (GetNode socket) addr
                   | None => 0%nat
                   end
              else 0%nat).
    assert (Hk : (k <= 1)%nat).
    { subst k. destruct (spec_moving rm); [ | lia ].
      destruct (PeekPacketTag packet) as [addr | ]; [ | lia ].
      unfold spec_hits.
      apply (hits_at_most_one (fun xx => inRange env (GetNode socket) (snd xx))).
      exact Hnd. }
    assert (Hc1 : afterBeacon c k =
                  mkCounters (wavePktSendCount c) (wavePktReceiveCount c + 1)
                             (wavePktInCoverageReceiveCount c + Z.of_nat k)
                             (wavePktExpectedReceiveCount c)).
    { unfold afterBeacon. rewrite int_incr_succ by lia.
      rewrite iter_int_incr by lia. reflexivity. }
    rewrite Hc1.
    destruct (IH (mkCounters (wavePktSendCount c) (wavePktReceiveCount c + 1)
                             (wavePktInCoverageReceiveCount c + Z.of_nat k)
                             (wavePktExpectedReceiveCount c)))
      as (c' & Hc' & Hrecv & Hin);
      [ cbn; lia | cbn; lia | cbn; lia | cbn; lia | ].
    exists c'. split; [ exact Hc' | ].
    cbn [wavePktReceiveCount wavePktInCoverageReceiveCount] in Hrecv, Hin.
    cbn [List.length]. rewrite Nat2Z.inj_succ. lia.
Qed.

Lemma in_coverage_growth_bounded_witness :
  exists c',
    ReceiveWavePacket demo_env (mkSocket (mkNode 0))
      [mkPacket 200 (Some 167837698); mkPacket 200 (Some 167837699)]
      (mkCounters 7 5 2 9) = Some c' /\
    wavePktReceiveCount c' - 5 = Z.of_nat 2 /\
    0 <= wavePktInCoverageReceiveCount c' - 2 <= wavePktReceiveCount c' - 5.
Proof.
  refine (in_coverage_growth_bounded demo_env (mkSocket (mkNode 0))
            (mkMobility (mkVector 0 0 0) (mkVector 1 0 0))
            [mkPacket 200 (Some 167837698); mkPacket 200 (Some 167837699)]
            (mkCounters 7 5 2 9) demo_interfaces_wf demo_addresses_distinct
            demo_interfaces_mobility _ _ _ _ _).
  - reflexivity.
  - unfold INT_MIN; cbn; lia.
  - vm_compute; discriminate.
  - unfold INT_MIN; cbn; lia.
  - vm_compute; discriminate.
Defined.

(** ** When the handlers abort *)

(** A loop whose body fails or not whatever the state fails exactly when
    its body fails on some element. *)
Lemma forEachM_None {A S : Type} (body : S -> A -> option S) (Q : A -> Prop)
    (l : list A) :
  (forall s a, In a l -> (body s a = None <-> Q a)) ->
  forall s, forEachM body l s = None <-> exists a, In a l /\ Q a.
Proof.
  induction l as [ | a l IH]; intros Hbody s.
  - cbn. split; [ discriminate | intros (a & [] & _) ].
  - cbn [forEachM].
    assert (Hl : forall s a', In a' l -> (body s a' = None <-> Q a')).
    { intros s' a' H. apply Hbody. now right. }
    destruct (body s a) as [s' | ] eqn:E; cbn [bind].
    + rewrite (IH Hl s'). split.
      * intros (a' & Hin & HQ). exists a'. split; [ now right | exact HQ ].
      * intros (a' & [Heq | Hin] & HQ).
        -- subst a'. apply (Hbody s a (or_introl eq_refl)) in HQ. congruence.
        -- exists a'. now split.
    + split; [ intros _ | reflexivity ].
      exists a. split; [ now left | ]. now apply (Hbody s a (or_introl eq_refl)).
Qed.

Lemma resolveEntry_None (env : Env) (node : Node) (addr : Ipv4Address)
    (rm : MobilityModel) (c : WaveCounters) (xx : Ipv4Address * Node) :
  GetMobilityModel env node = Some rm ->
  resolveEntry env node addr c xx = None <->
  fst xx = addr /\ GetMobilityModel env (snd xx) = None.
Proof.
  intros Hrm. unfold resolveEntry, getDistSq. rewrite Hrm. cbn [bind].
  destruct (Z.eqb_spec addr (fst xx)) as [Heq | Hne].
  - destruct (GetMobilityModel env (snd xx)) as [tm | ]; cbn [bind].
    + match goal with |- context [if ?b then _ else _] => destruct b end;
        split; try discriminate; intros [_ H]; discriminate.
    + split; [ intros _; now split | reflexivity ].
  - split; [ discriminate | intros [H _]; congruence ].
Qed.

(** X3.  A drain aborts exactly when some queued beacon meets a missing
    mobility model: that of the receiver, or, for a moving receiver, that
    of the node of an interface carrying the beacon's address.  An empty
    queue never aborts, and a stationary receiver never looks at the
    interface table. *)
Theorem drain_aborts_iff (env : Env) (socket : Socket) (queue : list Packet)
    (c : WaveCounters) :
  interfaces_wf env ->
  ReceiveWavePacket env socket queue c = None <->
  exists packet,
    In packet queue /\
    (GetMobilityModel env (GetNode socket) = None \/
     (movingNode env (GetNode socket) = true /\
      exists xx, In xx (m_adhocTxInterfaces env) /\
                 PeekPacketTag packet = Some (fst xx) /\
                 GetMobilityModel env (snd xx) = None)).
Proof.
  intros Hwf. unfold ReceiveWavePacket.
  apply forEachM_None. intros c' packet _.
  unfold receiveOne, movingNode.
  destruct (GetMobilityModel env (GetNode socket)) as [rm | ] eqn:Hrm; cbn [bind];
    [ | split; [ intros _; now left | reflexivity ] ].
  rewrite receiverMoving_spec.
  destruct (spec_moving rm).
  - destruct (PeekPacketTag packet) as [addr | ].
    + rewrite resolve_loop_entries by exact Hwf.
      rewrite (forEachM_None (resolveEntry env (GetNode socket) addr)
                 (fun xx => fst xx = addr /\ GetMobilityModel env (snd xx) = None)).
      * split.
        -- intros (xx & Hin & Haddr & Hnone). right. split; [ reflexivity | ].
           exists xx. repeat split; [ exact Hin | now rewrite Haddr | exact Hnone ].
        -- intros [H | (_ & xx & Hin & Htag & Hnone)]; [ discriminate | ].
           exists xx. repeat split; [ exact Hin | congruence | exact Hnone ].
      * intros s xx _. now apply resolveEntry_None with (rm := rm).
    + split; [ discriminate | ].
      intros [H | (_ & xx & _ & Htag & _)]; discriminate.
  - split; [ discriminate | ].
    intros [H | (H & _)]; discriminate.
Qed.

Lemma drain_aborts_iff_witness :
  ReceiveWavePacket demo_env (mkSocket (mkNode 7)) [mkPacket 200 None]
                    initial_counters = None <->
  exists packet,
    In packet [mkPacket 200 None] /\
    (GetMobilityModel demo_env (mkNode 7) = None \/
     (movingNode demo_env (mkNode 7) = true /\
      exists xx, In xx (m_adhocTxInterfaces demo_env) /\
                 PeekPacketTag packet = Some (fst xx) /\
                 GetMobilityModel demo_env (snd xx) = None)).
Proof.
  exact (drain_aborts_iff demo_env (mkSocket (mkNode 7)) [mkPacket 200 None]
           initial_counters demo_interfaces_wf).
Defined.

Lemma expectReceiver_None (env : Env) (txNodeId : nat) (txNode : Node)
    (sm : MobilityModel) (c : WaveCounters) (o : Node) :
  Get (m_adhocTxNodes env) txNodeId = Some txNode ->
  GetMobilityModel env txNode = Some sm ->
  expectReceiver env txNodeId c o = None <->
  GetId o <> txNodeId /\ GetMobilityModel env o = None.
Proof.
  intros Hidx Hsm. unfold expectReceiver.
  destruct (Nat.eqb_spec (GetId o) txNodeId) as [Heq | Hne]; cbn [negb].
  - split; [ discriminate | intros [H _]; contradiction ].
  - destruct (GetMobilityModel env o) as [om | ] eqn:Hom; cbn [bind].
    + destruct (receiverMoving (GetVelocity om)).
      * rewrite Hidx. cbn [bind]. unfold getDistSq. rewrite Hsm, Hom. cbn [bind].
        match goal with |- context [if ?b then _ else _] => destruct b end;
          split; try discriminate; intros [_ H]; discriminate.
      * split; [ discriminate | intros [_ H]; discriminate ].
    + split; [ intros _; now split | reflexivity ].
Qed.

(** X2.  A generator tick aborts exactly when it has budget left and
    either the id of its socket's node is no index of the node container,
    or the node stored there has no mobility model, or that node moves
    and some node of the container with another id has no mobility model.
    The last tick (budget 0) never aborts, and a stationary sender never
    looks at the other nodes. *)
Theorem tick_aborts_iff (env : Env) (c : WaveCounters) (socket : Socket)
    (pktSize pktCount : N) (pktInterval : Time) :
  GenerateWaveTraffic env c socket pktSize pktCount pktInterval = None <->
  (0 < pktCount)%N /\
  (Get (m_adhocTxNodes env) (GetId (GetNode socket)) = None \/
   exists txNode,
     Get (m_adhocTxNodes env) (GetId (GetNode socket)) = Some txNode /\
     (GetMobilityModel env txNode = None \/
      (movingNode env txNode = true /\
       exists o, In o (m_adhocTxNodes env) /\
                 GetId o <> GetId (GetNode socket) /\
                 GetMobilityModel env o = None))).
Proof.
  unfold GenerateWaveTraffic.
  destruct (N.ltb_spec 0 pktCount) as [Hpos | Hzero];
    [ | split; [ discriminate | intros [H _]; lia ] ].
  destruct (Get (m_adhocTxNodes env) (GetId (GetNode socket))) as [txNode | ] eqn:Hidx;
    cbn [bind]; [ | split; [ intros _; split; [ exact Hpos | now left ] | reflexivity ] ].
  destruct (GetMobilityModel env txNode) as [sm | ] eqn:Hsm; cbn [bind].
  2:{ split; [ | reflexivity ]. intros _. split; [ exact Hpos | ].
      right. exists txNode. split; [ reflexivity | now left ]. }
  assert (Hmn : movingNode env txNode = spec_moving sm).
  { unfold movingNode. now rewrite Hsm. }
  rewrite senderMoving_receiverMoving, receiverMoving_spec.
  pose proof (forEachM_None (expectReceiver env (GetId (GetNode socket)))
                (fun o => GetId o <> GetId (GetNode socket) /\
                          GetMobilityModel env o = None)
                (m_adhocTxNodes env)
                (fun s o _ => expectReceiver_None env _ txNode sm s o Hidx Hsm)
                (incrSendCount c)) as Hscan.
  destruct (spec_moving sm) eqn:Hmv.
  - destruct (forEachM (expectReceiver env (GetId (GetNode socket)))
                (m_adhocTxNodes env) (incrSendCount c)) as [c' | ] eqn:Escan;
      cbn [bind].
    + split; [ discriminate | ].
      intros (_ & [H | (txNode' & Heq & [H | (_ & o & Hin & Hne & Hnone)])]);
        [ discriminate | congruence | ].
      assert (Hnone' : Some c' = None); [ | discriminate ].
      apply (proj2 Hscan). exists o. now repeat split.
    + split; [ intros _ | reflexivity ].
      split; [ exact Hpos | ]. right. exists txNode. split; [ reflexivity | ].
      right. split; [ exact Hmn | ].
      destruct (proj1 Hscan eq_refl) as (o & Hin & Hne & Hnone).
      exists o. now repeat split.
  - cbn [bind]. split; [ discriminate | ].
    intros (_ & [H | (txNode' & Heq & [H | (H & _)])]);
      [ discriminate | congruence | ].
    inversion Heq; subst. congruence.
Qed.

(** ** What a generator tick can and cannot do *)

(** The scan only increments the expected counter, at most once per node
    with another id. *)
Lemma scan_frame (env : Env) (txNodeId : nat) (l : list Node) :
  forall c c',
    forEachM (expectReceiver env txNodeId) l c = Some c' ->
    wavePktSendCount c' = wavePktSendCount c /\
    wavePktReceiveCount c' = wavePktReceiveCount c /\
    wavePktInCoverageReceiveCount c' = wavePktInCoverageReceiveCount c /\
    exists k,
      (k <= List.length (filter (fun o => negb (Nat.eqb (GetId o) txNodeId)) l))%nat /\
      wavePktExpectedReceiveCount c' =
        Nat.iter k int_incr (wavePktExpectedReceiveCount c).
Proof.
  induction l as [ | o l IH]; intros c c' Hscan.
  - cbn in Hscan. inversion Hscan; subst. repeat split. exists 0%nat. now cbn.
  - cbn [forEachM filter] in *.
    destruct (expectReceiver env txNodeId c o) as [c1 | ] eqn:Estep;
      [ | discriminate ].
    cbn [bind] in Hscan.
    destruct (IH c1 c' Hscan) as (Hs & Hr & Hi & k & Hk & He).
    unfold expectReceiver in Estep.
    destruct (negb (Nat.eqb (GetId o) txNodeId)).
    + assert (Hstep : c1 = c \/ c1 = incrExpectedReceiveCount c).
      { destruct (GetMobilityModel env o) as [om | ]; [ | discriminate ].
        cbn [bind] in Estep.
        destruct (receiverMoving (GetVelocity om)); [ | left; congruence ].
        destruct (Get (m_adhocTxNodes env) txNodeId) as [txNode | ];
          [ | discriminate ].
        cbn [bind] in Estep.
        destruct (getDistSq env txNode o) as [d | ]; [ | discriminate ].
        cbn [bind] in Estep.
        destruct (d <=? m_txSafetyRangeSq env)%float; [ right | left ]; congruence. }
      destruct Hstep as [-> | ->].
      * repeat split; try assumption. exists k. split; [ cbn; lia | exact He ].
      * repeat split; try assumption. exists (S k). split; [ cbn; lia | ].
        rewrite Nat.iter_succ_r. exact He.
    + inversion Estep; subst. repeat split; try assumption.
      exists k. split; [ lia | exact He ].
Qed.

(** X1.  Whenever a generator tick returns, the receive and in-coverage
    counters are untouched and the tick took one of three shapes.  With a
    budget of 0: only [Close], no counter changed.  With budget left and a
    sender that does not move (both planar components of its velocity are
    zero): nothing sent, only the rescheduling with budget - 1, no counter
    changed.  With budget left and a sender that moves: exactly one beacon
    sent before the rescheduling, the send counter incremented once.  It
    never sends twice and never both closes and reschedules. *)
Theorem tick_shape (env : Env) (c c' : WaveCounters) (socket : Socket)
    (pktSize pktCount : N) (pktInterval : Time) (acts : list Action) :
  GenerateWaveTraffic env c socket pktSize pktCount pktInterval = Some (c', acts) ->
  wavePktReceiveCount c' = wavePktReceiveCount c /\
  wavePktInCoverageReceiveCount c' = wavePktInCoverageReceiveCount c /\
  ((pktCount = 0%N /\ c' = c /\ acts = [ActClose socket]) \/
   (exists txNode sm,
      (0 < pktCount)%N /\
      Get (m_adhocTxNodes env) (GetId (GetNode socket)) = Some txNode /\
      GetMobilityModel env txNode = Some sm /\
      ((spec_moving sm = false /\
        c' = c /\
        acts = [ActSchedule pktInterval
                  (EvGenerateWaveTraffic socket pktSize (pktCount - 1) pktInterval)]) \/
       (spec_moving sm = true /\
        wavePktSendCount c' = int_incr (wavePktSendCount c) /\
        acts = [ActSend socket pktSize;
                ActSchedule pktInterval
                  (EvGenerateWaveTraffic socket pktSize (pktCount - 1)
                     pktInterval)])))).
Proof.
  unfold GenerateWaveTraffic. intros H.
  destruct (N.ltb_spec 0 pktCount) as [Hpos | Hzero].
  - destruct (Get (m_adhocTxNodes env) (GetId (GetNode socket))) as [txNode | ];
      [ | discriminate ].
    cbn [bind] in H.
    destruct (GetMobilityModel env txNode) as [sm | ] eqn:Esm; [ | discriminate ].
    cbn [bind] in H.
    rewrite senderMoving_receiverMoving, receiverMoving_spec in H.
    destruct (spec_moving sm) eqn:Emoving.
    + destruct (forEachM (expectReceiver env (GetId (GetNode socket)))
                  (m_adhocTxNodes env) (incrSendCount c)) as [c1 | ] eqn:Escan;
        [ | discriminate ].
      cbn [bind fst snd app] in H. inversion H; subst.
      destruct (scan_frame env _ _ _ _ Escan) as (Hs & Hr & Hi & _).
      split; [ exact Hr | ]. split; [ exact Hi | ].
      right. exists txNode, sm.
      split; [ exact Hpos | ]. split; [ reflexivity | ]. split; [ exact Esm | ].
      right. split; [ exact Emoving | ]. split; [ exact Hs | reflexivity ].
    + cbn [bind fst snd app] in H. inversion H; subst.
      split; [ reflexivity | ]. split; [ reflexivity | ].
      right. exists txNode, sm.
      split; [ exact Hpos | ]. split; [ reflexivity | ]. split; [ exact Esm | ].
      left. split; [ exact Emoving | ]. now split.
  - inversion H; subst. split; [ reflexivity | ]. split; [ reflexivity | ].
    left. repeat split. lia.
Qed.

Lemma tick_shape_witness :
  wavePktReceiveCount (mkCounters 8 5 2 10) = 5 /\
  wavePktInCoverageReceiveCount (mkCounters 8 5 2 10) = 2 /\
  ((3%N = 0%N /\ mkCounters 8 5 2 10 = mkCounters 7 5 2 9 /\
    [ActSend (mkSocket (mkNode 0)) 200;
     ActSchedule 100000000
       (EvGenerateWaveTraffic (mkSocket (mkNode 0)) 200 2 100000000)]
    = [ActClose (mkSocket (mkNode 0))]) \/
   (exists txNode sm,
      (0 < 3)%N /\
      Get (m_adhocTxNodes demo_env) 0%nat = Some txNode /\
      GetMobilityModel demo_env txNode = Some sm /\
      ((spec_moving sm = false /\
        mkCounters 8 5 2 10 = mkCounters 7 5 2 9 /\
        [ActSend (mkSocket (mkNode 0)) 200;
         ActSchedule 100000000
           (EvGenerateWaveTraffic (mkSocket (mkNode 0)) 200 2 100000000)]
        = [ActSchedule 100000000
             (EvGenerateWaveTraffic (mkSocket (mkNode 0)) 200 (3 - 1) 100000000)]) \/
       (spec_moving sm = true /\
        8 = int_incr 7 /\
        [ActSend (mkSocket (mkNode 0)) 200;
         ActSchedule 100000000
           (EvGenerateWaveTraffic (mkSocket (mkNode 0)) 200 2 100000000)]
        = [ActSend (mkSocket (mkNode 0)) 200;
           ActSchedule 100000000
             (EvGenerateWaveTraffic (mkSocket (mkNode 0)) 200 (3 - 1)
                100000000)])))).
Proof.
  refine (tick_shape demo_env (mkCounters 7 5 2 9) (mkCounters 8 5 2 10)
            (mkSocket (mkNode 0)) 200 3 100000000
            [ActSend (mkSocket (mkNode 0)) 200;
             ActSchedule 100000000
               (EvGenerateWaveTraffic (mkSocket (mkNode 0)) 200 2 100000000)] _).
  reflexivity.
Defined.

(** X7.  When the node container has no duplicate and holds the sender at
    its own id, one tick raises the expected counter by at most the number
    of other nodes, and never lowers it. *)
Theorem expected_growth_bounded (env : Env) (c c' : WaveCounters)
    (socket : Socket) (pktSize pktCount : N) (pktInterval : Time)
    (acts : list Action) :
  NoDup (m_adhocTxNodes env) ->
  Get (m_adhocTxNodes env) (GetId (GetNode socket)) = Some (GetNode socket) ->
  INT_MIN <= wavePktExpectedReceiveCount c ->
  wavePktExpectedReceiveCount c + Z.of_nat (List.length (m_adhocTxNodes env)) - 1
    <= INT_MAX ->
  GenerateWaveTraffic env c socket pktSize pktCount pktInterval = Some (c', acts) ->
  wavePktExpectedReceiveCount c <= wavePktExpectedReceiveCount c'
    <= wavePktExpectedReceiveCount c + Z.of_nat (List.length (m_adhocTxNodes env)) - 1.
Proof.
  intros Hnd Hidx Hlo Hhi H.
  assert (Hlen : (1 <= List.length (m_adhocTxNodes env))%nat).
  { apply nth_error_In in Hidx. destruct (m_adhocTxNodes env); [ destruct Hidx | cbn; lia ]. }
  unfold GenerateWaveTraffic in H.
  destruct (0 <? pktCount)%N; [ | inversion H; subst; lia ].
  rewrite Hidx in H. cbn [bind] in H.
  destruct (GetMobilityModel env (GetNode socket)) as [sm | ]; [ | discriminate ].
  cbn [bind] in H.
  destruct (senderMoving (GetVelocity sm)).
  - destruct (forEachM (expectReceiver env (GetId (GetNode socket)))
                (m_adhocTxNodes env) (incrSendCount c)) as [c1 | ] eqn:Escan;
      [ | discriminate ].
    cbn [bind fst snd] in H. inversion H; subst.
    destruct (scan_frame env _ _ _ _ Escan) as (_ & _ & _ & k & Hk & He).
    assert (Hothers :
      S (List.length
           (filter (fun o => negb (Nat.eqb (GetId o) (GetId (GetNode socket))))
                   (m_adhocTxNodes env)))
      = List.length (m_adhocTxNodes env)).
    { pose proof (filter_other_length (fun _ => true) (GetNode socket)
                    (m_adhocTxNodes env) Hnd (nth_error_In _ _ Hidx) eq_refl) as H1.
      assert (E1 : filter (fun o => negb (Nat.eqb (GetId o) (GetId (GetNode socket)))
                                   && true) (m_adhocTxNodes env)
                   = filter (fun o => negb (Nat.eqb (GetId o) (GetId (GetNode socket))))
                            (m_adhocTxNodes env)).
      { apply filter_ext. intros o. apply andb_true_r. }
      assert (E2 : filter (fun _ : Node => true) (m_adhocTxNodes env)
                   = m_adhocTxNodes env).
      { apply forallb_filter_id. now apply forallb_forall. }
      cbv beta in H1. now rewrite E1, E2 in H1. }
    rewrite He. cbn [incrSendCount wavePktExpectedReceiveCount].
    rewrite iter_int_incr by lia. lia.
  - cbn [bind fst] in H. inversion H; subst. lia.
Qed.

Lemma expected_growth_bounded_witness :
  9 <= 10 <= 9 + Z.of_nat 3 - 1.
Proof.
  refine (expected_growth_bounded demo_env (mkCounters 7 5 2 9) (mkCounters 8 5 2 10)
            (mkSocket (mkNode 0)) 200 3 100000000
            [ActSend (mkSocket (mkNode 0)) 200;
             ActSchedule 100000000
               (EvGenerateWaveTraffic (mkSocket (mkNode 0)) 200 2 100000000)]
            _ _ _ _ _).
  - cbn. repeat constructor; cbn; intuition discriminate.
  - reflexivity.
  - unfold INT_MIN; cbn; lia.
  - vm_compute; discriminate.
  - reflexivity.
Defined.

(** ** One generator under changing mobility *)

(** A tick with budget left in a ready world always returns: it sends one
    beacon if the sender moves at that instant, and reschedules. *)
Lemma tick_ready (env : Env) (c : WaveCounters) (socket : Socket)
    (pktSize : N) (b : nat) (pktInterval : Time) :
  sender_ready env socket ->
  exists c',
    GenerateWaveTraffic env c socket pktSize (N.of_nat (S b)) pktInterval =
      Some (c',
            (if movingNode env (GetNode socket)
             then [ActSend socket pktSize] else []) ++
            [ActSchedule pktInterval
               (EvGenerateWaveTraffic socket pktSize (N.of_nat b) pktInterval)]) /\
    wavePktSendCount c' =
      (if movingNode env (GetNode socket)
       then int_incr (wavePktSendCount c) else wavePktSendCount c) /\
    wavePktReceiveCount c' = wavePktReceiveCount c /\
    wavePktInCoverageReceiveCount c' = wavePktInCoverageReceiveCount c.
Proof.
  intros [Hidx Hall].
  unfold GenerateWaveTraffic, movingNode.
  replace (0 <? N.of_nat (S b))%N with true by (symmetry; apply N.ltb_lt; lia).
  replace (N.of_nat (S b) - 1)%N with (N.of_nat b) by lia.
  rewrite Hidx. cbn [bind].
  destruct (GetMobilityModel env (GetNode socket)) as [sm | ] eqn:Hsm;
    [ | exfalso; exact (Hall _ (nth_error_In _ _ Hidx) Hsm) ].
  cbn [bind]. rewrite senderMoving_receiverMoving, receiverMoving_spec.
  destruct (spec_moving sm).
  - destruct (forEachM (expectReceiver env (GetId (GetNode socket)))
                (m_adhocTxNodes env) (incrSendCount c)) as [c' | ] eqn:Escan.
    + destruct (scan_frame env _ _ _ _ Escan) as (Hs & Hr & Hi & _).
      exists c'. cbn [bind fst snd app]. now repeat split.
    + exfalso.
      apply (forEachM_None (expectReceiver env (GetId (GetNode socket)))
               (fun o => GetId o <> GetId (GetNode socket) /\
                         GetMobilityModel env o = None)) in Escan.
      * destruct Escan as (o & Hin & _ & Hnone). exact (Hall o Hin Hnone).
      * intros s o _. now apply expectReceiver_None with (txNode := GetNode socket) (sm := sm).
  - exists c. cbn [bind fst snd app]. now repeat split.
Qed.

Lemma chain_sends_le (envAt : Time -> Env) (socket : Socket) (pktInterval : Time)
    (b : nat) : forall t, (chain_sends envAt socket pktInterval t b <= b)%nat.
Proof.
  induction b as [ | b IH]; intros t; cbn [chain_sends]; [ lia | ].
  specialize (IH (t + pktInterval)).
  destruct (movingNode (envAt t) (GetNode socket)); lia.
Qed.

(** X8.  A generator with a budget of [b] beacons, followed through its
    own rescheduling while the mobility changes, ends after exactly [b + 1]
    invocations with the [Close] at [t + b * pktInterval].  It sends one
    beacon at each tick time [t + k * pktInterval], [k < b], at which the
    sender moves and none at the others, so at most [b] beacons; the send
    counter grows by the number of beacons sent, and the receive and
    in-coverage counters are not touched. *)
Theorem chain_under_changing_mobility (envAt : Time -> Env) (socket : Socket)
    (pktSize : N) (pktInterval : Time) (b : nat) :
  forall (t : Time) (c : WaveCounters) (fuel : nat),
  (forall k, (k < b)%nat ->
             sender_ready (envAt (t + Z.of_nat k * pktInterval)) socket) ->
  INT_MIN <= wavePktSendCount c ->
  wavePktSendCount c + Z.of_nat b <= INT_MAX ->
  exists c',
    generatorChain envAt (S b + fuel) t c
      (EvGenerateWaveTraffic socket pktSize (N.of_nat b) pktInterval) [] =
      ChainEnded c' (chain_log envAt socket pktSize pktInterval t b) /\
    wavePktSendCount c' =
      wavePktSendCount c + Z.of_nat (chain_sends envAt socket pktInterval t b) /\
    (chain_sends envAt socket pktInterval t b <= b)%nat /\
    wavePktReceiveCount c' = wavePktReceiveCount c /\
    wavePktInCoverageReceiveCount c' = wavePktInCoverageReceiveCount c /\
    generatorChain envAt b t c
      (EvGenerateWaveTraffic socket pktSize (N.of_nat b) pktInterval) [] =
      ChainOutOfFuel.
Proof.
  assert (Hgen : forall (t : Time) (c : WaveCounters) (fuel : nat)
                        (log : list (Time * Action)),
    (forall k, (k < b)%nat ->
               sender_ready (envAt (t + Z.of_nat k * pktInterval)) socket) ->
    INT_MIN <= wavePktSendCount c ->
    wavePktSendCount c + Z.of_nat b <= INT_MAX ->
    exists c',
      generatorChain envAt (S b + fuel) t c
        (EvGenerateWaveTraffic socket pktSize (N.of_nat b) pktInterval) log =
        ChainEnded c' (log ++ chain_log envAt socket pktSize pktInterval t b) /\
      wavePktSendCount c' =
        wavePktSendCount c + Z.of_nat (chain_sends envAt socket pktInterval t b) /\
      wavePktReceiveCount c' = wavePktReceiveCount c /\
      wavePktInCoverageReceiveCount c' = wavePktInCoverageReceiveCount c /\
      generatorChain envAt b t c
        (EvGenerateWaveTraffic socket pktSize (N.of_nat b) pktInterval) log =
        ChainOutOfFuel).
  { induction b as [ | b IH]; intros t c fuel log Hready Hlo Hhi.
    - exists c. cbn. repeat split. lia.
    - destruct (tick_ready (envAt t) c socket pktSize b pktInterval)
        as (c1 & Htick & Hs1 & Hr1 & Hi1).
      { replace t with (t + Z.of_nat 0 * pktInterval) by lia. apply Hready. lia. }
      pose proof (chain_sends_le envAt socket pktInterval b (t + pktInterval)) as Hle.
      assert (Hsent1 : wavePktSendCount c1 =
                       wavePktSendCount c
                       + (if movingNode (envAt t) (GetNode socket) then 1 else 0)).
      { rewrite Hs1. destruct (movingNode (envAt t) (GetNode socket)); [ | lia ].
        apply int_incr_succ. lia. }
      destruct (IH (t + pktInterval) c1 fuel
                   (log ++ transportActions t
                      ((if movingNode (envAt t) (GetNode socket)
                        then [ActSend socket pktSize] else []) ++
                       [ActSchedule pktInterval
                          (EvGenerateWaveTraffic socket pktSize (N.of_nat b)
                             pktInterval)])))
        as (c' & Hchain & Hs & Hr & Hi & Hfuel).
      { intros k Hk.
        replace (t + pktInterval + Z.of_nat k * pktInterval)
          with (t + Z.of_nat (S k) * pktInterval) by lia.
        apply Hready. lia. }
      { rewrite Hsent1. destruct (movingNode (envAt t) (GetNode socket)); lia. }
      { rewrite Hsent1. destruct (movingNode (envAt t) (GetNode socket)); lia. }
      exists c'.
      assert (Hsched : scheduled
                ((if movingNode (envAt t) (GetNode socket)
                  then [ActSend socket pktSize] else []) ++
                 [ActSchedule pktInterval
                    (EvGenerateWaveTraffic socket pktSize (N.of_nat b) pktInterval)])
              = Some (pktInterval,
                      EvGenerateWaveTraffic socket pktSize (N.of_nat b) pktInterval)).
      { now destruct (movingNode (envAt t) (GetNode socket)). }
      split; [ | split; [ | split; [ | split ] ] ].
      + change (S (S b) + fuel)%nat with (S (S b + fuel)).
        cbn [generatorChain]. rewrite Htick, Hsched, Hchain.
        f_equal. rewrite <- app_assoc. f_equal.
        cbn [chain_log].
        now destruct (movingNode (envAt t) (GetNode socket)).
      + rewrite Hs, Hsent1. cbn [chain_sends].
        destruct (movingNode (envAt t) (GetNode socket)); lia.
      + congruence.
      + congruence.
      + cbn [generatorChain]. rewrite Htick, Hsched. exact Hfuel. }
  intros t c fuel Hready Hlo Hhi.
  destruct (Hgen t c fuel [] Hready Hlo Hhi) as (c' & Hchain & Hs & Hr & Hi & Hfuel).
  exists c'. split; [ exact Hchain | ]. split; [ exact Hs | ].
  split; [ apply chain_sends_le | ]. now repeat split.
Qed.

Lemma chain_under_changing_mobility_witness :
  exists c',
    generatorChain waking_env (4 + 0) 1000000000 initial_counters
      (EvGenerateWaveTraffic (mkSocket (mkNode 0)) 200 3 1000000000) [] =
      ChainEnded c'
        [(2000000000, ActSend (mkSocket (mkNode 0)) 200);
         (3000000000, ActSend (mkSocket (mkNode 0)) 200);
         (4000000000, ActClose (mkSocket (mkNode 0)))] /\
    wavePktSendCount c' = 0 + Z.of_nat 2 /\
    (2 <= 3)%nat /\
    wavePktReceiveCount c' = 0 /\
    wavePktInCoverageReceiveCount c' = 0 /\
    generatorChain waking_env 3 1000000000 initial_counters
      (EvGenerateWaveTraffic (mkSocket (mkNode 0)) 200 3 1000000000) [] =
      ChainOutOfFuel.
Proof.
  refine (chain_under_changing_mobility waking_env (mkSocket (mkNode 0)) 200
            1000000000 3 1000000000 initial_counters 0 _ _ _).
  - intros k _. split; [ reflexivity | ].
    intros o [<- | [<- | []]]; discriminate.
  - unfold INT_MIN; cbn; lia.
  - vm_compute; discriminate.
Defined.

(** ** The routing sink and the sampler *)

Lemma wrap_uint32_add_l (a b : Z) :
  wrap_uint32 (wrap_uint32 a + b) = wrap_uint32 (a + b).
Proof. unfold wrap_uint32. apply Zplus_mod_idemp_l. Qed.

Lemma wrap_uint32_range (v : Z) : 0 <= wrap_uint32 v < 2 ^ 32.
Proof. unfold wrap_uint32. apply Z.mod_pos_bound. lia. Qed.

Lemma wrap_uint32_id (v : Z) : 0 <= v < 2 ^ 32 -> wrap_uint32 v = v.
Proof. unfold wrap_uint32. intros H. now apply Z.mod_small. Qed.

(** X9.  Draining the routing sink adds the number of packets and the
    sum of their sizes to the interval totals and to the run-long totals,
    modulo 2^32 as [uint32_t] arithmetic does, and leaves the other members
    alone. *)
Theorem routing_drain_totals (queue : list Packet) (m : Members) (tot : Totals) :
  0 <= bytesTotal m < 2 ^ 32 ->
  0 <= packetsReceived m < 2 ^ 32 ->
  0 <= totalBytesTotal tot < 2 ^ 32 ->
  0 <= totalPacketsReceived tot < 2 ^ 32 ->
  ReceivePacket queue (m, tot) =
    (mkMembers (wrap_uint32 (bytesTotal m + queueBytes queue))
               (wrap_uint32 (packetsReceived m + Z.of_nat (List.length queue)))
               (m_nSinks m) (m_protocolName m) (m_txp m),
     mkTotals (wrap_uint32 (totalBytesTotal tot + queueBytes queue))
              (wrap_uint32 (totalPacketsReceived tot + Z.of_nat (List.length queue)))).
Proof.
  unfold ReceivePacket. revert m tot.
  induction queue as [ | packet queue IH]; intros m tot Hb Hp Htb Htp.
  - cbn. rewrite !Z.add_0_r, !wrap_uint32_id by assumption.
    now destruct m, tot.
  - cbn [fold_left queueBytes fold_right List.length]. unfold receiveRouted at 2.
    cbn [fst snd]. rewrite IH by apply wrap_uint32_range.
    cbn [bytesTotal packetsReceived m_nSinks m_protocolName m_txp
         totalBytesTotal totalPacketsReceived].
    rewrite !wrap_uint32_add_l, Nat2Z.inj_succ.
    fold (queueBytes queue).
    f_equal; f_equal; try reflexivity; apply (f_equal wrap_uint32); lia.
Qed.

Lemma routing_drain_totals_witness :
  ReceivePacket [mkPacket 64 (Some 167837697); mkPacket 64 None]
                (mkMembers 4294967200 7 10 "AODV" 20, mkTotals 1000 4294967295) =
    (mkMembers 32 9 10 "AODV" 20, mkTotals 1128 1).
Proof.
  refine (routing_drain_totals [mkPacket 64 (Some 167837697); mkPacket 64 None]
            (mkMembers 4294967200 7 10 "AODV" 20) (mkTotals 1000 4294967295)
            _ _ _ _); cbn; lia.
Defined.

Lemma sampledPackets_app (rows : list Row) (r : Row) :
  sampledPackets (rows ++ [r]) = sampledPackets rows + row_packetsReceived r.
Proof.
  induction rows as [ | r' rows IH]; cbn [app sampledPackets fold_right].
  - lia.
  - fold (sampledPackets (rows ++ [r])). fold (sampledPackets rows). lia.
Qed.

(** The invariant behind the next theorem. *)
Lemma callback_keeps_total (e : Experiment) (cb : Callback) :
  0 <= packetsReceived (exp_members e) < 2 ^ 32 ->
  0 <= totalPacketsReceived (exp_totals e) < 2 ^ 32 ->
  totalPacketsReceived (exp_totals e) =
    wrap_uint32 (sampledPackets (exp_rows e) + packetsReceived (exp_members e)) ->
  0 <= packetsReceived (exp_members (callback e cb)) < 2 ^ 32 /\
  0 <= totalPacketsReceived (exp_totals (callback e cb)) < 2 ^ 32 /\
  totalPacketsReceived (exp_totals (callback e cb)) =
    wrap_uint32 (sampledPackets (exp_rows (callback e cb))
                 + packetsReceived (exp_members (callback e cb))).
Proof.
  intros Hp Ht Hinv. destruct cb as [queue | now | c]; cbn [callback].
  - cbn [exp_members exp_totals exp_rows].
    revert Hp Ht Hinv.
    generalize (exp_members e) as m, (exp_totals e) as tot,
               (sampledPackets (exp_rows e)) as sampled.
    unfold ReceivePacket.
    induction queue as [ | packet queue IH]; intros m tot sampled Hp Ht Hinv.
    + cbn. now repeat split.
    + cbn [fold_left]. apply IH; unfold receiveRouted;
        cbn [fst snd packetsReceived totalPacketsReceived];
        try apply wrap_uint32_range.
      rewrite Hinv, wrap_uint32_add_l.
      rewrite (Z.add_comm sampled (wrap_uint32 (packetsReceived m + 1))).
      rewrite wrap_uint32_add_l. apply (f_equal wrap_uint32). lia.
  - cbn [exp_members exp_totals exp_rows CheckThroughput sample_members
         sample_counters sample_row packetsReceived].
    split; [ lia | ]. split; [ exact Ht | ].
    rewrite Hinv, sampledPackets_app. cbn [row_packetsReceived].
    apply (f_equal wrap_uint32). lia.
  - cbn [exp_members exp_totals exp_rows]. now repeat split.
Qed.

(** X10.  Whatever the interleaving of routing drains, sampler calls and
    beacon traffic since the experiment was built, the run-long packet total
    is the sum of the packet counts of the rows written so far plus the
    count of the current interval, modulo 2^32: the sampler's reset loses
    no packet. *)
Theorem total_is_sampled_plus_current (cbs : list Callback) (nSinks : Z)
    (protocolName : string) (txp : float) :
  let e := callbacks cbs (new_experiment nSinks protocolName txp) in
  totalPacketsReceived (exp_totals e) =
    wrap_uint32 (sampledPackets (exp_rows e) + packetsReceived (exp_members e)).
Proof.
  cbv zeta. unfold callbacks.
  assert (Hgen : forall e,
    0 <= packetsReceived (exp_members e) < 2 ^ 32 ->
    0 <= totalPacketsReceived (exp_totals e) < 2 ^ 32 ->
    totalPacketsReceived (exp_totals e) =
      wrap_uint32 (sampledPackets (exp_rows e) + packetsReceived (exp_members e)) ->
    totalPacketsReceived (exp_totals (fold_left callback cbs e)) =
      wrap_uint32 (sampledPackets (exp_rows (fold_left callback cbs e))
                   + packetsReceived (exp_members (fold_left callback cbs e)))).
  { induction cbs as [ | cb cbs IH]; intros e Hp Ht Hinv; [ exact Hinv | ].
    cbn [fold_left].
    destruct (callback_keeps_total e cb Hp Ht Hinv) as (Hp' & Ht' & Hinv').
    now apply IH. }
  apply Hgen; cbn; first [ lia | reflexivity ].
Qed.

(** ** The scenario setup *)

Module SetupFacts.
Import Setup.

Ltac open_config :=
  cbv [SetupScenario CommandSetup
       set_scenario set_traceFile set_logFile set_mobility set_nNodes
       set_TotalTime set_nodeSpeed set_nodePause set_CSVfileName set_CSVfileName2
       set_protocol set_protocolName set_txSafetyRangeSq set_txp set_loadBuildings
       set_nSinks set_routing_tables
       m_scenario m_traceFile m_logFile m_mobility m_nNodes m_TotalTime
       m_nodeSpeed m_nodePause m_CSVfileName m_CSVfileName2 m_protocol
       m_protocolName m_txSafetyRangeSq m_txp m_loadBuildings m_nSinks
       m_routing_tables].

(** Deciding the tests of a setup function one at a time: by a known
    equation, by computation when the test is closed, by cases otherwise. *)
Ltac decide_test :=
  match goal with
  | H : ?b = _ |- context [if ?b then _ else _] => rewrite H
  | |- context [if ?b then _ else _] =>
      let v := eval vm_compute in b in
      match v with
      | true => change b with true
      | false => change b with false
      end
  | |- context [if ?b then _ else _] => destruct b eqn:?
  end; cbv iota.

(** Running [SetupScenario] on a configuration given field by field. *)
Ltac run_setup t :=
  let v := eval cbv [SetupScenario CommandSetup
       set_scenario set_traceFile set_logFile set_mobility set_nNodes
       set_TotalTime set_nodeSpeed set_nodePause set_CSVfileName set_CSVfileName2
       set_protocol set_protocolName set_txSafetyRangeSq set_txp set_loadBuildings
       set_nSinks set_routing_tables
       m_scenario m_traceFile m_logFile m_mobility m_nNodes m_TotalTime
       m_nodeSpeed m_nodePause m_CSVfileName m_CSVfileName2 m_protocol
       m_protocolName m_txSafetyRangeSq m_txp m_loadBuildings m_nSinks
       m_routing_tables] in t in
  change t with v; repeat decide_test.

(** X11.  Setting up the scenario twice is the same as setting it up
    once: the values that [SetupScenario] writes are never the sentinels
    (156 nodes, 300.01 s, 7.5 dBm) that it tests. *)
Theorem SetupScenario_idempotent (cfg : Config) :
  SetupScenario (SetupScenario cfg) = SetupScenario cfg.
Proof.
  destruct cfg as [scenario traceFile logFile mobility nNodes TotalTime nodeSpeed
                   nodePause csv1 csv2 protocol protocolName rangeSq txp
                   loadBuildings nSinks routingTables].
  match goal with |- SetupScenario ?inner = _ => run_setup inner end.
  all: match goal with |- ?outer = _ => run_setup outer end.
  all: reflexivity.
Qed.

(** X12.  The value 7.5 of the transmit power is the sign of "not given":
    [SetupScenario] replaces it by 20 and leaves every other power as it
    is.  So a command line that asks for 7.5 dBm runs at 20 dBm, and the
    experiment never runs at 7.5 dBm. *)
Theorem txp_never_7_5 (cfg : Config) :
  m_txp (SetupScenario cfg)
  = (if PrimFloat.eqb (m_txp cfg) 7.5 then 20%float else m_txp cfg) /\
  PrimFloat.eqb (m_txp (SetupScenario cfg)) 7.5 = false.
Proof.
  destruct cfg as [scenario traceFile logFile mobility nNodes TotalTime nodeSpeed
                   nodePause csv1 csv2 protocol protocolName rangeSq txp
                   loadBuildings nSinks routingTables].
  cbn [m_txp].
  match goal with |- context [SetupScenario ?c] => run_setup (SetupScenario c) end.
  all: cbn [m_txp]; split; first [assumption | reflexivity].
Qed.

(** X13.  Under scenario 1 the node count 156 and the total time 300.01 s,
    the defaults of the constructor, are signs of "not given":
    [SetupScenario] replaces them by 40 nodes and 10 s and leaves every
    other node count and total time as they are.  So the experiment never
    runs with 156 nodes nor for 300.01 s.  The mobility is the random
    waypoint model and no trace or log file is named. *)
Theorem scenario1_sentinels (cfg : Config) (H : m_scenario cfg = 1) :
  m_nNodes (SetupScenario cfg) <> 156 /\
  PrimFloat.eqb (m_TotalTime (SetupScenario cfg)) d300_01 = false /\
  (m_nNodes cfg = 156 -> m_nNodes (SetupScenario cfg) = 40) /\
  (m_nNodes cfg <> 156 -> m_nNodes (SetupScenario cfg) = m_nNodes cfg) /\
  m_mobility (SetupScenario cfg) = 2 /\
  m_traceFile (SetupScenario cfg) = EmptyString /\
  m_logFile (SetupScenario cfg) = EmptyString /\
  m_TotalTime (SetupScenario cfg)
  = (if PrimFloat.eqb (m_TotalTime cfg) d300_01 then 10%float
     else m_TotalTime cfg).
Proof.
  destruct cfg as [scenario traceFile logFile mobility nNodes TotalTime nodeSpeed
                   nodePause csv1 csv2 protocol protocolName rangeSq txp
                   loadBuildings nSinks routingTables].
  cbn [m_scenario] in H. subst scenario. cbn [m_TotalTime m_nNodes].
  match goal with |- context [SetupScenario ?c] => run_setup (SetupScenario c) end.
  all: cbn [m_nNodes m_TotalTime m_mobility m_traceFile m_logFile].
  all: repeat match goal with
              | E : (_ =? _) = true |- _ => apply Z.eqb_eq in E
              | E : (_ =? _) = false |- _ => apply Z.eqb_neq in E
              end.
  all: repeat split; try assumption; try reflexivity; try lia.
Qed.

Lemma scenario1_sentinels_witness :
  m_nNodes (SetupScenario defaultConfig) = 40 /\
  m_TotalTime (SetupScenario defaultConfig) = 10%float /\
  m_nNodes (SetupScenario (defaultConfig |> set_nNodes 25)) = 25 /\
  m_mobility (SetupScenario defaultConfig) = 2 /\
  m_traceFile (SetupScenario defaultConfig) = EmptyString /\
  m_logFile (SetupScenario defaultConfig) = EmptyString.
Proof.
  destruct (scenario1_sentinels defaultConfig eq_refl)
    as (_ & _ & Hnodes & _ & Hmobility & Htrace & Hlog & Htime).
  destruct (scenario1_sentinels (defaultConfig |> set_nNodes 25) eq_refl)
    as (_ & _ & _ & Hkept & _).
  split; [exact (Hnodes eq_refl)|].
  split; [exact Htime|].
  split; [apply Hkept; discriminate|].
  split; [exact Hmobility|].
  split; [exact Htrace | exact Hlog].
Defined.

(** X14.  The safety range and the protocol given on the command line are
    overridden by scenario 5 only, which forces 145 m and protocol 0; under
    every other scenario number the range is the square of [txdist] and
    the protocol is the one given. *)
Theorem range_and_protocol_unless_scenario5 (parsed : Config) (txDist : float) :
  let cfg := SetupScenario (CommandSetup parsed txDist) in
  m_txSafetyRangeSq cfg
  = (if m_scenario parsed =? 5 then (145 * 145)%float else (txDist * txDist)%float) /\
  m_protocol cfg = (if m_scenario parsed =? 5 then 0 else m_protocol parsed) /\
  m_nSinks cfg = m_nSinks parsed /\
  m_routing_tables cfg = m_routing_tables parsed /\
  m_scenario cfg = m_scenario parsed.
Proof.
  destruct parsed as [scenario traceFile logFile mobility nNodes TotalTime nodeSpeed
                   nodePause csv1 csv2 protocol protocolName rangeSq txp
                   loadBuildings nSinks routingTables].
  cbv zeta. cbn [m_scenario m_protocol m_nSinks m_routing_tables].
  match goal with |- context [SetupScenario ?c] => run_setup (SetupScenario c) end.
  all: cbn [m_txSafetyRangeSq m_protocol m_nSinks m_routing_tables m_scenario].
  all: repeat match goal with
              | E : (_ =? _) = true |- _ => apply Z.eqb_eq in E; subst
              end.
  all: rewrite ?Z.eqb_refl; try discriminate.
  all: repeat match goal with
              | E : (?a =? ?b) = false |- context [?a =? ?b] => rewrite E
              end.
  all: repeat split; reflexivity.
Qed.

(** The [default] label of the [switch]. *)
Lemma protocol_switch (A : Type) (p : Z) (a0 a1 a2 a3 a4 d : A) :
  match p with 0 => a0 | 1 => a1 | 2 => a2 | 3 => a3 | 4 => a4 | _ => d end
  = if p =? 0 then a0 else if p =? 1 then a1 else if p =? 2 then a2
    else if p =? 3 then a3 else if p =? 4 then a4 else d.
Proof.
  destruct p as [|[[q|q|]|[q|[r|r|]|]|]|q]; reflexivity.
Qed.

Lemma SetupRouting_cases (cfg : Config) :
  SetupRouting cfg
  = if m_protocol cfg =? 0 then
      Some (fst (routed Aodv "AODV" cfg),
            snd (routed Aodv "AODV" cfg) ++ [SetRoutingHelper; InternetInstall])
    else if m_protocol cfg =? 1 then
      Some (fst (routed Olsr "OLSR" cfg),
            snd (routed Olsr "OLSR" cfg) ++ [SetRoutingHelper; InternetInstall])
    else if m_protocol cfg =? 2 then
      Some (fst (routed Aodv "AODV" cfg),
            snd (routed Aodv "AODV" cfg) ++ [SetRoutingHelper; InternetInstall])
    else if m_protocol cfg =? 3 then
      Some (fst (routed Dsdv "DSDV" cfg),
            snd (routed Dsdv "DSDV" cfg) ++ [SetRoutingHelper; InternetInstall])
    else if m_protocol cfg =? 4 then
      Some (cfg |> set_protocolName "DSR", [InternetInstall; DsrMainInstall])
    else None.
Proof.
  unfold SetupRouting. rewrite protocol_switch.
  destruct cfg as [scenario traceFile logFile mobility nNodes TotalTime nodeSpeed
                   nodePause csv1 csv2 protocol protocolName rangeSq txp
                   loadBuildings nSinks routingTables].
  cbn [m_protocol].
  destruct (protocol =? 0) eqn:E0;
    [apply Z.eqb_eq in E0; subst; reflexivity|].
  destruct (protocol =? 1) eqn:E1;
    [apply Z.eqb_eq in E1; subst; reflexivity|].
  destruct (protocol =? 2) eqn:E2;
    [apply Z.eqb_eq in E2; subst; reflexivity|].
  destruct (protocol =? 3) eqn:E3;
    [apply Z.eqb_eq in E3; subst; reflexivity|].
  destruct (protocol =? 4) eqn:E4;
    [apply Z.eqb_eq in E4; subst; reflexivity|].
  reflexivity.
Qed.

(** X15.  [SetupRouting] ends in the fatal error exactly when the protocol
    number is outside 0..4; in every other case the Internet stack is
    installed on the nodes exactly once and the protocol name is one of the
    four names, never the placeholder of the constructor. *)
Theorem SetupRouting_fatal_iff (cfg : Config) :
  (SetupRouting cfg = None <-> (m_protocol cfg < 0 \/ 4 < m_protocol cfg)) /\
  (forall cfg' calls, SetupRouting cfg = Some (cfg', calls) ->
     List.length (filter isInternetInstall calls) = 1%nat /\
     In (m_protocolName cfg') ["OLSR"; "AODV"; "DSDV"; "DSR"]%string /\
     m_protocol cfg' = m_protocol cfg).
Proof.
  rewrite SetupRouting_cases. unfold routed.
  destruct cfg as [scenario traceFile logFile mobility nNodes TotalTime nodeSpeed
                   nodePause csv1 csv2 protocol protocolName rangeSq txp
                   loadBuildings nSinks routingTables].
  cbn [m_protocol m_routing_tables fst snd].
  destruct (protocol =? 0) eqn:E0; [apply Z.eqb_eq in E0|apply Z.eqb_neq in E0].
  2: destruct (protocol =? 1) eqn:E1; [apply Z.eqb_eq in E1|apply Z.eqb_neq in E1].
  3: destruct (protocol =? 2) eqn:E2; [apply Z.eqb_eq in E2|apply Z.eqb_neq in E2].
  4: destruct (protocol =? 3) eqn:E3; [apply Z.eqb_eq in E3|apply Z.eqb_neq in E3].
  5: destruct (protocol =? 4) eqn:E4; [apply Z.eqb_eq in E4|apply Z.eqb_neq in E4].
  all: split; [split; [try discriminate; lia | intros; try reflexivity; lia] |].
  all: intros cfg' calls Hs; try discriminate Hs.
  all: injection Hs as <- <-.
  all: destruct (routingTables =? 0); cbn.
  all: repeat split; auto 6.
Qed.

(** X16.  Under scenario 5, "WAVE BSM only", [SetupRouting] never ends in
    the fatal error, whatever protocol number the command line gave, and it
    installs AODV: the protocol number is 0 and the name written to the CSV
    rows is AODV. *)
Theorem scenario5_installs_aodv (cfg : Config) (H : m_scenario cfg = 5) :
  exists cfg' calls,
    SetupRouting (SetupScenario cfg) = Some (cfg', calls) /\
    m_protocol cfg' = 0 /\
    m_protocolName cfg' = "AODV"%string /\
    In (ListAdd Aodv 100) calls /\
    In InternetInstall calls.
Proof.
  destruct cfg as [scenario traceFile logFile mobility nNodes TotalTime nodeSpeed
                   nodePause csv1 csv2 protocol protocolName rangeSq txp
                   loadBuildings nSinks routingTables].
  cbn [m_scenario] in H. subst scenario.
  match goal with |- context [SetupScenario ?c] => run_setup (SetupScenario c) end.
  all: rewrite SetupRouting_cases; unfold routed.
  all: cbn [m_protocol m_routing_tables fst snd Z.eqb].
  all: do 2 eexists; split; [reflexivity|].
  all: destruct (routingTables =? 0); cbn; auto 8.
Qed.

Lemma scenario5_installs_aodv_witness :
  exists cfg' calls,
    SetupRouting (SetupScenario (defaultConfig |> set_scenario 5 |> set_protocol 7))
    = Some (cfg', calls) /\
    m_protocol cfg' = 0 /\
    m_protocolName cfg' = "AODV"%string /\
    In (ListAdd Aodv 100) calls /\
    In InternetInstall calls.
Proof.
  apply (scenario5_installs_aodv (defaultConfig |> set_scenario 5 |> set_protocol 7)).
  reflexivity.
Defined.

(** ** The routing sinks and sources *)

Section RoutingMessages.

Variable cfg : Config.
Variable nodes : list Node.
Variable ifs : list (Ipv4Address * Node).

Hypothesis Hifs : List.length ifs = List.length nodes.
Hypothesis Hnodes : Z.of_nat (List.length nodes) < 2 ^ 31.
Hypothesis Hsinks : INT_MIN < m_nSinks cfg <= INT_MAX.

Lemma loop_count : Z.to_nat (wrap_int (m_nSinks cfg - 1) + 1) = Z.to_nat (m_nSinks cfg).
Proof.
  f_equal. unfold wrap_int, INT_MIN, INT_MAX in *.
  change (2 ^ 31) with 2147483648. change (2 ^ 32) with 4294967296.
  rewrite Z.mod_small; lia.
Qed.

Lemma sink_index (i : Z) :
  0 <= i < 2 ^ 31 -> index_of_int i = Z.to_nat i.
Proof.
  intros Hi. unfold index_of_int, wrap_uint32.
  change (2 ^ 31) with 2147483648 in Hi. change (2 ^ 32) with 4294967296.
  rewrite Z.mod_small; lia.
Qed.

Lemma source_index (i : Z) :
  0 <= i < m_nSinks cfg ->
  (i + m_nSinks cfg < 2 ^ 31 /\
   index_of_int (wrap_int (i + m_nSinks cfg)) = Z.to_nat (i + m_nSinks cfg)) \/
  (2 ^ 31 <= i + m_nSinks cfg /\
   (List.length nodes <= index_of_int (wrap_int (i + m_nSinks cfg)))%nat).
Proof.
  intros Hi. unfold index_of_int, wrap_uint32, wrap_int, INT_MIN, INT_MAX in *.
  change (2 ^ 31) with 2147483648 in *. change (2 ^ 32) with 4294967296.
  destruct (Z_lt_dec (i + m_nSinks cfg) 2147483648) as [Hlt|Hge].
  - left. split; [assumption|].
    rewrite (Z.mod_small (i + m_nSinks cfg + 2147483648)) by lia.
    rewrite Z.mod_small by lia. f_equal. lia.
  - right. split; [lia|].
    replace ((i + m_nSinks cfg + 2147483648) mod 4294967296)
      with (i + m_nSinks cfg - 2147483648).
    2: { apply Z.mod_unique with (q := 1); lia. }
    replace ((i + m_nSinks cfg - 2147483648 - 2147483648) mod 4294967296)
      with (i + m_nSinks cfg).
    2: { apply Z.mod_unique with (q := -1); lia. }
    lia.
Qed.

Lemma GetInterface_nth (i : Z) :
  0 <= i -> GetInterface ifs i = nth_error ifs (Z.to_nat i).
Proof.
  intros Hi. unfold GetInterface.
  destruct (i <? 0) eqn:E; [apply Z.ltb_lt in E; lia | reflexivity].
Qed.

Lemma routingPair_acc (calls : list AppCall) (i : Z) :
  routingPair cfg nodes ifs calls i
  = match routingPair cfg nodes ifs [] i with
    | Some new => Some (calls ++ new)
    | None => None
    end.
Proof.
  unfold routingPair, bind.
  destruct (negb (m_protocol cfg =? 0)).
  - destruct (GetInterface ifs i); [|reflexivity].
    destruct (Get nodes (index_of_int i)); [|reflexivity].
    destruct (Get nodes (index_of_int (wrap_int (i + m_nSinks cfg)))); reflexivity.
  - destruct (GetInterface ifs i); [|reflexivity].
    destruct (Get nodes (index_of_int (wrap_int (i + m_nSinks cfg)))); reflexivity.
Qed.

(** What one pass of the loop installs. *)
Lemma routingPair_calls (i : Z) (new : list AppCall) :
  0 <= i < m_nSinks cfg ->
  routingPair cfg nodes ifs [] i = Some new ->
  exists a n1 n2,
    nth_error ifs (Z.to_nat i) = Some a /\
    nth_error nodes (Z.to_nat i) = Some n1 /\
    nth_error nodes (Z.to_nat (i + m_nSinks cfg)) = Some n2 /\
    new = (if negb (m_protocol cfg =? 0) then [SinkInstall (fst a) n1] else [])
          ++ [OnOffInstall (fst a) 9 n2].
Proof.
  intros Hi Hrun. unfold routingPair, bind, Get in Hrun.
  rewrite GetInterface_nth in Hrun by lia.
  destruct (nth_error ifs (Z.to_nat i)) as [a|] eqn:Ea.
  2: { destruct (negb (m_protocol cfg =? 0)); discriminate. }
  destruct (nth_error nodes (index_of_int (wrap_int (i + m_nSinks cfg))))
    as [n2|] eqn:En2.
  2: { destruct (negb (m_protocol cfg =? 0)); [|discriminate].
       destruct (nth_error nodes (index_of_int i)); discriminate. }
  destruct (source_index i Hi) as [[Hlt Hidx]|[_ Hout]].
  2: { apply nth_error_None in Hout. congruence. }
  rewrite Hidx in En2.
  assert (Hn1 : exists n1, nth_error nodes (Z.to_nat i) = Some n1).
  { destruct (nth_error nodes (Z.to_nat i)) as [n1|] eqn:E; [eauto|].
    apply nth_error_None in E.
    assert (Z.to_nat (i + m_nSinks cfg) < List.length nodes)%nat
      by (apply nth_error_Some; congruence).
    lia. }
  destruct Hn1 as [n1 Hn1].
  exists a, n1, n2. repeat split; try assumption.
  rewrite sink_index in Hrun by lia. rewrite Hn1 in Hrun.
  destruct (negb (m_protocol cfg =? 0)); cbn in Hrun |- *; congruence.
Qed.

(** When one pass of the loop stays inside the containers. *)
Lemma routingPair_ok (i : Z) :
  0 <= i < m_nSinks cfg ->
  (routingPair cfg nodes ifs [] i <> None
   <-> i + m_nSinks cfg < Z.of_nat (List.length nodes)).
Proof.
  intros Hi. split.
  - intros Hrun.
    destruct (routingPair cfg nodes ifs [] i) as [new|] eqn:E; [|congruence].
    destruct (routingPair_calls i new Hi E) as (a & n1 & n2 & _ & _ & Hn2 & _).
    assert (Z.to_nat (i + m_nSinks cfg) < List.length nodes)%nat
      by (apply nth_error_Some; congruence).
    lia.
  - intros Hlt. unfold routingPair, bind, Get.
    rewrite GetInterface_nth by lia.
    destruct (nth_error ifs (Z.to_nat i)) as [a|] eqn:Ea.
    2: { apply nth_error_None in Ea. lia. }
    destruct (source_index i Hi) as [[_ Hidx]|[Hge _]]; [|lia].
    rewrite Hidx. rewrite sink_index by lia.
    destruct (nth_error nodes (Z.to_nat i)) as [n1|] eqn:En1.
    2: { apply nth_error_None in En1. lia. }
    destruct (nth_error nodes (Z.to_nat (i + m_nSinks cfg))) as [n2|] eqn:En2.
    2: { apply nth_error_None in En2. lia. }
    destruct (negb (m_protocol cfg =? 0)); discriminate.
Qed.

Lemma routingLoop_acc (K : nat) (i : Z) (acc : list AppCall) :
  forIndexM (routingPair cfg nodes ifs) K i acc
  = match forIndexM (routingPair cfg nodes ifs) K i [] with
    | Some r => Some (acc ++ r)
    | None => None
    end.
Proof.
  revert i acc. induction K as [|K IH]; intros i acc.
  - cbn. now rewrite app_nil_r.
  - cbn [forIndexM]. unfold bind.
    rewrite (routingPair_acc acc).
    destruct (routingPair cfg nodes ifs [] i) as [new|]; [|reflexivity].
    rewrite (IH (i + 1) (acc ++ new)), (IH (i + 1) new).
    destruct (forIndexM (routingPair cfg nodes ifs) K (i + 1) []); [|reflexivity].
    cbn. now rewrite app_assoc.
Qed.

Lemma routingLoop_step (K : nat) (i : Z) :
  forIndexM (routingPair cfg nodes ifs) (S K) i []
  = match routingPair cfg nodes ifs [] i with
    | Some new =>
        match forIndexM (routingPair cfg nodes ifs) K (i + 1) [] with
        | Some r => Some (new ++ r)
        | None => None
        end
    | None => None
    end.
Proof.
  cbn [forIndexM]. unfold bind.
  destruct (routingPair cfg nodes ifs [] i) as [new|]; [|reflexivity].
  apply routingLoop_acc.
Qed.

Lemma routingLoop_ok (K : nat) (i : Z) :
  0 <= i -> i + Z.of_nat K <= m_nSinks cfg ->
  (forIndexM (routingPair cfg nodes ifs) K i [] <> None
   <-> (K = 0%nat \/
        i + Z.of_nat K - 1 + m_nSinks cfg < Z.of_nat (List.length nodes))).
Proof.
  revert i. induction K as [|K IH]; intros i Hi HK.
  - cbn. split; [auto | discriminate].
  - rewrite routingLoop_step.
    assert (Hbody := routingPair_ok i ltac:(lia)).
    assert (Hrest := IH (i + 1) ltac:(lia) ltac:(lia)).
    destruct (routingPair cfg nodes ifs [] i) as [new|].
    + destruct (forIndexM (routingPair cfg nodes ifs) K (i + 1) []) as [r|].
      * split; [intros _; right | discriminate].
        assert (Hb : i + m_nSinks cfg < Z.of_nat (List.length nodes))
          by (apply Hbody; discriminate).
        assert (Hr : K = 0%nat \/
                     i + 1 + Z.of_nat K - 1 + m_nSinks cfg
                     < Z.of_nat (List.length nodes))
          by (apply Hrest; discriminate).
        lia.
      * split; [congruence|]. intros [Hz|Hlt]; [discriminate|].
        exfalso. apply (proj2 Hrest); [|reflexivity].
        right. lia.
    + split; [congruence|]. intros [Hz|Hlt]; [discriminate|].
      exfalso. apply (proj2 Hbody); [|reflexivity]. lia.
Qed.

(** Every call of the loop comes from a pass [j], together with the other
    calls of that pass. *)
Lemma routingLoop_calls (K : nat) (i : Z) (calls : list AppCall) :
  0 <= i -> i + Z.of_nat K <= m_nSinks cfg ->
  forIndexM (routingPair cfg nodes ifs) K i [] = Some calls ->
  forall c, In c calls ->
  exists j a n1 n2,
    i <= j < i + Z.of_nat K /\
    nth_error ifs (Z.to_nat j) = Some a /\
    nth_error nodes (Z.to_nat j) = Some n1 /\
    nth_error nodes (Z.to_nat (j + m_nSinks cfg)) = Some n2 /\
    In c ((if negb (m_protocol cfg =? 0) then [SinkInstall (fst a) n1] else [])
          ++ [OnOffInstall (fst a) 9 n2]) /\
    incl ((if negb (m_protocol cfg =? 0) then [SinkInstall (fst a) n1] else [])
          ++ [OnOffInstall (fst a) 9 n2]) calls.
Proof.
  revert i calls. induction K as [|K IH]; intros i calls Hi HK Hrun c Hc.
  - cbn in Hrun. injection Hrun as <-. destruct Hc.
  - rewrite routingLoop_step in Hrun.
    destruct (routingPair cfg nodes ifs [] i) as [new|] eqn:Ebody; [|discriminate].
    destruct (forIndexM (routingPair cfg nodes ifs) K (i + 1) []) as [r|] eqn:Erest;
      [|discriminate].
    injection Hrun as <-.
    apply in_app_or in Hc. destruct Hc as [Hc|Hc].
    + destruct (routingPair_calls i new ltac:(lia) Ebody)
        as (a & n1 & n2 & Ha & Hn1 & Hn2 & ->).
      exists i, a, n1, n2. repeat split; try assumption; try lia.
      apply incl_appl, incl_refl.
    + destruct (IH (i + 1) r ltac:(lia) ltac:(lia) Erest c Hc)
        as (j & a & n1 & n2 & Hj & Ha & Hn1 & Hn2 & Hin & Hincl).
      exists j, a, n1, n2. repeat split; try assumption; try lia.
      apply incl_appr, Hincl.
Qed.

Lemma routingLoop_counts (K : nat) (i : Z) (calls : list AppCall) :
  0 <= i -> i + Z.of_nat K <= m_nSinks cfg ->
  forIndexM (routingPair cfg nodes ifs) K i [] = Some calls ->
  List.length (filter (fun c => negb (isSink c)) calls) = K /\
  List.length (filter isSink calls) = if m_protocol cfg =? 0 then 0%nat else K.
Proof.
  revert i calls. induction K as [|K IH]; intros i calls Hi HK Hrun.
  - cbn in Hrun. injection Hrun as <-. cbn. now destruct (m_protocol cfg =? 0).
  - rewrite routingLoop_step in Hrun.
    destruct (routingPair cfg nodes ifs [] i) as [new|] eqn:Ebody; [|discriminate].
    destruct (forIndexM (routingPair cfg nodes ifs) K (i + 1) []) as [r|] eqn:Erest;
      [|discriminate].
    injection Hrun as <-.
    destruct (routingPair_calls i new ltac:(lia) Ebody)
      as (a & n1 & n2 & _ & _ & _ & ->).
    destruct (IH (i + 1) r ltac:(lia) ltac:(lia) Erest) as [Hsrc Hsnk].
    rewrite !filter_app, !length_app.
    destruct (m_protocol cfg =? 0); cbn; rewrite Hsrc, Hsnk; split; reflexivity.
Qed.

(** X17.  [SetupRoutingMessages] stays inside the node container exactly
    when there is no sink to set up or the nodes are at least twice the
    sinks: source [i] is installed on node [i + m_nSinks]. *)
Theorem SetupRoutingMessages_in_range_iff :
  SetupRoutingMessages cfg nodes ifs <> None
  <-> (m_nSinks cfg <= 0 \/ 2 * m_nSinks cfg <= Z.of_nat (List.length nodes)).
Proof.
  unfold SetupRoutingMessages. rewrite loop_count.
  destruct (Z_le_dec (m_nSinks cfg) 0) as [Hle|Hgt].
  - replace (Z.to_nat (m_nSinks cfg)) with 0%nat by lia.
    cbn. split; [auto | discriminate].
  - rewrite (routingLoop_ok (Z.to_nat (m_nSinks cfg)) 0) by lia.
    lia.
Qed.

(** X18.  When the nodes of the container are distinct, no node carries
    both a sink and a source; every source sends to port 9, and unless the
    protocol is 0 it sends to an address on which a sink was set up. *)
Theorem sinks_and_sources (calls : list AppCall) :
  NoDup nodes ->
  SetupRoutingMessages cfg nodes ifs = Some calls ->
  (forall c1 c2, In c1 calls -> In c2 calls ->
     isSink c1 = true -> isSink c2 = false -> callNode c1 <> callNode c2) /\
  (forall remote remotePort node,
     In (OnOffInstall remote remotePort node) calls ->
     remotePort = 9 /\
     (m_protocol cfg <> 0 -> exists node', In (SinkInstall remote node') calls)).
Proof.
  intros Hdistinct Hrun. unfold SetupRoutingMessages in Hrun.
  rewrite loop_count in Hrun.
  assert (Hcalls : forall c, In c calls ->
            exists j a n1 n2,
              0 <= j < 0 + Z.of_nat (Z.to_nat (m_nSinks cfg)) /\
              nth_error ifs (Z.to_nat j) = Some a /\
              nth_error nodes (Z.to_nat j) = Some n1 /\
              nth_error nodes (Z.to_nat (j + m_nSinks cfg)) = Some n2 /\
              In c ((if negb (m_protocol cfg =? 0)
                     then [SinkInstall (fst a) n1] else [])
                    ++ [OnOffInstall (fst a) 9 n2]) /\
              incl ((if negb (m_protocol cfg =? 0)
                     then [SinkInstall (fst a) n1] else [])
                    ++ [OnOffInstall (fst a) 9 n2]) calls).
  { destruct (Z_le_dec (m_nSinks cfg) 0) as [Hle|Hgt].
    - replace (Z.to_nat (m_nSinks cfg)) with 0%nat in Hrun by lia.
      cbn in Hrun. injection Hrun as <-. intros c [].
    - apply routingLoop_calls; [lia|lia|assumption]. }
  split.
  - intros c1 c2 Hc1 Hc2 Hs1 Hs2 Heq.
    destruct (Hcalls c1 Hc1) as (j1 & a1 & n1 & m1 & Hj1 & _ & Hn1 & _ & Hin1 & _).
    destruct (Hcalls c2 Hc2) as (j2 & a2 & n2 & m2 & Hj2 & _ & _ & Hm2 & Hin2 & _).
    assert (E1 : callNode c1 = n1).
    { apply in_app_or in Hin1. destruct Hin1 as [Hin1|[<-|[]]]; [|discriminate].
      destruct (negb (m_protocol cfg =? 0)); [|destruct Hin1].
      destruct Hin1 as [<-|[]]. reflexivity. }
    assert (E2 : callNode c2 = m2).
    { apply in_app_or in Hin2. destruct Hin2 as [Hin2|[<-|[]]]; [|reflexivity].
      destruct (negb (m_protocol cfg =? 0)); [|destruct Hin2].
      destruct Hin2 as [<-|[]]. discriminate. }
    assert (Hidx : Z.to_nat j1 = Z.to_nat (j2 + m_nSinks cfg)).
    { apply (proj1 (NoDup_nth_error nodes) Hdistinct).
      - apply nth_error_Some. congruence.
      - congruence. }
    lia.
  - intros remote remotePort node Hin.
    destruct (Hcalls _ Hin) as (j & a & n1 & n2 & _ & _ & _ & _ & Hc & Hincl).
    assert (E : remote = fst a /\ remotePort = 9).
    { apply in_app_or in Hc. destruct Hc as [Hc|[Hc|[]]].
      - destruct (negb (m_protocol cfg =? 0)); [|destruct Hc].
        destruct Hc as [Hc|[]]. discriminate.
      - injection Hc as <- <- _. auto. }
    destruct E as [-> ->]. split; [reflexivity|].
    intros Hp. exists n1. apply Hincl.
    apply Z.eqb_neq in Hp. rewrite Hp. cbn. auto.
Qed.

(** X19.  The loop installs one source for each sink asked for, whatever
    the protocol; under protocol 0 it sets up no sink at all, so the
    sources send to addresses on which nothing listens. *)
Theorem sources_without_sinks (calls : list AppCall) :
  SetupRoutingMessages cfg nodes ifs = Some calls ->
  List.length (filter (fun c => negb (isSink c)) calls) = Z.to_nat (m_nSinks cfg) /\
  List.length (filter isSink calls)
  = (if m_protocol cfg =? 0 then 0%nat else Z.to_nat (m_nSinks cfg)).
Proof.
  intros Hrun. unfold SetupRoutingMessages in Hrun. rewrite loop_count in Hrun.
  destruct (Z_le_dec (m_nSinks cfg) 0) as [Hle|Hgt].
  - replace (Z.to_nat (m_nSinks cfg)) with 0%nat in * by lia.
    cbn in Hrun. injection Hrun as <-. cbn. now destruct (m_protocol cfg =? 0).
  - apply (routingLoop_counts (Z.to_nat (m_nSinks cfg)) 0 calls);
      [lia|lia|assumption].
Qed.

End RoutingMessages.

Lemma SetupRoutingMessages_in_range_iff_witness :
  SetupRoutingMessages one_sink two_nodes two_ifs <> None
  <-> (m_nSinks one_sink <= 0 \/
       2 * m_nSinks one_sink <= Z.of_nat (List.length two_nodes)).
Proof.
  apply (SetupRoutingMessages_in_range_iff one_sink two_nodes two_ifs).
  - reflexivity.
  - reflexivity.
  - split; [reflexivity | discriminate].
Defined.

Lemma sinks_and_sources_witness :
  (forall c1 c2, In c1 one_sink_calls -> In c2 one_sink_calls ->
     isSink c1 = true -> isSink c2 = false -> callNode c1 <> callNode c2) /\
  (forall remote remotePort node,
     In (OnOffInstall remote remotePort node) one_sink_calls ->
     remotePort = 9 /\
     (m_protocol one_sink <> 0 ->
      exists node', In (SinkInstall remote node') one_sink_calls)).
Proof.
  apply (sinks_and_sources one_sink two_nodes two_ifs).
  - reflexivity.
  - reflexivity.
  - split; [reflexivity | discriminate].
  - repeat constructor; cbn; intuition discriminate.
  - reflexivity.
Defined.

Lemma sources_without_sinks_witness :
  List.length (filter (fun c => negb (isSink c))
                 [OnOffInstall 167837697 9 (mkNode 1)])
  = Z.to_nat (m_nSinks (one_sink |> set_protocol 0)) /\
  List.length (filter isSink [OnOffInstall 167837697 9 (mkNode 1)])
  = (if m_protocol (one_sink |> set_protocol 0) =? 0
     then 0%nat else Z.to_nat (m_nSinks (one_sink |> set_protocol 0))).
Proof.
  apply (sources_without_sinks (one_sink |> set_protocol 0) two_nodes two_ifs).
  - reflexivity.
  - reflexivity.
  - split; [reflexivity | discriminate].
  - reflexivity.
Defined.


(** ** The flow statistics of [Run] *)

Lemma wrap_int_add_l (a b : Z) : wrap_int (wrap_int a + b) = wrap_int (a + b).
Proof.
  unfold wrap_int.
  f_equal.
  replace ((a + 2 ^ 31) mod 2 ^ 32 - 2 ^ 31 + b + 2 ^ 31)
    with ((a + 2 ^ 31) mod 2 ^ 32 + b) by lia.
  rewrite Z.add_mod_idemp_l by (vm_compute; discriminate).
  f_equal. lia.
Qed.

Lemma wrap_int64_add_l (a b : Z) :
  wrap_int64 (wrap_int64 a + b) = wrap_int64 (a + b).
Proof.
  unfold wrap_int64. f_equal.
  replace ((a + 2 ^ 63) mod 2 ^ 64 - 2 ^ 63 + b + 2 ^ 63)
    with ((a + 2 ^ 63) mod 2 ^ 64 + b) by lia.
  rewrite Z.add_mod_idemp_l by (vm_compute; discriminate).
  f_equal. lia.
Qed.

Lemma addFlow_sums (stats : list FlowStats) (d r j tb rb tp lp : Z) :
  fold_left addFlow stats
    (mkFlowTotals (wrap_int64 d) (wrap_int r) (wrap_int64 j) (wrap_int tb)
                  (wrap_int rb) (wrap_int tp) (wrap_int lp))
  = mkFlowTotals (wrap_int64 (d + routingSum delaySum stats))
                 (wrap_int (r + routingSum rxPackets stats))
                 (wrap_int64 (j + routingSum jitterSum stats))
                 (wrap_int (tb + routingSum txBytes stats))
                 (wrap_int (rb + routingSum rxBytes stats))
                 (wrap_int (tp + routingSum txPackets stats))
                 (wrap_int (lp + routingSum lostPackets stats)).
Proof.
  revert d r j tb rb tp lp.
  induction stats as [|f stats IH]; intros d r j tb rb tp lp.
  - cbn. now rewrite !Z.add_0_r.
  - cbn [fold_left routingSum fold_right]. unfold addFlow at 2.
    cbn [totalDelaySum totalRxPackets totalJitterSum totalTxBytes totalRxBytes
         totalTxPackets totalLostPackets].
    destruct (destinationPort f =? 9).
    + rewrite !wrap_int_add_l, !wrap_int64_add_l, IH.
      unfold routingSum. now rewrite !Z.add_assoc.
    + rewrite IH. unfold routingSum. now rewrite !Z.add_0_l.
Qed.

(** X20.  The totals that [Run] collects are the sums over the flows to
    port 9, whatever other flows the monitor saw, reduced to an [int] (the
    delays to an [int64_t]) once at the end; with the monitor off they are
    all zero. *)
Theorem flow_totals_are_port9_sums (flowmon : Z) (stats : list FlowStats) :
  collectFlows flowmon stats
  = if flowmon =? 0 then noFlows
    else mkFlowTotals (wrap_int64 (routingSum delaySum stats))
                      (wrap_int (routingSum rxPackets stats))
                      (wrap_int64 (routingSum jitterSum stats))
                      (wrap_int (routingSum txBytes stats))
                      (wrap_int (routingSum rxBytes stats))
                      (wrap_int (routingSum txPackets stats))
                      (wrap_int (routingSum lostPackets stats)).
Proof.
  unfold collectFlows. destruct (flowmon =? 0); [reflexivity|]. cbn [negb].
  change noFlows with (mkFlowTotals (wrap_int64 0) (wrap_int 0) (wrap_int64 0)
                         (wrap_int 0) (wrap_int 0) (wrap_int 0) (wrap_int 0)).
  now rewrite addFlow_sums.
Qed.

Lemma routingSum_zero (field : FlowStats -> Z) (stats : list FlowStats) :
  (forall f, In f stats -> destinationPort f = 9 -> field f = 0) ->
  routingSum field stats = 0.
Proof.
  induction stats as [|f stats IH]; intros Hz; [reflexivity|].
  cbn [routingSum fold_right]. fold (routingSum field stats).
  rewrite IH by (intros g Hg; apply Hz; now right).
  destruct (Z.eqb_spec (destinationPort f) 9) as [Hp|Hp]; [|reflexivity].
  rewrite (Hz f (or_introl eq_refl) Hp). reflexivity.
Qed.

(** X21.  When no packet of the flows to port 9 was received, the final
    line reports a loss ratio of 0, and a delay, jitter, received size and
    received throughput of 0, however many packets were lost. *)
Theorem total_loss_reports_no_loss (cfg : Config) (c : WaveCounters)
    (tot : Totals) (flowmon : Z) (stats : list FlowStats) :
  (forall f, In f stats -> destinationPort f = 9 -> rxPackets f = 0) ->
  let s := finalStats cfg c tot (collectFlows flowmon stats) in
  meanPktLossRatio s = 0%float /\
  meanDelay s = 0%float /\
  meanJitter s = 0%float /\
  meanRxPktSize s = 0%float /\
  meanRxThroughputKbps s = 0%float.
Proof.
  intros Hnone s.
  assert (Hrx : totalRxPackets (collectFlows flowmon stats) = 0).
  { unfold collectFlows. destruct (flowmon =? 0); [reflexivity|]. cbn [negb].
    change noFlows with (mkFlowTotals (wrap_int64 0) (wrap_int 0) (wrap_int64 0)
                           (wrap_int 0) (wrap_int 0) (wrap_int 0) (wrap_int 0)).
    rewrite addFlow_sums. cbn [totalRxPackets].
    now rewrite routingSum_zero. }
  subst s. unfold finalStats.
  cbn [meanPktLossRatio meanDelay meanJitter meanRxPktSize meanRxThroughputKbps].
  rewrite Hrx. cbn [Z.ltb Z.compare]. repeat split.
Qed.

Lemma total_loss_reports_no_loss_witness :
  let s := finalStats defaultConfig initial_counters (mkTotals 0 0)
                      (collectFlows 1 lost_flows) in
  meanPktLossRatio s = 0%float /\
  meanDelay s = 0%float /\
  meanJitter s = 0%float /\
  meanRxPktSize s = 0%float /\
  meanRxThroughputKbps s = 0%float.
Proof.
  apply (total_loss_reports_no_loss defaultConfig initial_counters (mkTotals 0 0)
           1 lost_flows).
  intros f [<-|[<-|[]]]; [reflexivity | discriminate].
Defined.

(** ** The files of a run *)

Section RunFiles.

Variable opens : string -> bool.

Lemma extend_extend (st : FileState) (a b : list Line) :
  extend (extend st a) b = extend st (a ++ b).
Proof. destruct st; cbn; [reflexivity | now rewrite app_assoc | reflexivity]. Qed.

Lemma open_out_at (name n : string) (fs : Files) :
  open_out opens name fs n
  = if String.eqb n name && opens name then Holds [] else fs n.
Proof.
  unfold open_out, set_file.
  destruct (opens name); [|now rewrite andb_false_r].
  now rewrite andb_true_r.
Qed.

Lemma append_line_at (name n : string) (l : Line) (fs : Files) :
  append_line opens name l fs n
  = if String.eqb n name && opens name then extend (fs n) [l] else fs n.
Proof.
  unfold append_line, set_file.
  destruct (opens name); [|now rewrite andb_false_r].
  rewrite andb_true_r.
  destruct (String.eqb n name) eqn:E; [|reflexivity].
  apply String.eqb_eq in E. now subst.
Qed.

Lemma open_foreign_other (name n : string) (fs : Files) :
  n <> name -> open_foreign opens name fs n = fs n.
Proof.
  intros Hne. unfold open_foreign. apply String.eqb_neq in Hne.
  destruct (opens name); [|reflexivity].
  unfold set_file. now rewrite Hne.
Qed.

Lemma open_all_other (names : list string) (n : string) (fs : Files) :
  ~ In n names -> open_all opens names fs n = fs n.
Proof.
  unfold open_all. revert fs.
  induction names as [|name names IH]; intros fs Hnot; [reflexivity|].
  cbn [fold_left]. rewrite IH by (intros Hin; apply Hnot; now right).
  apply open_foreign_other. intros ->. apply Hnot. now left.
Qed.

Lemma append_rows_at (name n : string) (r : Row) (rows : list Row) (fs : Files) :
  fold_left (fun fs r => append_line opens name (LRow r) fs) (r :: rows) fs n
  = if String.eqb n name && opens name
    then extend (fs n) (map LRow (r :: rows)) else fs n.
Proof.
  revert r fs. induction rows as [|r' rows IH]; intros r fs.
  - cbn [fold_left map]. apply append_line_at.
  - change (fold_left (fun fs r => append_line opens name (LRow r) fs)
              (r :: r' :: rows) fs)
      with (fold_left (fun fs r => append_line opens name (LRow r) fs)
              (r' :: rows) (append_line opens name (LRow r) fs)).
    rewrite IH, append_line_at.
    destruct (String.eqb n name && opens name); [|reflexivity].
    now rewrite extend_extend.
Qed.

Lemma WriteCsvHeader_at (cfg : Config) (fs : Files) (n : string) :
  WriteCsvHeader opens cfg fs n
  = if String.eqb n (m_CSVfileName2 cfg) && opens (m_CSVfileName2 cfg)
    then Holds [LHeader2]
    else if String.eqb n (m_CSVfileName cfg) && opens (m_CSVfileName cfg)
         then Holds [LHeader]
         else fs n.
Proof.
  unfold WriteCsvHeader.
  repeat first [rewrite append_line_at | rewrite open_out_at].
  destruct (String.eqb n (m_CSVfileName2 cfg) && opens (m_CSVfileName2 cfg));
    destruct (String.eqb n (m_CSVfileName cfg) && opens (m_CSVfileName cfg));
    reflexivity.
Qed.

(** A file that no other stream opens holds what the CSV writers wrote. *)
Lemma RunCsv_at (cfg : Config) (tr : Traces) (first : Row) (later : list Row)
    (final : FinalStats) (fs : Files) (n : string) :
  SetupRouting (SetupScenario cfg) <> None ->
  ~ In n (traceFiles (SetupScenario cfg) tr) ->
  RunCsv opens cfg tr first later final fs n
  = (let afterHeaders := WriteCsvHeader opens cfg fs n in
     let afterRows :=
       if String.eqb n (m_CSVfileName (SetupScenario cfg))
          && opens (m_CSVfileName (SetupScenario cfg))
       then extend afterHeaders (map LRow (first :: later)) else afterHeaders in
     if String.eqb n (m_CSVfileName2 (SetupScenario cfg))
        && opens (m_CSVfileName2 (SetupScenario cfg))
     then extend afterRows [LFinal final] else afterRows).
Proof.
  intros Hrouting Hnot. unfold RunCsv, traceFiles in *. cbv zeta.
  destruct (SetupRouting (SetupScenario cfg)) as [routing|]; [|congruence].
  rewrite append_line_at.
  assert (Hlog : n <> m_logFile (SetupScenario cfg)).
  { intros ->. apply Hnot. now left. }
  assert (Hrest : ~ In n ((if negb (m_ascii_trace tr =? 0)
                           then [(m_tr_name ++ ".tr")%string] else [])
                          ++ (if negb (m_pcap tr =? 0) then pcapFiles tr else [])
                          ++ ["routing_table"%string; (m_tr_name ++ ".mob")%string]
                          ++ (if negb (m_flowmon tr =? 0)
                              then [(m_tr_name ++ ".flowmon")%string] else []))).
  { intros Hin. apply Hnot. now right. }
  clear Hnot.
  assert (Hafter : forall fs0 : Files,
            (if negb (m_flowmon tr =? 0)
             then open_foreign opens (m_tr_name ++ ".flowmon") fs0 else fs0) n
            = fs0 n).
  { intros fs0. destruct (negb (m_flowmon tr =? 0)); [|reflexivity].
    apply open_foreign_other. intros ->. apply Hrest.
    rewrite !in_app_iff. right. right. right. now left. }
  rewrite Hafter, append_rows_at.
  rewrite open_foreign_other.
  2: { intros ->. apply Hrest. rewrite !in_app_iff. right. right. left.
       right. now left. }
  rewrite open_foreign_other.
  2: { intros ->. apply Hrest. rewrite !in_app_iff. right. right. left.
       now left. }
  assert (Hpcap : forall fs0 : Files,
            (if negb (m_pcap tr =? 0) then open_all opens (pcapFiles tr) fs0
             else fs0) n = fs0 n).
  { intros fs0. destruct (negb (m_pcap tr =? 0)); [|reflexivity].
    apply open_all_other. intros Hin. apply Hrest.
    rewrite !in_app_iff. right. now left. }
  rewrite Hpcap.
  assert (Hascii : forall fs0 : Files,
            (if negb (m_ascii_trace tr =? 0)
             then open_foreign opens (m_tr_name ++ ".tr") fs0 else fs0) n
            = fs0 n).
  { intros fs0. destruct (negb (m_ascii_trace tr =? 0)); [|reflexivity].
    apply open_foreign_other. intros ->. apply Hrest.
    rewrite !in_app_iff. left. now left. }
  rewrite Hascii, open_foreign_other by exact Hlog.
  reflexivity.
Qed.



End RunFiles.



(** X24.  Every row of [CheckThroughput] has one value for each column
    of the header, but two of them stand under the other's name: the column
    headed WavePktsSent holds the receive counter and the column headed
    WavePtksReceived the send counter.  The columns of the expected and
    in-coverage counters and of the two ratios hold what their names say. *)
Theorem row_columns (now : Time) (m : Members) (c : WaveCounters) :
  let cells := rowCells (sample_row (CheckThroughput now m c)) in
  List.length cells = List.length csvHeader /\
  column "WavePktsSent" csvHeader cells = Some (CInt (wavePktReceiveCount c)) /\
  column "WavePtksReceived" csvHeader cells = Some (CInt (wavePktSendCount c)) /\
  column "WavePktsPpr" csvHeader cells = Some (CFloat (wavePDR c)) /\
  column "ExpectedWavePktsReceived" csvHeader cells
  = Some (CInt (wavePktExpectedReceiveCount c)) /\
  column "ExpectedWavePktsInCoverageReceived" csvHeader cells
  = Some (CInt (wavePktInCoverageReceiveCount c)) /\
  column "BSM_PDR" csvHeader cells = Some (CFloat (wavePDR2 c)) /\
  column "PacketsReceived" csvHeader cells = Some (CInt (packetsReceived m)).
Proof.
  cbv zeta. unfold CheckThroughput.
  cbn [sample_row rowCells row_now row_kbs row_packetsReceived row_nSinks
       row_protocolName row_txp row_wavePktReceiveCount row_wavePktSendCount
       row_wavePDR row_wavePktExpectedReceiveCount
       row_wavePktInCoverageReceiveCount row_wavePDR2].
  repeat split.
Qed.

End SetupFacts.
